(** * Thor-OS network stack: transport layers, sockets and semaphore

    A shallow embedding of the kernel network code of thor-os
    (kernel/src/net/{icmp,udp,tcp}_layer.cpp, kernel/include/net/socket.hpp,
    kernel/include/conc/semaphore.hpp) together with the properties of its
    specification.

    Conventions.
    - Unsigned machine integers are [Z] with the wrap-around written out
      ([wrap16], [wrap32], [wrap64]).
    - Packet buffers are [list byte]; multi-byte fields are loaded and stored
      in host (little-endian) order and converted with [switch_endian_16] and
      [switch_endian_32], as the C++ code does.
    - Code that stops the kernel (thor_unreachable, a failed assertion) or
      that has no defined behaviour is a [Fatal] outcome.
    - Collaborators whose code lies outside these files (the IP layer, the
      scheduler, the timer) are parameters or explicit event scripts. *)

From Stdlib Require Import Strings.String Strings.Byte.
From Stdlib Require Import ZArith List Bool Lia.
Import ListNotations.
Local Open Scope Z_scope.

Set Implicit Arguments.

(* ===================================================================== *)
(** ** Outcomes of kernel code *)
(* ===================================================================== *)

Inductive fault : Type :=
| Unreachable        (* thor_unreachable("...") *)
| AssertFailed       (* thor_assert(false) *)
| QueueOverflow      (* push on a full circular_buffer *)
| QueueUnderflow     (* pop on an empty circular_buffer *)
| InvalidExpected    (* operator* / operator-> on an std::expected holding an error *)
| DanglingReference  (* a reference to an object that is not there *)
| BlockedForever.    (* a wait that nothing ends *)

Inductive outcome (A : Type) : Type :=
| Done (a : A)
| Fatal (f : fault).

Arguments Done {A} a.
Arguments Fatal {A} f.

Definition obind {A B : Type} (m : outcome A) (k : A -> outcome B) : outcome B :=
  match m with
  | Done a => k a
  | Fatal f => Fatal f
  end.

Notation "x <- m ;; k" := (obind m (fun x => k))
  (at level 61, m at next level, right associativity).
Notation "' pat <- m ;; k" := (obind m (fun x => match x with pat => k end))
  (at level 61, pat pattern, m at next level, right associativity).

(** std::expected<T>: a value or an error code (tlib/errors.hpp). *)
Inductive error_code : Type :=
| ERROR_SOCKET_NOT_CONNECTED
| ERROR_BUFFER_SMALL
| ERROR_SOCKET_TIMEOUT
| ERROR_SOCKET_TCP_ERROR
| ERROR_OTHER (code : Z).   (* any error reported by a lower layer *)

Inductive expected (A : Type) : Type :=
| Value (a : A)
| Unexpected (e : error_code).

Arguments Value {A} a.
Arguments Unexpected {A} e.

(** [*e] on an expected: defined only when it holds a value. *)
Definition expected_deref {A : Type} (e : expected A) : outcome A :=
  match e with
  | Value a => Done a
  | Unexpected _ => Fatal InvalidExpected
  end.

(* ===================================================================== *)
(** ** Machine integers *)
(* ===================================================================== *)

Definition wrap16 (z : Z) : Z := z mod 2 ^ 16.
Definition wrap32 (z : Z) : Z := z mod 2 ^ 32.
Definition wrap64 (z : Z) : Z := z mod 2 ^ 64.

(* ===================================================================== *)
(** ** circular_buffer<T, Size> *)
(* ===================================================================== *)

(** Modelled from the spec: circular_buffer.hpp is not among the sources.  The spec describes it as a bounded FIFO; a push on a full buffer
    is a fatal programming error, and so is a pop on an empty one.  The
    oldest element is at the head of the list. *)
Module CircularBuffer.
Section Buffer.
Variable T : Type.
Variable Size : nat.

Definition circular_buffer : Type := list T.

Definition empty (b : circular_buffer) : bool :=
    match b with [] => true | _ :: _ => false end.

Definition full (b : circular_buffer) : bool := (Size <=? length b)%nat.

Definition push (b : circular_buffer) (x : T) : outcome circular_buffer :=
    if full b then Fatal QueueOverflow else Done (b ++ [x]).

Definition pop (b : circular_buffer) : outcome (T * circular_buffer) :=
    match b with
    | [] => Fatal QueueUnderflow
    | x :: rest => Done (x, rest)
    end.
End Buffer.
End CircularBuffer.

(* ===================================================================== *)
(** ** conc/semaphore.hpp *)
(* ===================================================================== *)

Module Semaphore.

Definition pid_t : Type := Z.

(** What the semaphore asks of the scheduler, in program order. *)
Inductive sched_event : Type :=
| Block (pid : pid_t)          (* scheduler::block_process_light(pid) *)
| Reschedule                   (* scheduler::reschedule() *)
| Unblock (pid : pid_t)        (* scheduler::unblock_process(pid) *)
| UnblockHint (pid : pid_t).   (* scheduler::unblock_process_hint(pid) *)

Definition queue_capacity : nat := 16.

(** The spin lock only brackets each member function; every operation below
    is one critical section. *)
Record semaphore : Type := mk_semaphore {
  value : Z;                 (* volatile size_t value *)
  queue : list pid_t         (* circular_buffer<scheduler::pid_t, 16> queue *)
}.

Definition init (v : Z) (s : semaphore) : semaphore :=
  mk_semaphore (wrap64 v) (queue s).   (* the parameter is a size_t *)

(** [lock], called by the process [pid] (scheduler::get_pid()). *)
Definition lock (pid : pid_t) (s : semaphore)
  : outcome (semaphore * list sched_event) :=
  if 0 <? value s then
    Done (mk_semaphore (wrap64 (value s - 1)) (queue s), [])
  else
    q <- CircularBuffer.push queue_capacity (queue s) pid ;;
    Done (mk_semaphore (value s) q, [Block pid; Reschedule]).

Definition try_lock (s : semaphore) : semaphore * bool :=
  if 0 <? value s then (mk_semaphore (wrap64 (value s - 1)) (queue s), true)
  else (s, false).

Definition unlock (s : semaphore) : outcome (semaphore * list sched_event) :=
  if CircularBuffer.empty (queue s) then
    Done (mk_semaphore (wrap64 (value s + 1)) (queue s), [])
  else
    '(pid, q) <- CircularBuffer.pop (queue s) ;;
    Done (mk_semaphore (value s) q, [Unblock pid]).

Definition irq_unlock (s : semaphore) : outcome (semaphore * list sched_event) :=
  if CircularBuffer.empty (queue s) then
    Done (mk_semaphore (wrap64 (value s + 1)) (queue s), [])
  else
    '(pid, q) <- CircularBuffer.pop (queue s) ;;
    Done (mk_semaphore (value s) q, [UnblockHint pid]).

(** The loop [while (n && !queue.empty())] of [release]; it stops after at
    most [length q] rounds, so recursion on the queue is enough. *)
Fixpoint release_loop (wake : pid_t -> sched_event) (n : Z) (q : list pid_t)
  : Z * list pid_t * list sched_event :=
  match q with
  | [] => (n, [], [])
  | pid :: rest =>
      if n =? 0 then (n, q, [])
      else
        let '(n', q', evs) := release_loop wake (wrap64 (n - 1)) rest in
        (n', q', wake pid :: evs)
  end.

Definition release_with (wake : pid_t -> sched_event) (n : Z) (s : semaphore)
  : semaphore * list sched_event :=
  if CircularBuffer.empty (queue s) then
    (mk_semaphore (wrap64 (value s + n)) (queue s), [])
  else
    let '(n', q', evs) := release_loop wake n (queue s) in
    if n' =? 0 then (mk_semaphore (value s) q', evs)
    else (mk_semaphore (wrap64 (value s + n')) q', evs).

Definition release : Z -> semaphore -> semaphore * list sched_event :=
  release_with Unblock.

Definition irq_release : Z -> semaphore -> semaphore * list sched_event :=
  release_with UnblockHint.

(** A history of calls on one semaphore. *)
Inductive op : Type :=
| OpLock (pid : pid_t)
| OpTryLock
| OpUnlock
| OpIrqUnlock
| OpRelease (n : Z)
| OpIrqRelease (n : Z).

Definition step (o : op) (s : semaphore) : outcome (semaphore * list sched_event) :=
  match o with
  | OpLock pid => lock pid s
  | OpTryLock => Done (fst (try_lock s), [])
  | OpUnlock => unlock s
  | OpIrqUnlock => irq_unlock s
  | OpRelease n => Done (release n s)
  | OpIrqRelease n => Done (irq_release n s)
  end.

Fixpoint run (ops : list op) (s : semaphore)
  : outcome (semaphore * list sched_event) :=
  match ops with
  | [] => Done (s, [])
  | o :: rest =>
      '(s1, e1) <- step o s ;;
      '(s2, e2) <- run rest s1 ;;
      Done (s2, e1 ++ e2)
  end.

(** The processes put to sleep, and the processes woken, in program order. *)
Fixpoint blocked (evs : list sched_event) : list pid_t :=
  match evs with
  | [] => []
  | Block pid :: r => pid :: blocked r
  | _ :: r => blocked r
  end.

Fixpoint woken (evs : list sched_event) : list pid_t :=
  match evs with
  | [] => []
  | Unblock pid :: r => pid :: woken r
  | UnblockHint pid :: r => pid :: woken r
  | _ :: r => woken r
  end.

End Semaphore.

(* ===================================================================== *)
(** ** Bytes and buffers *)
(* ===================================================================== *)

Definition byte_to_Z (b : byte) : Z := Z.of_N (Byte.to_N b).

Definition byte_of_Z (z : Z) : byte :=
  match Byte.of_N (Z.to_N (z mod 256)) with
  | Some b => b
  | None => x00
  end.

(** A buffer is the region a [char*] points to.  An access outside the
    region has no defined behaviour in the C++ code; the model reads zero
    there and drops the write. *)
Definition buffer : Type := list byte.

Definition get_byte (m : buffer) (off : Z) : byte :=
  if off <? 0 then x00 else nth (Z.to_nat off) m x00.

Fixpoint set_nth (m : buffer) (i : nat) (b : byte) : buffer :=
  match m, i with
  | [], _ => []
  | _ :: r, O => b :: r
  | x :: r, S j => x :: set_nth r j b
  end.

Definition set_byte (m : buffer) (off : Z) (b : byte) : buffer :=
  if off <? 0 then m else set_nth m (Z.to_nat off) b.

Definition load8 (m : buffer) (off : Z) : Z := byte_to_Z (get_byte m off).

Definition store8 (m : buffer) (off : Z) (v : Z) : buffer :=
  set_byte m off (byte_of_Z v).

(** uint16_t and uint32_t fields, host byte order (x86: little endian). *)
Definition load16 (m : buffer) (off : Z) : Z :=
  load8 m off + 256 * load8 m (off + 1).

Definition store16 (m : buffer) (off : Z) (v : Z) : buffer :=
  store8 (store8 m off (v mod 256)) (off + 1) (v / 256 mod 256).

Definition load32 (m : buffer) (off : Z) : Z :=
  load16 m off + 65536 * load16 m (off + 2).

Definition store32 (m : buffer) (off : Z) (v : Z) : buffer :=
  store16 (store16 m off (v mod 65536)) (off + 2) (v / 65536 mod 65536).

(** [len] bytes starting at [off]. *)
Fixpoint read_bytes (m : buffer) (off : Z) (len : nat) : list byte :=
  match len with
  | O => []
  | S k => get_byte m off :: read_bytes m (off + 1) k
  end.

(** std::copy_n(src, n, dst + off) into the buffer [m]. *)
Fixpoint write_bytes (m : buffer) (off : Z) (src : list byte) : buffer :=
  match src with
  | [] => m
  | b :: r => write_bytes (set_byte m off b) (off + 1) r
  end.

(** Modelled from the spec: kernel_utils.hpp is not among the sources; all
    multi-byte wire fields are in network byte order, and switch_endian_16 /
    switch_endian_32 reverse the bytes of a 16-bit / 32-bit value. *)
Definition switch_endian_16 (x : Z) : Z :=
  let x := wrap16 x in
  Z.lor (Z.shiftl (Z.land x 255) 8) (Z.shiftr x 8).

Definition switch_endian_32 (x : Z) : Z :=
  let x := wrap32 x in
  Z.lor (Z.shiftl (switch_endian_16 (Z.land x 65535)) 16)
        (switch_endian_16 (Z.shiftr x 16)).

(** std::bit_field<uint16_t, uint8_t, Position, Size>: read and assign. *)
Definition bit_field_get (pos size : Z) (flags : Z) : Z :=
  Z.land (Z.shiftr flags pos) (Z.ones size).

Definition bit_field_set (pos size : Z) (flags v : Z) : Z :=
  Z.lor (Z.land flags (Z.lxor (Z.ones 16) (Z.shiftl (Z.ones size) pos)))
        (Z.shiftl (Z.land v (Z.ones size)) pos).

(* ===================================================================== *)
(** ** network::ethernet::packet *)
(* ===================================================================== *)

(** Modelled from the spec: ethernet_packet.hpp is not among the sources.
    The packet buffer carries a byte region of known length, a cursor, the
    three layer tags, the descriptor assigned by the socket and the flag of
    user-space backing.  [payload_size] is the length of the region. *)
Record packet : Type := mk_packet {
  payload : buffer;     (* char* payload, of payload_size bytes *)
  index   : Z;          (* size_t index: the cursor *)
  tag0    : Z;          (* tag(0): link header *)
  tag1    : Z;          (* tag(1): internet header *)
  tag2    : Z;          (* tag(2): transport header *)
  fd      : Z;          (* size_t fd *)
  user    : bool        (* bool user *)
}.

Definition payload_size (p : packet) : Z := Z.of_nat (length (payload p)).

Definition set_payload (p : packet) (m : buffer) : packet :=
  mk_packet m (index p) (tag0 p) (tag1 p) (tag2 p) (fd p) (user p).

Definition set_index (p : packet) (i : Z) : packet :=
  mk_packet (payload p) i (tag0 p) (tag1 p) (tag2 p) (fd p) (user p).

Definition set_tag2 (p : packet) (t : Z) : packet :=
  mk_packet (payload p) (index p) (tag0 p) (tag1 p) t (fd p) (user p).

Definition set_fd (p : packet) (f : Z) : packet :=
  mk_packet (payload p) (index p) (tag0 p) (tag1 p) (tag2 p) f (user p).

(** [auto copy = p; copy.payload = new char[copy.payload_size];
     std::copy_n(p.payload, p.payload_size, copy.payload);] *)
Definition clone (p : packet) : packet :=
  set_payload p (read_bytes (payload p) 0 (length (payload p))).

(* ===================================================================== *)
(** ** net/socket.hpp *)
(* ===================================================================== *)

Module Socket.

Inductive socket_type : Type := RAW | DGRAM | STREAM.
Inductive socket_protocol : Type := ICMP | DNS | TCP | UDP.

Definition listen_capacity : nat := 32.

Record socket : Type := mk_socket {
  id              : Z;
  type            : socket_type;
  protocol        : socket_protocol;
  next_fd         : Z;
  listen          : bool;
  connection_data : option nat;   (* void*: the connection it points to *)
  packets         : list packet;  (* std::vector<packet> *)
  listen_packets  : list packet   (* circular_buffer<packet, 32> *)
}.

Definition invalidate (s : socket) : socket :=
  mk_socket 0xFFFFFFFF (type s) (protocol s) (next_fd s) (listen s)
            (connection_data s) (packets s) (listen_packets s).

Definition is_valid (s : socket) : bool := negb (id s =? 0xFFFFFFFF).

Definition register_packet (s : socket) (p : packet) : socket * Z :=
  let fd0 := next_fd s in
  (mk_socket (id s) (type s) (protocol s) (wrap64 (next_fd s + 1)) (listen s)
             (connection_data s) (packets s ++ [set_fd p fd0])
             (listen_packets s),
   fd0).

(** The range-for of [has_packet]. *)
Fixpoint has_packet_loop (ps : list packet) (packet_fd : Z) : bool :=
  match ps with
  | [] => false
  | p :: rest => if fd p =? packet_fd then true else has_packet_loop rest packet_fd
  end.

Definition has_packet (s : socket) (packet_fd : Z) : bool :=
  has_packet_loop (packets s) packet_fd.

(** The range-for of [get_packet]; falling out of the loop reaches
    [thor_unreachable("Should not happen")]. *)
Fixpoint get_packet_loop (ps : list packet) (fd0 : Z) : outcome packet :=
  match ps with
  | [] => Fatal Unreachable
  | p :: rest => if fd p =? fd0 then Done p else get_packet_loop rest fd0
  end.

Definition get_packet (s : socket) (fd0 : Z) : outcome packet :=
  get_packet_loop (packets s) fd0.

Definition erase_packet (s : socket) (fd0 : Z) : socket :=
  mk_socket (id s) (type s) (protocol s) (next_fd s) (listen s)
            (connection_data s)
            (filter (fun p => negb (fd p =? fd0)) (packets s))
            (listen_packets s).

Definition set_connection_data (s : socket) (c : option nat) : socket :=
  mk_socket (id s) (type s) (protocol s) (next_fd s) (listen s) c
            (packets s) (listen_packets s).

Definition set_listen_packets (s : socket) (q : list packet) : socket :=
  mk_socket (id s) (type s) (protocol s) (next_fd s) (listen s)
            (connection_data s) (packets s) q.

(** [get_connection_data<T>()]: [thor_assert(connection_data)], then the
    cast. *)
Definition get_connection_data (s : socket) : outcome nat :=
  match connection_data s with
  | Some c => Done c
  | None => Fatal AssertFailed
  end.

End Socket.

(* ===================================================================== *)
(** ** Tables of kernel objects addressed by reference *)
(* ===================================================================== *)

(** Sockets and connections are referred to by address in the C++ code
    ([connection.socket = &sock], [sock.connection_data = &connection]).
    An address is a [nat] handle into an association list. *)
Section Table.
Variable A : Type.

Definition table : Type := list (nat * A).

Fixpoint lookup (h : nat) (t : table) : option A :=
    match t with
    | [] => None
    | (k, a) :: rest => if Nat.eqb k h then Some a else lookup h rest
    end.

Fixpoint update (h : nat) (a : A) (t : table) : table :=
    match t with
    | [] => []
    | (k, x) :: rest =>
        if Nat.eqb k h then (k, a) :: rest else (k, x) :: update h a rest
    end.

Fixpoint remove (h : nat) (t : table) : table :=
    match t with
    | [] => []
    | (k, x) :: rest =>
        if Nat.eqb k h then remove h rest else (k, x) :: remove h rest
    end.

Definition handles (t : table) : list nat := map fst t.
End Table.

(* ===================================================================== *)
(** ** net/connection_handler.hpp *)
(* ===================================================================== *)

(** Modelled from the spec: connection_handler.hpp is not among the sources.
    The spec gives the connection table three operations: create returns a
    stable reference to a new record, remove drops a record, and the lookup
    for a packet returns the record whose remote (server) port is the
    packet's source port and whose local port is the packet's target port,
    scanning linearly. *)
Module ConnectionHandler.

Class Connection (T : Type) : Type := {
  get_local_port  : T -> Z;
  get_server_port : T -> Z;
  fresh           : T        (* the default-constructed record *)
}.

Section Handler.
Context {T : Type} `{Connection T}.

Record connection_handler : Type := mk_handler {
  entries     : table T;
  next_handle : nat
}.

Definition empty_handler : connection_handler := mk_handler [] 0.

Definition create_connection (h : connection_handler)
  : connection_handler * nat :=
  (mk_handler (entries h ++ [(next_handle h, fresh)]) (S (next_handle h)),
   next_handle h).

Definition remove_connection (h : connection_handler) (c : nat)
  : connection_handler :=
  mk_handler (remove c (entries h)) (next_handle h).

Fixpoint scan (t : table T) (source_port target_port : Z) : option nat :=
  match t with
  | [] => None
  | (k, c) :: rest =>
      if (get_server_port c =? source_port) && (get_local_port c =? target_port)
      then Some k
      else scan rest source_port target_port
  end.

Definition get_connection_for_packet (h : connection_handler)
  (source_port target_port : Z) : option nat :=
  scan (entries h) source_port target_port.

Definition get (h : connection_handler) (c : nat) : option T :=
  lookup c (entries h).

Definition set (h : connection_handler) (c : nat) (v : T) : connection_handler :=
  mk_handler (update c v (entries h)) (next_handle h).

End Handler.
Arguments connection_handler T : clear implicits.
End ConnectionHandler.

(* ===================================================================== *)
(** ** The layers below the transports *)
(* ===================================================================== *)

Record interface_descriptor : Type := mk_interface {
  ip_address : Z      (* network::ip::address of the interface *)
}.

(** network::ip::packet_descriptor{size, destination, protocol} *)
Record ip_packet_descriptor : Type := mk_ip_descriptor {
  ipd_size        : Z;
  ipd_destination : Z;
  ipd_protocol    : Z
}.

(** The internet layer as the transports use it (ip_layer.cpp is not among
    the sources).  [L] is whatever state the lower layers keep (allocator,
    driver, identification counter).  [ip_finalize_packet] receives the
    packet by reference, so it also returns the packet as it leaves it. *)
Record ip_layer (L : Type) : Type := mk_ip_layer {
  select_interface : Z -> interface_descriptor;
  ip_kernel_prepare_packet :
    interface_descriptor -> ip_packet_descriptor -> L -> expected packet * L;
  ip_user_prepare_packet :
    buffer -> interface_descriptor -> ip_packet_descriptor -> L
    -> expected packet * L;
  ip_finalize_packet :
    interface_descriptor -> packet -> L -> expected unit * packet * L
}.

(** Offsets of the fields of network::ip::header (the IPv4 wire layout). *)
Definition ip_version_ihl : Z := 0.
Definition ip_total_len   : Z := 2.
Definition ip_protocol    : Z := 9.
Definition ip_source_ip   : Z := 12.
Definition ip_target_ip   : Z := 16.

(** network::ip::ip32_to_ip: the address of a raw 32-bit wire value; the
    stream decoder writes the same conversion as [switch_endian_32]. *)
Definition ip32_to_ip (raw : Z) : Z := switch_endian_32 raw.

(** What a layer does to the outside, in program order. *)
Inductive net_event : Type :=
| IpFinalize (p : packet) (r : expected unit)
    (* ip::finalize_packet called on [p]; it answered [r] *)
| Propagate (p : packet) (proto : Socket.socket_protocol)
    (* network::propagate_packet *)
| DnsDecode (p : packet)                 (* network::dns::decode *)
| Log (msg : String.string)
    (* logging::logf at a level other than TRACE: the text of the message
       up to its first argument *)
| NotifySocket (sock : nat)              (* socket.listen_queue.notify_one() *)
| NotifyConnection (c : nat)             (* connection.queue.notify_one() *)
| Delete (m : buffer).                   (* delete[] payload *)

(** The packets handed to the internet layer for transmission. *)
Fixpoint transmitted (evs : list net_event) : list packet :=
  match evs with
  | [] => []
  | IpFinalize p _ :: r => p :: transmitted r
  | _ :: r => transmitted r
  end.

(* ===================================================================== *)
(** ** net/checksum.hpp *)
(* ===================================================================== *)

(** Modelled from the spec: checksum.hpp is not among the sources.  The
    spec: sum all 16-bit big-endian words into a 32-bit running sum (a
    trailing odd byte is the high half of a word padded with zero); fold the
    carries into the low 16 bits; take the one's complement;
    [checksum_finalize_nz] substitutes 0xFFFF for a zero result. *)
Fixpoint checksum_add_list (bs : list byte) : Z :=
  match bs with
  | [] => 0
  | [hi] => 256 * byte_to_Z hi
  | hi :: lo :: rest => 256 * byte_to_Z hi + byte_to_Z lo + checksum_add_list rest
  end.

Definition checksum_add_bytes (m : buffer) (off : Z) (len : Z) : Z :=
  wrap32 (checksum_add_list (read_bytes m off (Z.to_nat len))).

(** [while (sum >> 16) sum = (sum & 0xFFFF) + (sum >> 16);]  Two rounds
    settle every 32-bit sum; the fuel leaves a spare one. *)
Fixpoint checksum_fold (fuel : nat) (sum : Z) : Z :=
  match fuel with
  | O => sum
  | S k =>
      if Z.shiftr sum 16 =? 0 then sum
      else checksum_fold k (Z.land sum 0xFFFF + Z.shiftr sum 16)
  end.

Definition checksum_finalize (sum : Z) : Z :=
  Z.land (Z.lnot (checksum_fold 3 (wrap32 sum))) 0xFFFF.

Definition checksum_finalize_nz (sum : Z) : Z :=
  let c := checksum_finalize sum in
  if c =? 0 then 0xFFFF else c.

(** The checksum of a message as the spec defines it. *)
Definition internet_checksum (msg : list byte) : Z :=
  checksum_finalize (checksum_add_list msg).

(* ===================================================================== *)
(** ** net/icmp_layer.cpp *)
(* ===================================================================== *)

Module Icmp.

(** struct header { uint8_t type; uint8_t code; uint16_t checksum;
    uint32_t rest; } and struct echo_request_header { uint16_t identifier;
    uint16_t sequence; }, with the static_assert that the latter has the
    size of [rest]. *)
Definition header_size : Z := 8.
Definition rest_size : Z := 4.
Definition echo_request_header_size : nat := 4.

Definition off_type : Z := 0.
Definition off_code : Z := 1.
Definition off_checksum : Z := 2.
Definition off_identifier : Z := 4.
Definition off_sequence : Z := 6.

(** enum class type (tlib/net_constants.hpp) *)
Definition ECHO_REPLY : Z := 0.
Definition UNREACHABLE : Z := 3.
Definition ECHO_REQUEST : Z := 8.
Definition TIME_EXCEEDED : Z := 11.

Record packet_descriptor : Type := mk_descriptor {
  pd_payload_size : Z;
  pd_target_ip    : Z;
  pd_type         : Z;
  pd_code         : Z
}.

(** std::accumulate over [n] uint16_t words from [off], in a uint32_t. *)
Fixpoint accumulate16 (m : buffer) (off : Z) (n : nat) (acc : Z) : Z :=
  match n with
  | O => acc
  | S k => accumulate16 m (off + 2) k (wrap32 (acc + load16 m off))
  end.

(** [while (carry) { value += carry; sub = value & 0xFFFF;
     carry = (value - sub) >> 16; value = sub; }] *)
Fixpoint fold_carry (fuel : nat) (value carry : Z) : Z * Z :=
  match fuel with
  | O => (value, carry)
  | S k =>
      if carry =? 0 then (value, carry)
      else
        let value1 := wrap32 (value + carry) in
        let sub := Z.land value1 0xFFFF in
        fold_carry k sub (Z.shiftr (wrap32 (value1 - sub)) 16)
  end.

(** Three rounds bring the carry of any 32-bit sum to zero
    (see [fold_carry_settles]). *)
Definition fold_rounds : nat := 3.

Definition compute_checksum (m : buffer) (icmp_header : Z) (payload_size : Z)
  : buffer :=
  let m0 := store16 m (icmp_header + off_checksum) 0 in
  let words := Z.to_nat (header_size / 2 + payload_size * 2) in
  let sum := accumulate16 m0 icmp_header words 0 in
  let value := Z.land sum 0xFFFF in
  let carry := Z.shiftr (wrap32 (sum - value)) 16 in
  let value' := fst (fold_carry fold_rounds value carry) in
  store16 m0 (icmp_header + off_checksum) (wrap16 (Z.lnot value')).

Definition prepare_packet (p : packet) (t : Z) (code : Z) : packet :=
  let p1 := set_tag2 p (index p) in
  let m1 := store8 (payload p1) (index p1 + off_type) t in
  let m2 := store8 m1 (index p1 + off_code) code in
  set_index (set_payload p1 m2) (wrap64 (index p1 + (header_size - rest_size))).

Section WithIp.
Variable L : Type.
Variable ip : ip_layer L.

Definition kernel_prepare_packet (interface : interface_descriptor)
  (descriptor : packet_descriptor) (l : L) : expected packet * L :=
  let desc := mk_ip_descriptor (header_size + pd_payload_size descriptor)
                               (pd_target_ip descriptor) 0x01 in
  match ip_kernel_prepare_packet ip interface desc l with
  | (Value p, l1) =>
      (Value (prepare_packet p (pd_type descriptor) (pd_code descriptor)), l1)
  | (Unexpected e, l1) => (Unexpected e, l1)
  end.

Definition user_prepare_packet (buf : buffer) (descriptor : packet_descriptor)
  (l : L) : expected packet * L :=
  let interface := select_interface ip (pd_target_ip descriptor) in
  let desc := mk_ip_descriptor (header_size + pd_payload_size descriptor)
                               (pd_target_ip descriptor) 0x01 in
  match ip_user_prepare_packet ip buf interface desc l with
  | (Value p, l1) =>
      (Value (prepare_packet p (pd_type descriptor) (pd_code descriptor)), l1)
  | (Unexpected e, l1) => (Unexpected e, l1)
  end.

Definition finalize_packet (interface : interface_descriptor) (p : packet)
  (l : L) : expected unit * packet * L * list net_event :=
  let p1 := set_index p (wrap64 (index p - (header_size - rest_size))) in
  let p2 := set_payload p1 (compute_checksum (payload p1) (index p1) 0) in
  let '(r, p3, l1) := ip_finalize_packet ip interface p2 l in
  (r, p3, l1, [IpFinalize p2 r]).

(** The ECHO_REQUEST case of the switch in [decode]. *)
Definition echo_request (interface : interface_descriptor) (pkt : packet)
  (command_index : Z) (l : L) : outcome (L * list net_event) :=
  let ip_index := tag1 pkt in
  let target_ip := ip32_to_ip (load32 (payload pkt) (ip_index + ip_target_ip)) in
  let source_ip := ip32_to_ip (load32 (payload pkt) (ip_index + ip_source_ip)) in
  if target_ip =? ip_address interface then
    let desc := mk_descriptor 0 source_ip ECHO_REPLY 0 in
    let '(reply_packet, l1) := kernel_prepare_packet interface desc l in
    let '(reply_packet1, log) :=
      match reply_packet with
      | Value r =>
          (* *reply_command_header = *command_header; *)
          let cmd := read_bytes (payload pkt) command_index
                                echo_request_header_size in
          (Value (set_payload r (write_bytes (payload r) (index r) cmd)), [])
      | Unexpected e =>
          (Unexpected e, [Log "icmp: Failed to reply"%string])
      end in
    (* network::icmp::finalize_packet(interface, *reply_packet); *)
    r <- expected_deref reply_packet1 ;;
    let '(_, _, l2, evs) := finalize_packet interface r l1 in
    Done (l2, log ++ evs)
  else Done (l, []).

(** [decode]; the packet comes back with its transport tag set.  Trace
    messages are left out of the event list. *)
Definition decode (interface : interface_descriptor) (pkt : packet) (l : L)
  : outcome (packet * L * list net_event) :=
  let pkt1 := set_tag2 pkt (index pkt) in
  let command_type := load8 (payload pkt1) (index pkt1 + off_type) in
  let command_index := wrap64 (index pkt1 + header_size - rest_size) in
  '(l1, evs) <-
    (if command_type =? ECHO_REQUEST
     then echo_request interface pkt1 command_index l
     else Done (l, [])) ;;
  Done (pkt1, l1, evs ++ [Propagate pkt1 Socket.ICMP]).

End WithIp.

(** The ICMP message of a packet: the bytes from its transport tag to the
    end of the buffer, and the fields of an echo message. *)
Definition message (p : packet) : list byte :=
  skipn (Z.to_nat (tag2 p)) (payload p).

Definition msg_type (p : packet) : Z := load8 (payload p) (tag2 p + off_type).
Definition msg_code (p : packet) : Z := load8 (payload p) (tag2 p + off_code).
Definition msg_checksum (p : packet) : Z :=
  switch_endian_16 (load16 (payload p) (tag2 p + off_checksum)).
Definition msg_identifier (p : packet) : Z :=
  switch_endian_16 (load16 (payload p) (tag2 p + off_identifier)).
Definition msg_sequence (p : packet) : Z :=
  switch_endian_16 (load16 (payload p) (tag2 p + off_sequence)).
Definition msg_data (p : packet) : list byte :=
  skipn (Z.to_nat (tag2 p + header_size)) (payload p).

(** The checksum stored in a message of [len] bytes is valid when
    recomputing it, as the spec defines the checksum, over the message with
    the checksum field zeroed gives the stored value. *)
Definition checksum_valid (p : packet) (len : nat) : Prop :=
  internet_checksum
    (read_bytes (store16 (payload p) (tag2 p + off_checksum) 0) (tag2 p) len)
  = msg_checksum p.

End Icmp.

(* ===================================================================== *)
(** ** A reference internet layer *)
(* ===================================================================== *)

(** Modelled from the spec: ip_layer.cpp and ethernet_layer.cpp are not
    among the sources.  The spec: the link layer allocates a buffer of
    14 + inner-size bytes, tags layer 0 at 0 and reserves the 14-byte
    header; the internet layer sizes the buffer for 20 + inner, tags layer
    1, and the buffer comes back with the cursor at the caller's payload
    region; allocation can fail with an error; finalisation writes an
    incrementing identification and hands the frame down.  The fields that
    the transport checksums read before finalisation (version/IHL, total
    length, protocol, addresses) are written at preparation, since the
    finaliser receives no descriptor.

    The lower state is a script of allocator and driver answers (used up in
    order; an exhausted script means success) and the identification
    counter. *)
Module IpModel.

Record lower : Type := mk_lower {
  alloc_script    : list bool;
  finalize_script : list bool;
  identification  : Z
}.

Definition ethernet_header_size : Z := 14.
Definition ip_header_size : Z := 20.
Definition ip_identification : Z := 4.

Definition out_of_memory : error_code := ERROR_OTHER 1.
Definition no_route : error_code := ERROR_OTHER 2.

Definition write_ip_header (m : buffer) (interface : interface_descriptor)
  (desc : ip_packet_descriptor) : buffer :=
  let h := ethernet_header_size in
  let m1 := store8 m (h + ip_version_ihl) 0x45 in
  let m2 := store16 m1 (h + ip_total_len)
                    (switch_endian_16 (ip_header_size + ipd_size desc)) in
  let m3 := store8 m2 (h + ip_protocol) (ipd_protocol desc) in
  let m4 := store32 m3 (h + ip_source_ip)
                    (switch_endian_32 (ip_address interface)) in
  store32 m4 (h + ip_target_ip) (switch_endian_32 (ipd_destination desc)).

Definition prepare (is_user : bool) (region : buffer)
  (interface : interface_descriptor) (desc : ip_packet_descriptor)
  (l : lower) : expected packet * lower :=
  match alloc_script l with
  | false :: rest =>
      (Unexpected out_of_memory,
       mk_lower rest (finalize_script l) (identification l))
  | _ =>
      let m := write_ip_header region interface desc in
      (Value (mk_packet m (ethernet_header_size + ip_header_size)
                        0 ethernet_header_size 0 0 is_user),
       mk_lower (tl (alloc_script l)) (finalize_script l) (identification l))
  end.

Definition kernel_prepare_packet (interface : interface_descriptor)
  (desc : ip_packet_descriptor) (l : lower) : expected packet * lower :=
  let size := ethernet_header_size + ip_header_size + ipd_size desc in
  prepare false (repeat x00 (Z.to_nat size)) interface desc l.

Definition user_prepare_packet (region : buffer)
  (interface : interface_descriptor) (desc : ip_packet_descriptor)
  (l : lower) : expected packet * lower :=
  prepare true region interface desc l.

Definition finalize_packet (interface : interface_descriptor) (p : packet)
  (l : lower) : expected unit * packet * lower :=
  let p1 := set_index p (wrap64 (index p - ip_header_size
                                 - ethernet_header_size)) in
  let p2 := set_payload p1
              (store16 (payload p1) (tag1 p1 + ip_identification)
                       (switch_endian_16 (identification l))) in
  match finalize_script l with
  | false :: rest =>
      (Unexpected no_route, p2,
       mk_lower (alloc_script l) rest (wrap16 (identification l + 1)))
  | _ =>
      (Value tt, p2,
       mk_lower (alloc_script l) (tl (finalize_script l))
                (wrap16 (identification l + 1)))
  end.

(** One interface, 10.0.0.1. *)
Definition interface : interface_descriptor := mk_interface 0x0A000001.

Definition layer : ip_layer lower :=
  mk_ip_layer (fun _ => interface)
              kernel_prepare_packet user_prepare_packet finalize_packet.

Definition quiet : lower := mk_lower [] [] 0.

End IpModel.

(** Scenario S1: an echo request (type 8, identifier 0x1234, sequence 1,
    data "abcdefgh") from 10.0.0.2 to 10.0.0.1, as the internet layer hands
    it to the ICMP decoder: link header at 0, internet header at 14, cursor
    at the ICMP header at 34. *)
Definition echo_request_frame : packet :=
  mk_packet
    (repeat x00 14
     ++ [x45; x00; x00; x24; x00; x00; x00; x00; x40; x01; x00; x00;
         x0a; x00; x00; x02; x0a; x00; x00; x01]
     ++ [x08; x00; x00; x00; x12; x34; x00; x01]
     ++ [x61; x62; x63; x64; x65; x66; x67; x68])
    34 0 14 0 0 false.

(* ===================================================================== *)
(** ** The world of a transport layer *)
(* ===================================================================== *)

(** What the outside does while kernel code sleeps on a condition
    variable: a frame arrives and is decoded, or the timeout of the wait
    runs out.  A wait uses up the script until it returns; an exhausted
    script is a timeout for a timed wait and a sleep without end for an
    untimed one. *)
Inductive env_event : Type :=
| Arrival (p : packet)
| Timeout.

(** The globals of a transport layer ([local_port], [connections]), the
    sockets its connections point to, the state of the layers below, and
    the outside: the script of what happens during waits, the readings of
    timer::milliseconds(), and the trace of what the layer did. *)
Record world (C L : Type) : Type := mk_world {
  local_port_counter : Z;  (* std::atomic<size_t> local_port *)
  connections : ConnectionHandler.connection_handler C;
  sockets : table Socket.socket;
  lower   : L;
  script  : list env_event;
  clock   : list Z;
  trace   : list net_event
}.

Arguments mk_world {C L}.

Section WorldUpdates.
Context {C L : Type}.

Definition set_local_port_counter (w : world C L) (v : Z) : world C L :=
  mk_world v (connections w) (sockets w) (lower w) (script w) (clock w)
           (trace w).

Definition set_connections (w : world C L)
  (h : ConnectionHandler.connection_handler C) : world C L :=
  mk_world (local_port_counter w) h (sockets w) (lower w) (script w)
           (clock w) (trace w).

Definition set_sockets (w : world C L) (s : table Socket.socket) : world C L :=
  mk_world (local_port_counter w) (connections w) s (lower w) (script w)
           (clock w) (trace w).

Definition set_lower (w : world C L) (l : L) : world C L :=
  mk_world (local_port_counter w) (connections w) (sockets w) l (script w)
           (clock w) (trace w).

Definition set_script (w : world C L) (s : list env_event) : world C L :=
  mk_world (local_port_counter w) (connections w) (sockets w) (lower w) s
           (clock w) (trace w).

Definition set_clock (w : world C L) (c : list Z) : world C L :=
  mk_world (local_port_counter w) (connections w) (sockets w) (lower w)
           (script w) c (trace w).

Definition emit (w : world C L) (evs : list net_event) : world C L :=
  mk_world (local_port_counter w) (connections w) (sockets w) (lower w)
           (script w) (clock w) (trace w ++ evs).

(** A reference to a socket or to a connection is a handle that the table
    resolves; a handle the table does not hold is a dangling reference. *)
Definition get_socket (w : world C L) (sock : nat) : outcome Socket.socket :=
  match lookup sock (sockets w) with
  | Some s => Done s
  | None => Fatal DanglingReference
  end.

Definition put_socket (w : world C L) (sock : nat) (s : Socket.socket)
  : world C L :=
  set_sockets w (update sock s (sockets w)).

Definition get_connection (w : world C L) (c : nat) : outcome C :=
  match lookup c (ConnectionHandler.entries (connections w)) with
  | Some v => Done v
  | None => Fatal DanglingReference
  end.

Definition put_connection (w : world C L) (c : nat) (v : C) : world C L :=
  set_connections w
    (ConnectionHandler.mk_handler
       (update c v (ConnectionHandler.entries (connections w)))
       (ConnectionHandler.next_handle (connections w))).

(** timer::milliseconds() *)
Definition milliseconds (w : world C L) : Z * world C L :=
  (wrap64 (hd 0 (clock w)), set_clock w (tl (clock w))).

End WorldUpdates.

(** Did these steps notify the listen queue of the socket [sock]?  The
    queue of the connection [c]? *)
Fixpoint notified_socket (sock : nat) (evs : list net_event) : bool :=
  match evs with
  | [] => false
  | NotifySocket o :: r => Nat.eqb o sock || notified_socket sock r
  | _ :: r => notified_socket sock r
  end.

Fixpoint notified_connection (c : nat) (evs : list net_event) : bool :=
  match evs with
  | [] => false
  | NotifyConnection o :: r => Nat.eqb o c || notified_connection c r
  | _ :: r => notified_connection c r
  end.

(* ===================================================================== *)
(** ** net/udp_layer.cpp *)
(* ===================================================================== *)

Module Udp.

(** struct header { uint16_t source_port; uint16_t target_port;
    uint16_t length; uint16_t checksum; } *)
Definition header_size : Z := 8.
Definition off_source_port : Z := 0.
Definition off_target_port : Z := 2.
Definition off_length : Z := 4.
Definition off_checksum : Z := 6.

Record udp_connection : Type := mk_connection {
  local_port     : Z;
  server_port    : Z;
  server_address : Z;
  connected      : bool;
  socket         : option nat     (* network::socket* *)
}.

#[global] Instance udp_connection_Connection
  : ConnectionHandler.Connection udp_connection :=
  {| ConnectionHandler.get_local_port := local_port;
     ConnectionHandler.get_server_port := server_port;
     ConnectionHandler.fresh := mk_connection 0 0 0 false None |}.

Record packet_descriptor : Type := mk_descriptor {
  pd_payload_size : Z
}.

Definition compute_checksum (p : packet) : packet :=
  let ip_header := tag1 p in
  let udp_header := index p in
  let m0 := store16 (payload p) (udp_header + off_checksum) 0 in
  let length := switch_endian_16 (load16 m0 (udp_header + off_length)) in
  let sum := checksum_add_bytes m0 (index p) length in
  let sum1 := wrap32 (sum + checksum_add_bytes m0 (ip_header + ip_source_ip) 8) in
  let sum2 := wrap32 (sum1 + load8 m0 (ip_header + ip_protocol)) in
  let sum3 := wrap32 (sum2 + length) in
  set_payload p
    (store16 m0 (udp_header + off_checksum)
             (switch_endian_16 (checksum_finalize_nz sum3))).

Definition prepare_packet (p : packet) (source target payload_size : Z)
  : packet :=
  let p1 := set_tag2 p (index p) in
  let h := index p1 in
  let m1 := store16 (payload p1) (h + off_source_port) (switch_endian_16 source) in
  let m2 := store16 m1 (h + off_target_port) (switch_endian_16 target) in
  let m3 := store16 m2 (h + off_length)
                    (switch_endian_16 (header_size + payload_size)) in
  set_index (set_payload p1 m3) (wrap64 (index p1 + header_size)).

Section WithIp.
Variable L : Type.
Variable ip : ip_layer L.

Definition state : Type := world udp_connection L.

Definition init_layer (w : state) : state := set_local_port_counter w 1023.

(** [decode]; returns the packet as the decoder leaves it. *)
Definition decode (interface : interface_descriptor) (pkt : packet)
  (w : state) : outcome (packet * state) :=
  let pkt1 := set_tag2 pkt (index pkt) in
  let udp_header := index pkt1 in
  let source_port :=
    switch_endian_16 (load16 (payload pkt1) (udp_header + off_source_port)) in
  let target_port :=
    switch_endian_16 (load16 (payload pkt1) (udp_header + off_target_port)) in
  let pkt2 := set_index pkt1 (wrap64 (index pkt1 + header_size)) in
  let w1 := if source_port =? 53 then emit w [DnsDecode pkt2] else w in
  match ConnectionHandler.get_connection_for_packet
          (connections w1) source_port target_port with
  | Some c =>
      connection <- get_connection w1 c ;;
      match socket connection with
      | Some sock =>
          s <- get_socket w1 sock ;;
          if Socket.listen s then
            let copy := clone pkt2 in
            q <- CircularBuffer.push Socket.listen_capacity
                   (Socket.listen_packets s) copy ;;
            Done (pkt2,
                  emit (put_socket w1 sock (Socket.set_listen_packets s q))
                       [NotifySocket sock])
          else Done (pkt2, w1)
      | None => Done (pkt2, w1)
      end
  | None =>
      Done (pkt2,
            emit w1 [Log "udp: Received packet for which there are no connection"%string])
  end.

Definition user_prepare_packet (buf : buffer) (sock : nat)
  (descriptor : packet_descriptor) (w : state)
  : outcome (expected packet * state) :=
  s <- get_socket w sock ;;
  c <- Socket.get_connection_data s ;;
  connection <- get_connection w c ;;
  (* logging::logf(logging::log_level::ERROR, "udp: Craft destination=%s\n", ...) *)
  let w0 := emit w [Log "udp: Craft destination"%string] in
  let desc := mk_ip_descriptor (header_size + pd_payload_size descriptor)
                               (server_address connection) 0x11 in
  let interface := select_interface ip (server_address connection) in
  match ip_user_prepare_packet ip buf interface desc (lower w0) with
  | (Value p, l1) =>
      Done (Value (prepare_packet p (local_port connection)
                     (server_port connection) (pd_payload_size descriptor)),
            set_lower w0 l1)
  | (Unexpected e, l1) => Done (Unexpected e, set_lower w0 l1)
  end.

Definition finalize_packet (interface : interface_descriptor) (p : packet)
  (w : state) : expected unit * packet * state :=
  let p1 := set_index p (wrap64 (index p - header_size)) in
  let p2 := compute_checksum p1 in
  let '(r, p3, l1) := ip_finalize_packet ip interface p2 (lower w) in
  (r, p3, emit (set_lower w l1) [IpFinalize p2 r]).

Definition client_bind (sock : nat) (server_port0 : Z) (server : Z)
  (w : state) : outcome (expected Z * state) :=
  let '(h, c) := ConnectionHandler.create_connection (connections w) in
  let w1 := set_connections w h in
  connection <- get_connection w1 c ;;
  (* connection.local_port = ++local_port; *)
  let port := wrap64 (local_port_counter w1 + 1) in
  let w2 := set_local_port_counter w1 port in
  s <- get_socket w2 sock ;;
  let w3 := put_socket w2 sock (Socket.set_connection_data s (Some c)) in
  let connection1 := mk_connection port server_port0 server true (Some sock) in
  Done (Value (local_port connection1), put_connection w3 c connection1).

Definition client_unbind (sock : nat) (w : state)
  : outcome (expected unit * state) :=
  s <- get_socket w sock ;;
  c <- Socket.get_connection_data s ;;
  connection <- get_connection w c ;;
  if negb (connected connection) then
    Done (Unexpected ERROR_SOCKET_NOT_CONNECTED, w)
  else
    let w1 := put_connection w c
                (mk_connection (local_port connection) (server_port connection)
                   (server_address connection) false (socket connection)) in
    Done (Value tt,
          set_connections w1
            (ConnectionHandler.remove_connection (connections w1) c)).

(** [send]: [target_buffer] is the region the frame is built in, [buf] the
    user bytes, of which [n] are sent. *)
Definition send (target_buffer : buffer) (sock : nat) (buf : list byte)
  (n : Z) (w : state) : outcome (expected unit * state) :=
  s <- get_socket w sock ;;
  c <- Socket.get_connection_data s ;;
  connection <- get_connection w c ;;
  if negb (connected connection) then
    Done (Unexpected ERROR_SOCKET_NOT_CONNECTED, w)
  else
    '(pkt, w1) <- user_prepare_packet target_buffer sock (mk_descriptor n) w ;;
    match pkt with
    | Value p =>
        let p1 := set_payload p
                    (write_bytes (payload p) (index p)
                                 (read_bytes buf 0 (Z.to_nat n))) in
        let interface := select_interface ip (server_address connection) in
        let '(r, _, w2) := finalize_packet interface p1 w1 in
        Done (r, w2)
    | Unexpected e => Done (Unexpected e, w1)
    end.

(** [socket.listen_queue.wait()] and [wait_for(ms)]: sleep while the outside
    runs; the wait is over at the first arrival that notifies the queue of
    [sock] ([true]) or, for a timed wait, at the timeout ([false]). *)
Fixpoint wait_loop (timed : bool) (interface : interface_descriptor)
  (sock : nat) (events : list env_event) (w : state)
  : outcome (bool * state) :=
  match events with
  | [] => if timed then Done (false, set_script w []) else Fatal BlockedForever
  | Timeout :: rest =>
      if timed then Done (false, set_script w rest)
      else wait_loop timed interface sock rest w
  | Arrival p :: rest =>
      let before := length (trace w) in
      '(_, w1) <- decode interface p (set_script w rest) ;;
      if notified_socket sock (skipn before (trace w1)) then Done (true, w1)
      else wait_loop timed interface sock rest w1
  end.

Definition wait (interface : interface_descriptor) (sock : nat) (w : state)
  : outcome state :=
  '(_, w1) <- wait_loop false interface sock (script w) w ;;
  Done w1.

Definition wait_for (interface : interface_descriptor) (sock : nat) (w : state)
  : outcome (bool * state) :=
  wait_loop true interface sock (script w) w.

(** The part of [receive] that follows the wait, common to both
    overloads.  [buf] is the caller's buffer; the result carries the buffer
    as the copy leaves it. *)
Definition receive_packet (buf : buffer) (sock : nat) (n : Z) (w : state)
  : outcome (expected Z * buffer * state) :=
  s <- get_socket w sock ;;
  '(pkt, q) <- CircularBuffer.pop (Socket.listen_packets s) ;;
  let w1 := put_socket w sock (Socket.set_listen_packets s q) in
  let udp_header := tag2 pkt in
  let payload_len :=
    switch_endian_16 (load16 (payload pkt) (udp_header + off_length)) in
  if n <? payload_len then
    Done (Unexpected ERROR_BUFFER_SMALL, buf, emit w1 [Delete (payload pkt)])
  else
    let copied := read_bytes (payload pkt) (index pkt) (Z.to_nat payload_len) in
    Done (Value payload_len, write_bytes buf 0 copied,
          emit w1 [Delete (payload pkt)]).

Definition receive (interface : interface_descriptor) (buf : buffer)
  (sock : nat) (n : Z) (w : state) : outcome (expected Z * buffer * state) :=
  s <- get_socket w sock ;;
  c <- Socket.get_connection_data s ;;
  connection <- get_connection w c ;;
  if negb (connected connection) then
    Done (Unexpected ERROR_SOCKET_NOT_CONNECTED, buf, w)
  else
    w1 <- (if CircularBuffer.empty (Socket.listen_packets s)
           then wait interface sock w else Done w) ;;
    receive_packet buf sock n w1.

Definition receive_timed (interface : interface_descriptor) (buf : buffer)
  (sock : nat) (n : Z) (ms : Z) (w : state)
  : outcome (expected Z * buffer * state) :=
  s <- get_socket w sock ;;
  c <- Socket.get_connection_data s ;;
  connection <- get_connection w c ;;
  if negb (connected connection) then
    Done (Unexpected ERROR_SOCKET_NOT_CONNECTED, buf, w)
  else if CircularBuffer.empty (Socket.listen_packets s) then
    if ms =? 0 then Done (Unexpected ERROR_SOCKET_TIMEOUT, buf, w)
    else
      '(woken, w1) <- wait_for interface sock w ;;
      if woken then receive_packet buf sock n w1
      else Done (Unexpected ERROR_SOCKET_TIMEOUT, buf, w1)
  else receive_packet buf sock n w.

End WithIp.
End Udp.

(* ===================================================================== *)
(** ** net/tcp_layer.cpp *)
(* ===================================================================== *)

Module Tcp.

Definition timeout_ms : Z := 1000.
Definition max_tries : nat := 5.

(** The bit fields of the 16-bit flags word (position, size). *)
Definition flag_data_offset (flags : Z) : Z := bit_field_get 12 4 flags.
Definition flag_ack (flags : Z) : bool := bit_field_get 4 1 flags =? 1.
Definition flag_psh (flags : Z) : bool := bit_field_get 3 1 flags =? 1.
Definition flag_rst (flags : Z) : bool := bit_field_get 2 1 flags =? 1.
Definition flag_syn (flags : Z) : bool := bit_field_get 1 1 flags =? 1.
Definition flag_fin (flags : Z) : bool := bit_field_get 0 1 flags =? 1.

Definition set_flag_ack (flags : Z) : Z := bit_field_set 4 1 flags 1.
Definition set_flag_psh (flags : Z) : Z := bit_field_set 3 1 flags 1.
Definition set_flag_syn (flags : Z) : Z := bit_field_set 1 1 flags 1.
Definition set_flag_fin (flags : Z) : Z := bit_field_set 0 1 flags 1.

(** struct header { uint16_t source_port; uint16_t target_port;
    uint32_t sequence_number; uint32_t ack_number; uint16_t flags;
    uint16_t window_size; uint16_t checksum; uint16_t urgent_pointer; } *)
Definition off_source_port : Z := 0.
Definition off_target_port : Z := 2.
Definition off_sequence_number : Z := 4.
Definition off_ack_number : Z := 8.
Definition off_flags : Z := 12.
Definition off_window_size : Z := 14.
Definition off_checksum : Z := 16.
Definition off_urgent_pointer : Z := 18.

Record tcp_connection : Type := mk_connection {
  local_port     : Z;
  server_port    : Z;
  server_address : Z;
  listening      : bool;          (* std::atomic<bool> listening *)
  packets        : list packet;   (* circular_buffer<packet, 8> *)
  connected      : bool;
  ack_number     : Z;             (* uint32_t *)
  seq_number     : Z;             (* uint32_t *)
  socket         : option nat     (* network::socket* *)
}.

Definition packets_capacity : nat := 8.

#[global] Instance tcp_connection_Connection
  : ConnectionHandler.Connection tcp_connection :=
  {| ConnectionHandler.get_local_port := local_port;
     ConnectionHandler.get_server_port := server_port;
     ConnectionHandler.fresh := mk_connection 0 0 0 false [] false 0 0 None |}.

Definition set_listening (c : tcp_connection) (b : bool) : tcp_connection :=
  mk_connection (local_port c) (server_port c) (server_address c) b
    (packets c) (connected c) (ack_number c) (seq_number c) (socket c).

Definition set_packets (c : tcp_connection) (q : list packet) : tcp_connection :=
  mk_connection (local_port c) (server_port c) (server_address c)
    (listening c) q (connected c) (ack_number c) (seq_number c) (socket c).

Definition set_connected (c : tcp_connection) (b : bool) : tcp_connection :=
  mk_connection (local_port c) (server_port c) (server_address c)
    (listening c) (packets c) b (ack_number c) (seq_number c) (socket c).

(** [connection.seq_number = s; connection.ack_number = a;] *)
Definition set_numbers (c : tcp_connection) (s a : Z) : tcp_connection :=
  mk_connection (local_port c) (server_port c) (server_address c)
    (listening c) (packets c) (connected c) (wrap32 a) (wrap32 s) (socket c).

Record packet_descriptor : Type := mk_descriptor {
  pd_payload_size : Z
}.

Definition compute_checksum (p : packet) : packet :=
  let ip_header := tag1 p in
  let tcp_header := tag2 p in
  let tcp_len :=
    switch_endian_16 (load16 (payload p) (ip_header + ip_total_len))
    - Z.land (load8 (payload p) (ip_header + ip_version_ihl)) 0xF * 4 in
  let m0 := store16 (payload p) (tcp_header + off_checksum) 0 in
  let sum := checksum_add_bytes m0 (index p) (wrap64 tcp_len) in
  let sum1 := wrap32 (sum + checksum_add_bytes m0 (ip_header + ip_source_ip) 8) in
  let sum2 := wrap32 (sum1 + load8 m0 (ip_header + ip_protocol)) in
  let sum3 := wrap32 (sum2 + tcp_len) in
  set_payload p
    (store16 m0 (tcp_header + off_checksum)
             (switch_endian_16 (checksum_finalize_nz sum3))).

Definition default_tcp_header_length : Z := 20.

Definition get_default_flags : Z :=
  bit_field_set 12 4 0 (default_tcp_header_length / 4).

Definition prepare_packet (p : packet) (source target : Z) : packet :=
  let p1 := set_tag2 p (index p) in
  let h := index p1 in
  let m1 := store16 (payload p1) (h + off_source_port) (switch_endian_16 source) in
  let m2 := store16 m1 (h + off_target_port) (switch_endian_16 target) in
  let m3 := store16 m2 (h + off_window_size) (switch_endian_16 1024) in
  let m4 := store16 m3 (h + off_urgent_pointer) 0 in
  set_index (set_payload p1 m4) (wrap64 (index p1 + default_tcp_header_length)).

Definition tcp_payload_len (p : packet) : Z :=
  let ip_header := tag1 p in
  let tcp_header := tag2 p in
  let tcp_flags := switch_endian_16 (load16 (payload p) (tcp_header + off_flags)) in
  let ip_header_len :=
    Z.land (load8 (payload p) (ip_header + ip_version_ihl)) 0xF * 4 in
  let tcp_len :=
    switch_endian_16 (load16 (payload p) (ip_header + ip_total_len))
    - ip_header_len in
  let tcp_data_offset := flag_data_offset tcp_flags * 4 in
  wrap64 (tcp_len - tcp_data_offset).

(** The fields of the header at offset [h] of a buffer, in host order. *)
Definition header_flags (m : buffer) (h : Z) : Z :=
  switch_endian_16 (load16 m (h + off_flags)).
Definition header_seq (m : buffer) (h : Z) : Z :=
  switch_endian_32 (load32 m (h + off_sequence_number)).
Definition header_ack (m : buffer) (h : Z) : Z :=
  switch_endian_32 (load32 m (h + off_ack_number)).

Definition set_header_flags (p : packet) (flags : Z) : packet :=
  set_payload p (store16 (payload p) (tag2 p + off_flags) (switch_endian_16 flags)).

Definition set_header_numbers (p : packet) (s a : Z) : packet :=
  let m1 := store32 (payload p) (tag2 p + off_sequence_number)
                    (switch_endian_32 s) in
  set_payload p (store32 m1 (tag2 p + off_ack_number) (switch_endian_32 a)).

Section WithIp.
Variable L : Type.
Variable ip : ip_layer L.

Definition state : Type := world tcp_connection L.

(** [kernel_prepare_packet], the overload for raw answers. *)
Definition kernel_prepare_packet_raw (interface : interface_descriptor)
  (target_ip source target payload_size : Z) (w : state)
  : expected packet * state :=
  let desc := mk_ip_descriptor (payload_size + default_tcp_header_length)
                               target_ip 0x06 in
  match ip_kernel_prepare_packet ip interface desc (lower w) with
  | (Value p, l1) => (Value (prepare_packet p source target), set_lower w l1)
  | (Unexpected e, l1) => (Unexpected e, set_lower w l1)
  end.

(** [kernel_prepare_packet], the overload for the answers of a connection. *)
Definition kernel_prepare_packet (interface : interface_descriptor)
  (connection : tcp_connection) (payload_size : Z) (w : state)
  : expected packet * state :=
  let desc := mk_ip_descriptor (payload_size + default_tcp_header_length)
                               (server_address connection) 0x06 in
  match ip_kernel_prepare_packet ip interface desc (lower w) with
  | (Value p, l1) =>
      let p1 := prepare_packet p (local_port connection)
                               (server_port connection) in
      (Value (set_header_numbers p1 (seq_number connection)
                                 (ack_number connection)),
       set_lower w l1)
  | (Unexpected e, l1) => (Unexpected e, set_lower w l1)
  end.

(** The start of both finalisers: the cursor back on the header, and the
    checksum. *)
Definition rewind_and_checksum (p : packet) : packet :=
  let flags := header_flags (payload p) (tag2 p) in
  compute_checksum (set_index p (wrap64 (index p - flag_data_offset flags * 4))).

(** [finalize_packet_direct]: finalize without waiting for ACK. *)
Definition finalize_packet_direct (interface : interface_descriptor)
  (p : packet) (w : state) : expected unit * packet * state :=
  let p1 := rewind_and_checksum p in
  let '(r, p2, l1) := ip_finalize_packet ip interface p1 (lower w) in
  (r, p2, emit (set_lower w l1) [IpFinalize p1 r]).

Definition init_layer (w : state) : state := set_local_port_counter w 1023.

(** The acknowledgement that [decode] sends when PSH is set. *)
Definition acknowledge (interface : interface_descriptor) (pkt : packet)
  (source_port target_port next_seq next_ack : Z) (w : state) : state :=
  let ip_header := tag1 pkt in
  let '(p, w1) :=
    kernel_prepare_packet_raw interface
      (switch_endian_32 (load32 (payload pkt) (ip_header + ip_source_ip)))
      target_port source_port 0 w in
  match p with
  | Unexpected _ =>
      emit w1 [Log "tcp: Impossible to prepare TCP packet for ACK"%string]
  | Value p0 =>
      let p1 := set_header_numbers p0 next_seq next_ack in
      let p2 := set_header_flags p1 (set_flag_ack get_default_flags) in
      let '(_, _, w2) := finalize_packet_direct interface p2 w1 in
      w2
  end.

(** [decode]; returns the packet as the decoder leaves it. *)
Definition decode (interface : interface_descriptor) (pkt : packet) (w : state)
  : outcome (packet * state) :=
  let pkt1 := set_tag2 pkt (index pkt) in
  let tcp_header := index pkt1 in
  let source_port :=
    switch_endian_16 (load16 (payload pkt1) (tcp_header + off_source_port)) in
  let target_port :=
    switch_endian_16 (load16 (payload pkt1) (tcp_header + off_target_port)) in
  let seq := header_seq (payload pkt1) tcp_header in
  let ack := header_ack (payload pkt1) tcp_header in
  let flags := header_flags (payload pkt1) tcp_header in
  let next_seq := ack in
  let next_ack := wrap64 (seq + tcp_payload_len pkt1) in
  '(pkt2, w1) <-
    match ConnectionHandler.get_connection_for_packet
            (connections w) source_port target_port with
    | Some c =>
        connection <- get_connection w c ;;
        (* Update the connection status *)
        let connection1 := set_numbers connection next_seq next_ack in
        (* Propagate to kernel connections *)
        '(connection2, wa) <-
          (if listening connection1 then
             q <- CircularBuffer.push packets_capacity
                    (packets connection1) (clone pkt1) ;;
             Done (set_packets connection1 q, emit w [NotifyConnection c])
           else Done (connection1, w)) ;;
        let wb := put_connection wa c connection2 in
        (* Propagate to the kernel socket *)
        match socket connection2 with
        | Some sock =>
            if flag_psh flags then
              s <- get_socket wb sock ;;
              let pkt2 :=
                set_index pkt1
                  (wrap64 (index pkt1 + flag_data_offset flags * 4)) in
              if Socket.listen s then
                q <- CircularBuffer.push Socket.listen_capacity
                       (Socket.listen_packets s) (clone pkt2) ;;
                Done (pkt2,
                      emit (put_socket wb sock (Socket.set_listen_packets s q))
                           [NotifySocket sock])
              else Done (pkt2, wb)
            else Done (pkt1, wb)
        | None => Done (pkt1, wb)
        end
    | None =>
        Done (pkt1,
              emit w [Log "tcp: Received packet for which there are no connection"%string])
    end ;;
  (* Acknowledge if necessary *)
  if flag_psh flags then
    Done (pkt2,
          acknowledge interface pkt2 source_port target_port next_seq next_ack w1)
  else Done (pkt2, w1).

(** The acknowledgement [finalize_packet] accepts for a frame sent with
    [source_flags]. *)
Definition correct_ack (source_flags flags : Z) : bool :=
  if flag_syn source_flags then flag_syn flags && flag_ack flags
  else flag_ack flags.

(** One waiting phase: the inner [while (true)] loop with its
    [connection.queue.wait_for(remaining)].  The sleeper wakes at the first
    arrival whose decoding notifies the queue of the connection [c]; it pops
    the oldest queued packet and, when the flags of that packet satisfy
    [accept], leaves with its sequence number, its ack number and its flags;
    otherwise it waits again.  A timeout ends the phase empty-handed. *)
Fixpoint await (accept : Z -> bool) (interface : interface_descriptor)
  (c : nat) (events : list env_event) (w : state)
  : outcome (option (Z * Z * Z) * state) :=
  match events with
  | [] => Done (None, set_script w [])
  | Timeout :: rest => Done (None, set_script w rest)
  | Arrival p :: rest =>
      let before := length (trace w) in
      '(_, w1) <- decode interface p (set_script w rest) ;;
      if notified_connection c (skipn before (trace w1)) then
        connection <- get_connection w1 c ;;
        '(received_packet, q) <- CircularBuffer.pop (packets connection) ;;
        let w2 := emit (put_connection w1 c (set_packets connection q))
                       [Delete (payload received_packet)] in
        let h := index received_packet in
        let flags := header_flags (payload received_packet) h in
        if accept flags then
          Done (Some (header_seq (payload received_packet) h,
                      header_ack (payload received_packet) h, flags), w2)
        else await accept interface c rest w2
      else await accept interface c rest w1
  end.

(** The guard of the waiting loop, [after > before + timeout_ms], with
    the two readings equal on entry. *)
Definition expired (before after : Z) : bool :=
  wrap64 (before + timeout_ms) <? after.

(** One round of the [for] loop of [finalize_packet], for the packet [p]
    already rewound and checksummed.  The result is [inl] of the answer of
    the internet layer when it refuses the frame, else [inr] of what the
    waiting phase brought.  With it come the frame handed to the internet
    layer and the packet as the round leaves it: a user packet is handed
    over itself, and comes back as the internet layer left it; of any other
    packet a copy is handed over. *)
Definition attempt (accept : Z -> bool) (interface : interface_descriptor)
  (c : nat) (p : packet) (w : state)
  : outcome ((expected unit + option (Z * Z * Z)) * packet * packet * state) :=
  let sent := if user p then p else clone p in
  let '(result, sent1, l1) := ip_finalize_packet ip interface sent (lower w) in
  let p1 := if user p then sent1 else p in
  let w1 := emit (set_lower w l1) [IpFinalize sent result] in
  match result with
  | Unexpected e =>
      let freed := if user p then [Delete (payload p1)]
                   else [Delete (payload sent1); Delete (payload p1)] in
      Done (inl (Unexpected e), sent, p1, emit w1 freed)
  | Value _ =>
      let '(before, w2) := milliseconds w1 in
      let after := before in
      if expired before after then Done (inr None, sent, p1, w2)
      else
        '(got, w3) <- await accept interface c (script w2) w2 ;;
        Done (inr got, sent, p1, w3)
  end.

(** The [for (t = 0; t < max_tries; ++t)] loop; the frames handed to the
    internet layer come back in order. *)
Fixpoint attempts (tries : nat) (accept : Z -> bool)
  (interface : interface_descriptor) (c : nat) (p : packet) (w : state)
  : outcome ((expected unit + option (Z * Z * Z)) * list packet * packet * state) :=
  match tries with
  | O => Done (inr None, [], p, w)
  | S k =>
      '(r, sent, p1, w1) <- attempt accept interface c p w ;;
      match r with
      | inl e => Done (inl e, [sent], p1, w1)
      | inr (Some got) => Done (inr (Some got), [sent], p1, w1)
      | inr None =>
          (* after = timer::milliseconds(); *)
          let '(_, w2) := milliseconds w1 in
          '(r2, frames, p2, w3) <- attempts k accept interface c p1 w2 ;;
          Done (r2, sent :: frames, p2, w3)
      end
  end.

(** The connection a socket points to. *)
Definition connection_of (sock : nat) (w : state) : outcome nat :=
  s <- get_socket w sock ;;
  Socket.get_connection_data s.

(** [finalize_packet], with the frames it handed to the internet layer. *)
Definition finalize_packet_frames (interface : interface_descriptor)
  (sock : nat) (p : packet) (w : state)
  : outcome (expected unit * list packet * state) :=
  let source_flags := header_flags (payload p) (tag2 p) in
  let p1 := rewind_and_checksum p in
  c <- connection_of sock w ;;
  connection <- get_connection w c ;;
  let w1 := put_connection w c (set_listening connection true) in
  '(r, frames, p2, w2) <-
    attempts max_tries (correct_ack source_flags) interface c p1 w1 ;;
  match r with
  | inl e => Done (e, frames, w2)
  | inr got =>
      (* Release the memory of the original memory since it was copied *)
      let w3 := if user p2 then w2 else emit w2 [Delete (payload p2)] in
      (* Stop listening *)
      connection1 <- get_connection w3 c ;;
      let connection2 := set_listening connection1 false in
      match got with
      | Some (seq, ack, _) =>
          (* Set the future sequence and acknowledgement numbers *)
          Done (Value tt, frames,
                put_connection w3 c (set_numbers connection2 ack (seq + 1)))
      | None =>
          Done (Unexpected ERROR_SOCKET_TCP_ERROR, frames,
                put_connection w3 c connection2)
      end
  end.

Definition finalize_packet (interface : interface_descriptor) (sock : nat)
  (p : packet) (w : state) : outcome (expected unit * state) :=
  '(r, _, w1) <- finalize_packet_frames interface sock p w ;;
  Done (r, w1).

Definition user_prepare_packet (buf : buffer) (sock : nat)
  (descriptor : packet_descriptor) (w : state)
  : outcome (expected packet * state) :=
  s <- get_socket w sock ;;
  c <- Socket.get_connection_data s ;;
  connection <- get_connection w c ;;
  if negb (connected connection) then
    Done (Unexpected ERROR_SOCKET_NOT_CONNECTED, w)
  else
    let target_ip := server_address connection in
    let interface := select_interface ip target_ip in
    let desc := mk_ip_descriptor
                  (pd_payload_size descriptor + default_tcp_header_length)
                  target_ip 0x06 in
    match ip_user_prepare_packet ip buf interface desc (lower w) with
    | (Value p, l1) =>
        let p1 := prepare_packet p (local_port connection)
                                 (server_port connection) in
        let flags := set_flag_ack (set_flag_psh get_default_flags) in
        let p2 := set_header_flags p1 flags in
        Done (Value (set_header_numbers p2 (seq_number connection)
                                        (ack_number connection)),
              set_lower w l1)
    | (Unexpected e, l1) => Done (Unexpected e, set_lower w l1)
    end.

Definition send (target_buffer : buffer) (sock : nat) (buf : list byte)
  (n : Z) (w : state) : outcome (expected unit * state) :=
  s <- get_socket w sock ;;
  c <- Socket.get_connection_data s ;;
  connection <- get_connection w c ;;
  if negb (connected connection) then
    Done (Unexpected ERROR_SOCKET_NOT_CONNECTED, w)
  else
    (* logging::logf(logging::log_level::ERROR, "tcp: Send %s(%u)\n", ...) *)
    let w0 := emit w [Log "tcp: Send"%string] in
    '(pkt, w1) <- user_prepare_packet target_buffer sock (mk_descriptor n) w0 ;;
    match pkt with
    | Value p =>
        let p1 := set_payload p
                    (write_bytes (payload p) (index p)
                                 (read_bytes buf 0 (Z.to_nat n))) in
        let interface := select_interface ip (server_address connection) in
        finalize_packet interface sock p1 w1
    | Unexpected e => Done (Unexpected e, w1)
    end.

Definition connect (sock : nat) (interface : interface_descriptor)
  (server_port0 : Z) (server : Z) (w : state)
  : outcome (expected Z * state) :=
  (* Create the connection *)
  let '(h, c) := ConnectionHandler.create_connection (connections w) in
  let w1 := set_connections w h in
  connection <- get_connection w1 c ;;
  let port := wrap64 (local_port_counter w1 + 1) in
  let w2 := set_local_port_counter w1 port in
  (* Link the socket and connection *)
  s <- get_socket w2 sock ;;
  let w3 := put_socket w2 sock (Socket.set_connection_data s (Some c)) in
  let connection1 :=
    mk_connection port server_port0 server (listening connection)
      (packets connection) (connected connection) (ack_number connection)
      (seq_number connection) (Some sock) in
  let w4 := put_connection w3 c connection1 in
  (* Prepare the SYN packet *)
  let '(pkt, w5) := kernel_prepare_packet interface connection1 0 w4 in
  match pkt with
  | Unexpected e => Done (Unexpected e, w5)
  | Value p =>
      let p1 := set_header_flags p (set_flag_syn get_default_flags) in
      '(status, w6) <- finalize_packet interface sock p1 w5 ;;
      match status with
      | Unexpected e => Done (Unexpected e, w6)
      | Value _ =>
          (* The SYN/ACK is received; only remains to ACK *)
          connection2 <- get_connection w6 c ;;
          let '(pkt2, w7) := kernel_prepare_packet interface connection2 0 w6 in
          match pkt2 with
          | Unexpected e => Done (Unexpected e, w7)
          | Value q =>
              let q1 := set_header_flags q (set_flag_ack get_default_flags) in
              let '(_, _, w8) := finalize_packet_direct interface q1 w7 in
              (* Mark the connection as connected *)
              connection3 <- get_connection w8 c ;;
              Done (Value (local_port connection3),
                    put_connection w8 c (set_connected connection3 true))
          end
      end
  end.

(** The acknowledgements [disconnect] accepts for its FIN|ACK: a FIN|ACK
    ([rec_fin_ack]) or a bare ACK ([rec_ack]). *)
Definition is_fin_ack (flags : Z) : bool := flag_fin flags && flag_ack flags.

Definition fin_or_ack (flags : Z) : bool :=
  if is_fin_ack flags then true else flag_ack flags.

(** One round of the [for] loop of [disconnect]: a copy of the packet goes
    through [finalize_packet_direct]. *)
Definition fin_attempt (interface : interface_descriptor) (c : nat)
  (p : packet) (w : state)
  : outcome ((expected unit + option (Z * Z * Z)) * state) :=
  let copy := clone p in
  let '(result, _, w1) := finalize_packet_direct interface copy w in
  match result with
  | Unexpected e =>
      Done (inl (Unexpected e),
            emit w1 [Delete (payload copy); Delete (payload p)])
  | Value _ =>
      let '(before, w2) := milliseconds w1 in
      let after := before in
      if expired before after then Done (inr None, w2)
      else
        '(got, w3) <- await fin_or_ack interface c (script w2) w2 ;;
        Done (inr got, w3)
  end.

Fixpoint fin_attempts (tries : nat) (interface : interface_descriptor)
  (c : nat) (p : packet) (w : state)
  : outcome ((expected unit + option (Z * Z * Z)) * state) :=
  match tries with
  | O => Done (inr None, w)
  | S k =>
      '(r, w1) <- fin_attempt interface c p w ;;
      match r with
      | inl e => Done (inl e, w1)
      | inr (Some got) => Done (inr (Some got), w1)
      | inr None =>
          let '(_, w2) := milliseconds w1 in
          fin_attempts k interface c p w2
      end
  end.

(** The rounds of the second waiting loop of [disconnect] that find the
    queue non-empty: they pop without waiting. *)
Fixpoint drain (accept : Z -> bool) (q : list packet)
  : option (Z * Z * Z) * list packet * list net_event :=
  match q with
  | [] => (None, [], [])
  | p :: rest =>
      let flags := header_flags (payload p) (index p) in
      if accept flags then
        (Some (header_seq (payload p) (index p),
               header_ack (payload p) (index p), flags),
         rest, [Delete (payload p)])
      else
        let '(got, q1, evs) := drain accept rest in
        (got, q1, Delete (payload p) :: evs)
  end.

(** The second waiting loop of [disconnect]:
    [if (connection.packets.empty()) { if (!wait_for(remaining)) break; }]
    and then the pop. *)
Fixpoint await_queued (accept : Z -> bool) (interface : interface_descriptor)
  (c : nat) (events : list env_event) (w : state)
  : outcome (option (Z * Z * Z) * state) :=
  connection <- get_connection w c ;;
  let '(got, q, dels) := drain accept (packets connection) in
  let w1 := emit (put_connection w c (set_packets connection q)) dels in
  match got with
  | Some g => Done (Some g, w1)
  | None =>
      match events with
      | [] => Done (None, set_script w1 [])
      | Timeout :: rest => Done (None, set_script w1 rest)
      | Arrival p :: rest =>
          '(_, w2) <- decode interface p (set_script w1 rest) ;;
          await_queued accept interface c rest w2
      end
  end.

Definition disconnect (sock : nat) (w : state)
  : outcome (expected unit * state) :=
  s <- get_socket w sock ;;
  c <- Socket.get_connection_data s ;;
  connection <- get_connection w c ;;
  if negb (connected connection) then
    Done (Unexpected ERROR_SOCKET_NOT_CONNECTED, w)
  else
    let interface := select_interface ip (server_address connection) in
    let '(pkt, w1) := kernel_prepare_packet interface connection 0 w in
    match pkt with
    | Unexpected e => Done (Unexpected e, w1)
    | Value p =>
        let flags := set_flag_ack (set_flag_fin get_default_flags) in
        let p1 := set_header_flags p flags in
        let w2 := put_connection w1 c (set_listening connection true) in
        '(r, w3) <- fin_attempts max_tries interface c p1 w2 ;;
        match r with
        | inl e => Done (e, w3)
        | inr got =>
            (* Release the memory of the original memory since it was copied *)
            let w4 := emit w3 [Delete (payload p1)] in
            match got with
            | None => Done (Unexpected ERROR_SOCKET_TCP_ERROR, w4)
            | Some (seq, ack, rflags) =>
                connection1 <- get_connection w4 c ;;
                let w5 := put_connection w4 c
                            (set_numbers connection1 ack (seq + 1)) in
                (* If we received an ACK, we must wait for a FIN/ACK *)
                '(ok, w6) <-
                  (if is_fin_ack rflags then Done (true, w5)
                   else
                     let '(before, wa) := milliseconds w5 in
                     let after := before in
                     '(got2, wb) <-
                       (if expired before after then Done (None, wa)
                        else await_queued is_fin_ack interface c
                                          (script wa) wa) ;;
                     match got2 with
                     | None => Done (false, wb)
                     | Some (seq2, ack2, _) =>
                         connection2 <- get_connection wb c ;;
                         Done (true,
                               put_connection wb c
                                 (set_numbers connection2 ack2 (seq2 + 1)))
                     end) ;;
                if negb ok then Done (Unexpected ERROR_SOCKET_TCP_ERROR, w6)
                else
                  (* Stop listening *)
                  connection3 <- get_connection w6 c ;;
                  let connection4 := set_listening connection3 false in
                  let w7 := put_connection w6 c connection4 in
                  (* Finally we send the ACK for the FIN/ACK *)
                  let '(pkt2, w8) :=
                    kernel_prepare_packet interface connection4 0 w7 in
                  match pkt2 with
                  | Unexpected e => Done (Unexpected e, w8)
                  | Value q =>
                      let q1 :=
                        set_header_flags q (set_flag_ack get_default_flags) in
                      let '(_, _, w9) :=
                        finalize_packet_direct interface q1 w8 in
                      connection5 <- get_connection w9 c ;;
                      let w10 := put_connection w9 c
                                   (set_connected connection5 false) in
                      Done (Value tt,
                            set_connections w10
                              (ConnectionHandler.remove_connection
                                 (connections w10) c))
                  end
            end
        end
    end.

(** [socket.listen_queue.wait()] and [wait_for(ms)] of the two [receive]s:
    sleep while the outside runs; the wait is over at the first arrival
    whose decoding notifies the listen queue of [sock] ([true]) or, for a
    timed wait, at the timeout ([false]). *)
Fixpoint wait_loop (timed : bool) (interface : interface_descriptor)
  (sock : nat) (events : list env_event) (w : state)
  : outcome (bool * state) :=
  match events with
  | [] => if timed then Done (false, set_script w []) else Fatal BlockedForever
  | Timeout :: rest =>
      if timed then Done (false, set_script w rest)
      else wait_loop timed interface sock rest w
  | Arrival p :: rest =>
      let before := length (trace w) in
      '(_, w1) <- decode interface p (set_script w rest) ;;
      if notified_socket sock (skipn before (trace w1)) then Done (true, w1)
      else wait_loop timed interface sock rest w1
  end.

Definition wait (interface : interface_descriptor) (sock : nat) (w : state)
  : outcome state :=
  '(_, w1) <- wait_loop false interface sock (script w) w ;;
  Done w1.

Definition wait_for (interface : interface_descriptor) (sock : nat) (w : state)
  : outcome (bool * state) :=
  wait_loop true interface sock (script w) w.

(** The part of [receive] that follows the wait, common to both
    overloads.  [buf] is the caller's buffer; the result carries the buffer
    as the copy leaves it. *)
Definition receive_packet (buf : buffer) (sock : nat) (n : Z) (w : state)
  : outcome (expected Z * buffer * state) :=
  s <- get_socket w sock ;;
  '(pkt, q) <- CircularBuffer.pop (Socket.listen_packets s) ;;
  let w1 := put_socket w sock (Socket.set_listen_packets s q) in
  let payload_len := tcp_payload_len pkt in
  if n <? payload_len then
    Done (Unexpected ERROR_BUFFER_SMALL, buf, emit w1 [Delete (payload pkt)])
  else
    let copied := read_bytes (payload pkt) (index pkt) (Z.to_nat payload_len) in
    Done (Value payload_len, write_bytes buf 0 copied,
          emit w1 [Delete (payload pkt)]).

Definition receive (interface : interface_descriptor) (buf : buffer)
  (sock : nat) (n : Z) (w : state) : outcome (expected Z * buffer * state) :=
  s <- get_socket w sock ;;
  c <- Socket.get_connection_data s ;;
  connection <- get_connection w c ;;
  if negb (connected connection) then
    Done (Unexpected ERROR_SOCKET_NOT_CONNECTED, buf, w)
  else
    w1 <- (if CircularBuffer.empty (Socket.listen_packets s)
           then wait interface sock w else Done w) ;;
    receive_packet buf sock n w1.

Definition receive_timed (interface : interface_descriptor) (buf : buffer)
  (sock : nat) (n : Z) (ms : Z) (w : state)
  : outcome (expected Z * buffer * state) :=
  s <- get_socket w sock ;;
  c <- Socket.get_connection_data s ;;
  connection <- get_connection w c ;;
  if negb (connected connection) then
    Done (Unexpected ERROR_SOCKET_NOT_CONNECTED, buf, w)
  else if CircularBuffer.empty (Socket.listen_packets s) then
    if ms =? 0 then Done (Unexpected ERROR_SOCKET_TIMEOUT, buf, w)
    else
      '(woken, w1) <- wait_for interface sock w ;;
      if woken then receive_packet buf sock n w1
      else Done (Unexpected ERROR_SOCKET_TIMEOUT, buf, w1)
  else receive_packet buf sock n w.

End WithIp.
End Tcp.


(* ===================================================================== *)
(** ** Notions used to state the properties *)
(* ===================================================================== *)

(** [reduces s r]: [r] is the 16-bit one's-complement reduction of the
    sum [s] (end-around carry folded in). *)
Definition reduces (s r : Z) : Prop :=
  0 <= r <= 65535 /\ (exists k, 0 <= k /\ s = r + 65535 * k) /\ (r = 0 -> s = 0).

(** A socket with two registered packets, of descriptors 7 and 8. *)
Definition sample_packet : packet :=
  mk_packet [x01; x02; x03] 0 0 0 0 0 false.

Definition sample_socket : Socket.socket :=
  fst (Socket.register_packet
         (fst (Socket.register_packet
                 (Socket.mk_socket 3 Socket.DGRAM Socket.UDP 7 false None [] [])
                 sample_packet))
         sample_packet).

(** The echo reply that [Icmp.decode] hands to the internet layer, given the
    packet [r] prepared by the internet layer and the request [pkt]. *)
Definition echo_reply_packet (r pkt : packet) : packet :=
  let r1 := Icmp.prepare_packet r Icmp.ECHO_REPLY 0 in
  let cmd := read_bytes (payload pkt)
               (wrap64 (index pkt + Icmp.header_size - Icmp.rest_size))
               Icmp.echo_request_header_size in
  let r2 := set_payload r1 (write_bytes (payload r1) (index r1) cmd) in
  let p1 := set_index r2
              (wrap64 (index r2 - (Icmp.header_size - Icmp.rest_size))) in
  set_payload p1 (Icmp.compute_checksum (payload p1) (index p1) 0).

(** The packet the reference internet layer prepares for that reply. *)
Definition prepared_echo_reply : packet :=
  mk_packet
    (IpModel.write_ip_header (repeat x00 42) IpModel.interface
       (mk_ip_descriptor 8 0x0A000002 1))
    34 0 14 0 0 false.

(* ===================================================================== *)
(** ** Scenarios *)
(* ===================================================================== *)

(** The peer of the scenarios, 10.0.0.2, as an interface of its own. *)
Definition peer : interface_descriptor := mk_interface 0x0A000002.

(** A stream segment from the peer's port [source] to our port [target],
    as the internet layer hands it to the stream decoder: a frame of the
    reference layout with the cursor on the transport header. *)
Definition incoming_segment (source target seq ack flags : Z)
  (data : list byte) : packet :=
  let size := 20 + Z.of_nat (length data) in
  let m := IpModel.write_ip_header (repeat x00 (Z.to_nat (34 + size))) peer
             (mk_ip_descriptor size 0x0A000001 0x06) in
  let p := mk_packet m 34 0 14 34 0 false in
  let p1 := Tcp.set_header_flags
              (Tcp.set_header_numbers (Tcp.prepare_packet p source target)
                                      seq ack)
              flags in
  mk_packet (write_bytes (payload p1) 54 data) 34 0 14 0 0 false.

(** A datagram from the peer, padded to the 60 bytes of the shortest link
    frame. *)
Definition incoming_datagram (source target : Z) (data : list byte) : packet :=
  let size := 8 + Z.of_nat (length data) in
  let m := IpModel.write_ip_header
             (repeat x00 (Nat.max 60 (Z.to_nat (34 + size)))) peer
             (mk_ip_descriptor size 0x0A000001 0x11) in
  let p := Udp.prepare_packet (mk_packet m 34 0 14 0 0 false) source target
             (Z.of_nat (length data)) in
  mk_packet (write_bytes (payload p) 42 data) 34 0 14 0 0 false.

Definition flags_syn_ack : Z := Tcp.set_flag_ack (Tcp.set_flag_syn Tcp.get_default_flags).
Definition flags_ack : Z := Tcp.set_flag_ack Tcp.get_default_flags.
Definition flags_psh_ack : Z := Tcp.set_flag_ack (Tcp.set_flag_psh Tcp.get_default_flags).
Definition flags_rst : Z := bit_field_set 2 1 Tcp.get_default_flags 1.

Definition stream_socket : Socket.socket :=
  Socket.mk_socket 3 Socket.STREAM Socket.TCP 0 false None [] [].

Definition datagram_socket : Socket.socket :=
  Socket.mk_socket 4 Socket.DGRAM Socket.UDP 0 true None [] [].

(** A stream layer just initialised, with one socket (handle 0) and the
    given script of the outside. *)
Definition tcp_start (events : list env_event) : Tcp.state IpModel.lower :=
  Tcp.init_layer
    (mk_world 0 ConnectionHandler.empty_handler [(0%nat, stream_socket)]
              IpModel.quiet events [] []).

Definition udp_start (events : list env_event) : Udp.state IpModel.lower :=
  Udp.init_layer
    (mk_world 0 ConnectionHandler.empty_handler [(0%nat, datagram_socket)]
              IpModel.quiet events [] []).

(** Scenario S3: connect to 10.0.0.2:80; the peer answers SYN+ACK with
    seq 1000 and ack 1. *)
Definition syn_ack_frame : packet := incoming_segment 80 1024 1000 1 flags_syn_ack [].

(** The state of the world after a run, or the world itself when the run
    stopped the kernel. *)
Definition state_after {A L C : Type} (r : outcome (A * world C L))
  (w : world C L) : world C L :=
  match r with
  | Done (_, w1) => w1
  | Fatal _ => w
  end.

Definition connected_world (events : list env_event) : Tcp.state IpModel.lower :=
  let w := tcp_start (Arrival syn_ack_frame :: events) in
  state_after (Tcp.connect IpModel.layer 0 IpModel.interface 80 0x0A000002 w) w.

(* ===================================================================== *)
(** ** What the waiting loops leave alone *)
(* ===================================================================== *)

(** Two optional records are related when both are absent, or both are
    present and related. *)
Definition option_rel {A : Type} (R : A -> A -> Prop) (a b : option A) : Prop :=
  match a, b with
  | Some x, Some y => R x y
  | None, None => True
  | _, _ => False
  end.

(** The identity of a stream connection: everything but its sequence
    state, its queue and its listening flag. *)
Definition same_links (a b : Tcp.tcp_connection) : Prop :=
  Tcp.local_port b = Tcp.local_port a /\
  Tcp.server_port b = Tcp.server_port a /\
  Tcp.server_address b = Tcp.server_address a /\
  Tcp.connected b = Tcp.connected a /\
  Tcp.socket b = Tcp.socket a.

(** The identity of a socket: everything but its listen queue. *)
Definition same_socket (a b : Socket.socket) : Prop :=
  Socket.set_listen_packets b [] = Socket.set_listen_packets a [].

(** [stable w w']: from [w] to [w'] no connection and no socket was
    created or removed, none changed its identity, and the port counter
    stayed. *)
Definition stable {L : Type} (w w' : Tcp.state L) : Prop :=
  local_port_counter w' = local_port_counter w /\
  ConnectionHandler.next_handle (connections w')
  = ConnectionHandler.next_handle (connections w) /\
  map fst (ConnectionHandler.entries (connections w'))
  = map fst (ConnectionHandler.entries (connections w)) /\
  (forall c, option_rel same_links
               (lookup c (ConnectionHandler.entries (connections w)))
               (lookup c (ConnectionHandler.entries (connections w')))) /\
  (forall s, option_rel same_socket (lookup s (sockets w))
                        (lookup s (sockets w'))).

(** [popped_ack accept got w]: what a waiting phase brought, [got], are the
    sequence number, the ack number and the flags of a packet that was
    popped from the queue and freed, and whose flags satisfy [accept]. *)
Definition popped_ack {L : Type} (accept : Z -> bool) (got : option (Z * Z * Z))
  (w : Tcp.state L) : Prop :=
  match got with
  | None => True
  | Some g =>
      exists rp : packet,
        accept (Tcp.header_flags (payload rp) (index rp)) = true /\
        g = (Tcp.header_seq (payload rp) (index rp),
             Tcp.header_ack (payload rp) (index rp),
             Tcp.header_flags (payload rp) (index rp)) /\
        In (Delete (payload rp)) (trace w)
  end.

(** A script in which nothing arrives. *)
Definition silent (events : list env_event) : Prop :=
  Forall (fun e => e = Timeout) events.

(** The sequence and ack numbers of the connection [c], when it exists. *)
Definition numbers_of {L : Type} (c : nat) (w : Tcp.state L) : option (Z * Z) :=
  match lookup c (ConnectionHandler.entries (connections w)) with
  | Some v => Some (Tcp.seq_number v, Tcp.ack_number v)
  | None => None
  end.

(** Scenario S4 with a stray segment: after the connect of S3, a segment
    with only RST set (seq 5000, ack 77) arrives while [send] waits. *)
Definition rst_frame : packet := incoming_segment 80 1024 5000 77 flags_rst [].

(** Scenario S4: after the connect of S3, [send("xyz")]; nothing arrives
    during the first wait, then the peer acknowledges with seq 1001 and
    ack 4. *)
Definition ack_frame : packet := incoming_segment 80 1024 1001 4 flags_ack [].


(** A kernel packet (not user-backed) for the connection of S3, prepared
    and filled as [kernel_prepare_packet] leaves it, with FIN|ACK set. *)
Definition fin_ack_packet : packet :=
  let m := IpModel.write_ip_header (repeat x00 54) IpModel.interface
             (mk_ip_descriptor 20 0x0A000002 0x06) in
  let p := Tcp.prepare_packet (mk_packet m 34 0 14 0 0 false) 1024 80 in
  Tcp.set_header_flags (Tcp.set_header_numbers p 1 1001)
    (Tcp.set_flag_ack (Tcp.set_flag_fin Tcp.get_default_flags)).

(** What [finalize_packet] leaves of a run: the result, the frames and the
    numbers of connection 0. *)
Definition summary (r : outcome (expected unit * list packet
                                 * Tcp.state IpModel.lower))
  : option (expected unit * list packet * option (Z * Z)) :=
  match r with
  | Done (e, frames, w) => Some (e, frames, numbers_of 0 w)
  | Fatal _ => None
  end.









Definition result_of {A B C : Type} (r : outcome (expected A * B * C))
  : option (expected A) :=
  match r with
  | Done (e, _, _) => Some e
  | Fatal _ => None
  end.

Definition frames_of {A C : Type} (r : outcome (A * list packet * C))
  : list packet :=
  match r with
  | Done (_, frames, _) => frames
  | Fatal _ => []
  end.


(** The packet that [send("xyz")] prepares and fills after the connect of
    S3, and the run of [finalize_packet] on it: the user-backed case. *)
Definition xyz_prepared (events : list env_event)
  : outcome (expected packet * Tcp.state IpModel.lower) :=
  Tcp.user_prepare_packet IpModel.layer (repeat x00 57) 0
    (Tcp.mk_descriptor 3)
    (emit (connected_world events) [Log "tcp: Send"%string]).

Definition xyz_filled (p : packet) : packet :=
  set_payload p (write_bytes (payload p) (index p)
                             (read_bytes [x78; x79; x7a] 0 (Z.to_nat 3))).

Definition user_retry_run (events : list env_event)
  : outcome (expected unit * list packet * Tcp.state IpModel.lower) :=
  '(pkt, w1) <- xyz_prepared events ;;
  match pkt with
  | Value p =>
      Tcp.finalize_packet_frames IpModel.layer IpModel.interface 0
                                 (xyz_filled p) w1
  | Unexpected e => Done (Unexpected e, [], w1)
  end.

(** Scenario S2, the receiving side: the datagram socket is bound to
    10.0.0.2:7 (local port 1024), and the datagram "ping" has arrived from
    there and waits in the listen queue. *)
Definition ping : list byte := [x70; x69; x6e; x67].

Definition ping_frame : packet := incoming_datagram 7 1024 ping.

Definition bound_world : Udp.state IpModel.lower :=
  let w := udp_start [] in
  state_after (Udp.client_bind 0 7 0x0A000002 w) w.

Definition ping_world : Udp.state IpModel.lower :=
  state_after (Udp.decode IpModel.interface ping_frame bound_world) bound_world.

(** The result and the caller's buffer after a [receive]. *)
Definition received {A : Type} (r : outcome (expected Z * buffer * A))
  : option (expected Z * buffer) :=
  match r with
  | Done (e, buf, _) => Some (e, buf)
  | Fatal _ => None
  end.

(** A stream segment with PSH|ACK and the data "hi" for port 2000, where
    no connection listens. *)
Definition stray_push : packet :=
  incoming_segment 80 2000 500 1 flags_psh_ack [x68; x69].

Definition no_connection_message : String.string :=
  "tcp: Received packet for which there are no connection"%string.

(** A history of binds on the datagram layer, and of connects on the stream
    layer: the results in order. *)
Fixpoint udp_binds {L : Type} (reqs : list (nat * Z * Z)) (w : Udp.state L)
  : outcome (list (expected Z) * Udp.state L) :=
  match reqs with
  | [] => Done ([], w)
  | (sock, port, server) :: rest =>
      '(r, w1) <- Udp.client_bind sock port server w ;;
      '(rs, w2) <- udp_binds rest w1 ;;
      Done (r :: rs, w2)
  end.

Fixpoint tcp_connects {L : Type} (ip : ip_layer L)
  (reqs : list (nat * interface_descriptor * Z * Z)) (w : Tcp.state L)
  : outcome (list (expected Z) * Tcp.state L) :=
  match reqs with
  | [] => Done ([], w)
  | (sock, interface, port, server) :: rest =>
      '(r, w1) <- Tcp.connect ip sock interface port server w ;;
      '(rs, w2) <- tcp_connects ip rest w1 ;;
      Done (r :: rs, w2)
  end.

(** [assigned first rs]: the [i]-th result is either an error or the port
    [first + i]. *)
Fixpoint assigned (first : Z) (rs : list (expected Z)) : Prop :=
  match rs with
  | [] => True
  | r :: rest =>
      (forall v, r = Value v -> v = first) /\ assigned (first + 1) rest
  end.

(** The ports [first], [first + 1], ... ([n] of them). *)
Fixpoint ports (first : Z) (n : nat) : list Z :=
  match n with
  | O => []
  | S k => first :: ports (first + 1) k
  end.

(** The handles in use lie below the next handle of the table: a new
    record gets a handle no live record has. *)
Definition handles_fresh {C L : Type} (w : world C L) : Prop :=
  Forall (fun k => (k < ConnectionHandler.next_handle (connections w))%nat)
         (map fst (ConnectionHandler.entries (connections w))).

(** The local port of the record that the handle [c] refers to. *)
Definition port_of {C L : Type} `{ConnectionHandler.Connection C}
  (w : world C L) (c : nat) : option Z :=
  option_map ConnectionHandler.get_local_port
             (lookup c (ConnectionHandler.entries (connections w))).

(** Scenario: a connect that nobody answers. *)
Definition unanswered_connect
  : outcome (expected Z * Tcp.state IpModel.lower) :=
  Tcp.connect IpModel.layer 0 IpModel.interface 80 0x0A000002 (tcp_start []).

(** Scenario: two binds on the datagram layer, and two connects on the
    stream layer of which the peer answers the first only. *)
Definition two_binds : list (nat * Z * Z) :=
  [(0%nat, 7, 0x0A000002); (0%nat, 9, 0x0A000002)].

Definition two_connects : list (nat * interface_descriptor * Z * Z) :=
  [(0%nat, IpModel.interface, 80, 0x0A000002);
   (0%nat, IpModel.interface, 81, 0x0A000002)].

Definition results_of {A B : Type} (r : outcome (list A * B)) : list A :=
  match r with
  | Done (rs, _) => rs
  | Fatal _ => []
  end.

(* ===================================================================== *)
(** ** Further notions: semaphore histories and socket tables *)
(* ===================================================================== *)

(** The permits a history hands back ([unlock], [irq_unlock], [release(n)],
    [irq_release(n)]), and the number of its [lock] calls. *)
Fixpoint released (ops : list Semaphore.op) : Z :=
  match ops with
  | [] => 0
  | Semaphore.OpUnlock :: r => 1 + released r
  | Semaphore.OpIrqUnlock :: r => 1 + released r
  | Semaphore.OpRelease n :: r => n + released r
  | Semaphore.OpIrqRelease n :: r => n + released r
  | _ :: r => released r
  end.

Fixpoint lock_calls (ops : list Semaphore.op) : Z :=
  match ops with
  | [] => 0
  | Semaphore.OpLock _ :: r => 1 + lock_calls r
  | _ :: r => lock_calls r
  end.

(** A history without [try_lock] whose releases are sizes a size_t holds. *)
Definition plain_op (o : Semaphore.op) : Prop :=
  match o with
  | Semaphore.OpTryLock => False
  | Semaphore.OpRelease n => 0 <= n
  | Semaphore.OpIrqRelease n => 0 <= n
  | _ => True
  end.

(** The descriptors of the prepared packets of a socket are all below its
    next descriptor. *)
Definition fds_below (s : Socket.socket) : Prop :=
  Forall (fun p => 0 <= fd p < Socket.next_fd s) (Socket.packets s).

(** A stream packet carries a connection when its header has the ports and
    the numbers of the connection, and the cursor is behind the header. *)
Definition carries (p : packet) (conn : Tcp.tcp_connection) : Prop :=
  index p = tag2 p + Tcp.default_tcp_header_length /\
  switch_endian_16 (load16 (payload p) (tag2 p + Tcp.off_source_port))
  = wrap16 (Tcp.local_port conn) /\
  switch_endian_16 (load16 (payload p) (tag2 p + Tcp.off_target_port))
  = wrap16 (Tcp.server_port conn) /\
  Tcp.header_seq (payload p) (tag2 p) = wrap32 (Tcp.seq_number conn) /\
  Tcp.header_ack (payload p) (tag2 p) = wrap32 (Tcp.ack_number conn).

(** The value of an [expected], or a default. *)
Definition value_or {A : Type} (e : expected A) (d : A) : A :=
  match e with
  | Value a => a
  | Unexpected _ => d
  end.

(** The connection of scenario S3 once established, and the packets the
    stream layer prepares for it in the kernel and for the user. *)
Definition established : Tcp.tcp_connection :=
  Tcp.mk_connection 1024 80 0x0A000002 false [] true 1001 1 (Some 0%nat).

Definition kernel_prepared : expected packet * Tcp.state IpModel.lower :=
  Tcp.kernel_prepare_packet IpModel.layer IpModel.interface established 0
                            (connected_world []).

Definition user_prepared
  : outcome (expected packet * Tcp.state IpModel.lower) :=
  Tcp.user_prepare_packet IpModel.layer (repeat x00 57) 0
                          (Tcp.mk_descriptor 3) (connected_world []).

Definition packet_of {A : Type} (r : outcome (expected packet * A)) : packet :=
  match r with
  | Done (e, _) => value_or e sample_packet
  | Fatal _ => sample_packet
  end.

(** The established connection of scenario S3 with its socket put in
    listen mode, and a segment with PSH|ACK and the data "hi" for it. *)
Definition listening_socket : Socket.socket :=
  Socket.mk_socket 3 Socket.STREAM Socket.TCP 0 true (Some 0%nat) [] [].

Definition listening_world (events : list env_event)
  : Tcp.state IpModel.lower :=
  put_socket (connected_world events) 0 listening_socket.

Definition push_frame : packet :=
  incoming_segment 80 1024 1001 1 flags_psh_ack [x68; x69].

(** The internet layer takes every frame as long as its state is [good],
    and stays so. *)
Definition accepting {L : Type} (ip : ip_layer L)
  (interface : interface_descriptor) (good : L -> Prop) : Prop :=
  forall (q : packet) (l : L),
    good l ->
    fst (fst (ip_finalize_packet ip interface q l)) = Value tt /\
    good (snd (ip_finalize_packet ip interface q l)).

(** The world of scenario S3 with an internet layer that will refuse the
    next frame. *)
Definition refusing_world : Tcp.state IpModel.lower :=
  set_lower (connected_world []) (IpModel.mk_lower [] [false] 7).

(** The peer's FIN|ACK that answers the FIN|ACK of a [disconnect] after the
    connect of S3. *)
Definition flags_fin_ack : Z :=
  Tcp.set_flag_ack (Tcp.set_flag_fin Tcp.get_default_flags).

Definition fin_ack_reply : packet :=
  incoming_segment 80 1024 1001 2 flags_fin_ack [].


(* ===================================================================== *)
(** * Properties *)
(* ===================================================================== *)

Unset Implicit Arguments.

(* ===================================================================== *)
(** ** Semaphore: direct hand-over and FIFO wake-up *)
(* ===================================================================== *)

Section SemaphoreFacts.
Import Semaphore.

Lemma blocked_app (a b : list sched_event) :
  blocked (a ++ b) = blocked a ++ blocked b.
Proof.
  induction a as [|e a IH]; simpl; [reflexivity|].
  destruct e; simpl; rewrite IH; reflexivity.
Qed.

Lemma woken_app (a b : list sched_event) :
  woken (a ++ b) = woken a ++ woken b.
Proof.
  induction a as [|e a IH]; simpl; [reflexivity|].
  destruct e; simpl; rewrite IH; reflexivity.
Qed.

Lemma release_loop_fifo (wake : pid_t -> sched_event) :
  (forall pid, woken [wake pid] = [pid] /\ blocked [wake pid] = []) ->
  forall q n n' q' evs,
    release_loop wake n q = (n', q', evs) ->
    q = woken evs ++ q' /\ blocked evs = [].
Proof.
  intros Hw q. induction q as [|pid rest IH]; intros n n' q' evs Hr; simpl in Hr.
  - inversion Hr; subst. split; reflexivity.
  - destruct (n =? 0).
    + inversion Hr; subst. split; reflexivity.
    + destruct (release_loop wake (wrap64 (n - 1)) rest) as [[n1 q1] e1] eqn:E.
      inversion Hr; subst.
      destruct (IH _ _ _ _ E) as [Hq Hb].
      destruct (Hw pid) as [Hw1 Hw2].
      change (wake pid :: e1) with ([wake pid] ++ e1).
      rewrite woken_app, blocked_app, Hw1, Hw2, Hb. simpl.
      split; [f_equal; exact Hq | reflexivity].
Qed.

Lemma release_with_fifo (wake : pid_t -> sched_event) :
  (forall pid, woken [wake pid] = [pid] /\ blocked [wake pid] = []) ->
  forall n s s' evs,
    release_with wake n s = (s', evs) ->
    queue s ++ blocked evs = woken evs ++ queue s'.
Proof.
  intros Hw n s s' evs. unfold release_with.
  destruct (CircularBuffer.empty (queue s)) eqn:Em.
  - destruct (queue s) as [|pid rest] eqn:Q; [|discriminate].
    intros Hr; inversion Hr; subst; simpl. reflexivity.
  - destruct (release_loop wake n (queue s)) as [[n1 q1] e1] eqn:E.
    destruct (release_loop_fifo wake Hw _ _ _ _ _ E) as [Hq Hb].
    destruct (n1 =? 0); intros Hr; inversion Hr; subst; simpl;
      rewrite Hb, app_nil_r; exact Hq.
Qed.

Lemma step_fifo (o : op) (s s' : semaphore) (evs : list sched_event) :
  step o s = Done (s', evs) ->
  queue s ++ blocked evs = woken evs ++ queue s'.
Proof.
  destruct o; simpl.
  - unfold lock. destruct (0 <? value s).
    + intros Hs; inversion Hs; subst; simpl. apply app_nil_r.
    + unfold CircularBuffer.push.
      destruct (CircularBuffer.full queue_capacity (queue s)); simpl;
        [discriminate|].
      intros Hs; inversion Hs; subst; reflexivity.
  - unfold try_lock. destruct (0 <? value s); simpl;
      intros Hs; inversion Hs; subst; simpl; apply app_nil_r.
  - unfold unlock. destruct (queue s) as [|pid rest] eqn:Q; simpl;
      intros Hs; inversion Hs; subst; simpl; rewrite ?Q, ?app_nil_r; reflexivity.
  - unfold irq_unlock. destruct (queue s) as [|pid rest] eqn:Q; simpl;
      intros Hs; inversion Hs; subst; simpl; rewrite ?Q, ?app_nil_r; reflexivity.
  - intros Hs; inversion Hs as [Hr]. unfold release in Hr.
    apply (release_with_fifo Unblock) with (n := n); [|exact Hr].
    intros pid; split; reflexivity.
  - intros Hs; inversion Hs as [Hr]. unfold irq_release in Hr.
    apply (release_with_fifo UnblockHint) with (n := n); [|exact Hr].
    intros pid; split; reflexivity.
Qed.

Lemma run_fifo (ops : list op) :
  forall s s' evs,
    run ops s = Done (s', evs) ->
    queue s ++ blocked evs = woken evs ++ queue s'.
Proof.
  induction ops as [|o ops IH]; intros s s' evs; simpl.
  - intros Hr; inversion Hr; subst; simpl. apply app_nil_r.
  - destruct (step o s) as [[s1 e1]|] eqn:S1; simpl; [|discriminate].
    destruct (run ops s1) as [[s2 e2]|] eqn:R; simpl; [|discriminate].
    intros Hr; inversion Hr; subst.
    rewrite blocked_app, woken_app, app_assoc, (step_fifo _ _ _ _ S1).
    rewrite <- !app_assoc. f_equal. apply IH. exact R.
Qed.

End SemaphoreFacts.

(** C3.  An unlock that finds waiters removes the oldest one from the queue
    and unblocks it, leaving the counter as it is; an unlock that finds no
    waiter adds one to the counter (in size_t arithmetic; exactly one below
    the maximum); and over any history of semaphore calls the processes
    woken are, in order, the first of those that went to sleep: the queue
    held at the start followed by the processes blocked by [lock]. *)
Theorem semaphore_unlock_fifo :
  forall (s : Semaphore.semaphore) (ops : list Semaphore.op)
         (s' : Semaphore.semaphore) (evs : list Semaphore.sched_event),
    (forall pid rest,
        Semaphore.queue s = pid :: rest ->
        Semaphore.unlock s
        = Done (Semaphore.mk_semaphore (Semaphore.value s) rest,
                [Semaphore.Unblock pid])) /\
    (Semaphore.queue s = [] ->
        Semaphore.unlock s
        = Done (Semaphore.mk_semaphore (wrap64 (Semaphore.value s + 1)) [], [])
        /\ (0 <= Semaphore.value s < 2 ^ 64 - 1 ->
            wrap64 (Semaphore.value s + 1) = Semaphore.value s + 1)) /\
    (Semaphore.run ops s = Done (s', evs) ->
        Semaphore.queue s ++ Semaphore.blocked evs
        = Semaphore.woken evs ++ Semaphore.queue s').
Proof.
  intros s ops s' evs. split; [|split].
  - intros pid rest Q. unfold Semaphore.unlock. rewrite Q. reflexivity.
  - intros Q. unfold Semaphore.unlock. rewrite Q. simpl. split; [reflexivity|].
    intros Hv. unfold wrap64. apply Z.mod_small. lia.
  - apply run_fifo.
Qed.

(** Scenario S6: the counter is 0, P1, P2 and P3 call [lock] in that order,
    and three calls of [unlock] wake P1, P2 and P3 in that order. *)
Lemma semaphore_unlock_fifo_witness :
  let s0 := Semaphore.mk_semaphore 0 [] in
  let ops := [Semaphore.OpLock 1; Semaphore.OpLock 2; Semaphore.OpLock 3;
              Semaphore.OpUnlock; Semaphore.OpUnlock; Semaphore.OpUnlock] in
  let evs := [Semaphore.Block 1; Semaphore.Reschedule;
              Semaphore.Block 2; Semaphore.Reschedule;
              Semaphore.Block 3; Semaphore.Reschedule;
              Semaphore.Unblock 1; Semaphore.Unblock 2; Semaphore.Unblock 3] in
  Semaphore.run ops s0 = Done (s0, evs) /\
  Semaphore.woken evs = [1; 2; 3] /\
  Semaphore.unlock (Semaphore.mk_semaphore 0 [1; 2; 3])
  = Done (Semaphore.mk_semaphore 0 [2; 3], [Semaphore.Unblock 1]) /\
  Semaphore.unlock s0 = Done (Semaphore.mk_semaphore 1 [], []) /\
  [] ++ Semaphore.blocked evs = Semaphore.woken evs ++ [].
Proof.
  intros s0 ops evs.
  split; [reflexivity|]. split; [reflexivity|].
  split.
  - apply (proj1 (semaphore_unlock_fifo (Semaphore.mk_semaphore 0 [1; 2; 3])
                    ops s0 evs) 1 [2; 3]).
    reflexivity.
  - split.
    + apply (proj1 (proj1 (proj2 (semaphore_unlock_fifo s0 ops s0 evs))
                       eq_refl)).
    + apply (proj2 (proj2 (semaphore_unlock_fifo s0 ops s0 evs))).
      reflexivity.
Defined.

(* ===================================================================== *)
(** ** Socket: the descriptor table of prepared packets *)
(* ===================================================================== *)

Lemma get_packet_loop_found (ps : list packet) (fd0 : Z) :
  Socket.has_packet_loop ps fd0 = true ->
  exists p, Socket.get_packet_loop ps fd0 = Done p /\ fd p = fd0 /\ In p ps.
Proof.
  induction ps as [|p ps IH]; simpl; [discriminate|].
  destruct (fd p =? fd0) eqn:E.
  - intros _. exists p. apply Z.eqb_eq in E. auto.
  - intros H. destruct (IH H) as [q [Hq [Hf Hin]]]. exists q. auto.
Qed.

Lemma get_packet_loop_missing (ps : list packet) (fd0 : Z) :
  Socket.has_packet_loop ps fd0 = false ->
  Socket.get_packet_loop ps fd0 = Fatal Unreachable.
Proof.
  induction ps as [|p ps IH]; simpl; [reflexivity|].
  destruct (fd p =? fd0); [discriminate | exact IH].
Qed.

(** C10.  When [has_packet(fd)] holds, [get_packet(fd)] returns a packet of
    the descriptor table whose fd field is [fd]; when it does not hold,
    [get_packet(fd)] does not return an error value: it runs into
    thor_unreachable. *)
Theorem get_packet_guarded_by_has_packet :
  forall (s : Socket.socket) (fd0 : Z),
    (Socket.has_packet s fd0 = true ->
       exists p, Socket.get_packet s fd0 = Done p /\ fd p = fd0
                 /\ In p (Socket.packets s)) /\
    (Socket.has_packet s fd0 = false ->
       Socket.get_packet s fd0 = Fatal Unreachable).
Proof.
  intros s fd0. split.
  - apply get_packet_loop_found.
  - apply get_packet_loop_missing.
Qed.


Lemma get_packet_guarded_by_has_packet_witness :
  (exists p, Socket.get_packet sample_socket 8 = Done p /\ fd p = 8
             /\ In p (Socket.packets sample_socket)) /\
  Socket.get_packet sample_socket 9 = Fatal Unreachable.
Proof.
  split.
  - apply (proj1 (get_packet_guarded_by_has_packet sample_socket 8)).
    reflexivity.
  - apply (proj2 (get_packet_guarded_by_has_packet sample_socket 9)).
    reflexivity.
Defined.

(* ===================================================================== *)
(** ** Buffers: loads after stores *)
(* ===================================================================== *)

Lemma byte_to_Z_range (b : byte) : 0 <= byte_to_Z b <= 255.
Proof.
  unfold byte_to_Z. pose proof (Byte.to_N_bounded b). lia.
Qed.

Lemma byte_to_of_Z (z : Z) : byte_to_Z (byte_of_Z z) = z mod 256.
Proof.
  unfold byte_to_Z, byte_of_Z.
  assert (Hr : 0 <= z mod 256 < 256) by (apply Z.mod_pos_bound; lia).
  destruct (Byte.of_N (Z.to_N (z mod 256))) as [b|] eqn:E.
  - apply Byte.to_of_N in E. rewrite E. lia.
  - apply Byte.of_N_None_iff in E. lia.
Qed.

Lemma byte_of_to_Z (b : byte) : byte_of_Z (byte_to_Z b) = b.
Proof.
  unfold byte_of_Z, byte_to_Z.
  pose proof (Byte.to_N_bounded b) as Hb.
  rewrite Z.mod_small by lia. rewrite N2Z.id, Byte.of_to_N. reflexivity.
Qed.

Lemma set_nth_length (m : buffer) (i : nat) (b : byte) :
  length (set_nth m i b) = length m.
Proof.
  revert i; induction m as [|x m IH]; intros [|i]; simpl; auto.
Qed.

Lemma set_byte_length (m : buffer) (off : Z) (b : byte) :
  length (set_byte m off b) = length m.
Proof.
  unfold set_byte. destruct (off <? 0); [reflexivity | apply set_nth_length].
Qed.

Lemma nth_set_nth_same (m : buffer) (i : nat) (b : byte) :
  (i < length m)%nat -> nth i (set_nth m i b) x00 = b.
Proof.
  revert i; induction m as [|x m IH]; intros [|i]; simpl; intros H;
    try lia; auto. apply IH. lia.
Qed.

Lemma nth_set_nth_other (m : buffer) (i j : nat) (b : byte) :
  i <> j -> nth j (set_nth m i b) x00 = nth j m x00.
Proof.
  revert i j; induction m as [|x m IH]; intros [|i] [|j]; simpl; intros H;
    try congruence; auto.
Qed.

Lemma get_set_same (m : buffer) (off : Z) (b : byte) :
  0 <= off < Z.of_nat (length m) -> get_byte (set_byte m off b) off = b.
Proof.
  intros H. unfold get_byte, set_byte.
  destruct (off <? 0) eqn:E; [apply Z.ltb_lt in E; lia|].
  apply nth_set_nth_same. lia.
Qed.

Lemma get_set_other (m : buffer) (off off' : Z) (b : byte) :
  off <> off' -> get_byte (set_byte m off b) off' = get_byte m off'.
Proof.
  intros H. unfold get_byte, set_byte.
  destruct (off' <? 0) eqn:E'; [reflexivity|].
  destruct (off <? 0) eqn:E; [reflexivity|].
  apply Z.ltb_ge in E, E'. apply nth_set_nth_other. lia.
Qed.

Lemma store8_length (m : buffer) (off v : Z) :
  length (store8 m off v) = length m.
Proof. apply set_byte_length. Qed.

Lemma store16_length (m : buffer) (off v : Z) :
  length (store16 m off v) = length m.
Proof. unfold store16. rewrite !store8_length. reflexivity. Qed.

Lemma store32_length (m : buffer) (off v : Z) :
  length (store32 m off v) = length m.
Proof. unfold store32. rewrite !store16_length. reflexivity. Qed.

Lemma load8_range (m : buffer) (off : Z) : 0 <= load8 m off <= 255.
Proof. apply byte_to_Z_range. Qed.

Lemma load8_store8_same (m : buffer) (off v : Z) :
  0 <= off < Z.of_nat (length m) -> load8 (store8 m off v) off = v mod 256.
Proof.
  intros H. unfold load8, store8. rewrite get_set_same by exact H.
  apply byte_to_of_Z.
Qed.

Lemma load8_store8_other (m : buffer) (off off' v : Z) :
  off <> off' -> load8 (store8 m off v) off' = load8 m off'.
Proof.
  intros H. unfold load8, store8. rewrite get_set_other by exact H.
  reflexivity.
Qed.

Lemma load8_store16_other (m : buffer) (off off' v : Z) :
  off' <> off -> off' <> off + 1 ->
  load8 (store16 m off v) off' = load8 m off'.
Proof.
  intros H1 H2. unfold store16.
  rewrite !load8_store8_other by lia. reflexivity.
Qed.

Lemma load16_store16_same (m : buffer) (off v : Z) :
  0 <= off -> off + 1 < Z.of_nat (length m) -> 0 <= v < 65536 ->
  load16 (store16 m off v) off = v.
Proof.
  intros H1 H2 Hv. unfold load16, store16.
  rewrite load8_store8_same by (rewrite store8_length; lia).
  rewrite load8_store8_other by lia.
  rewrite load8_store8_same by lia.
  Z.div_mod_to_equations. lia.
Qed.

Lemma load16_store16_other (m : buffer) (off off' v : Z) :
  off' + 1 < off \/ off + 1 < off' ->
  load16 (store16 m off v) off' = load16 m off'.
Proof.
  intros H. unfold load16.
  rewrite !load8_store16_other by lia. reflexivity.
Qed.

Lemma get_write_bytes_outside (src : list byte) :
  forall (m : buffer) (off i : Z),
    i < off \/ off + Z.of_nat (length src) <= i ->
    get_byte (write_bytes m off src) i = get_byte m i.
Proof.
  induction src as [|b src IH]; intros m off i H; simpl; [reflexivity|].
  simpl length in H. rewrite IH by lia.
  apply get_set_other. lia.
Qed.

Lemma write_bytes_length (src : list byte) :
  forall (m : buffer) (off : Z),
    length (write_bytes m off src) = length m.
Proof.
  induction src as [|b src IH]; intros m off; simpl; [reflexivity|].
  rewrite IH. apply set_byte_length.
Qed.

Lemma get_write_bytes_inside (src : list byte) :
  forall (m : buffer) (off : Z) (k : nat),
    0 <= off -> off + Z.of_nat (length src) <= Z.of_nat (length m) ->
    (k < length src)%nat ->
    get_byte (write_bytes m off src) (off + Z.of_nat k) = nth k src x00.
Proof.
  induction src as [|b src IH]; intros m off k H0 H1 Hk; simpl in *; [lia|].
  destruct k as [|k].
  - rewrite Z.add_0_r. rewrite get_write_bytes_outside by lia.
    apply get_set_same. lia.
  - replace (off + Z.of_nat (S k)) with ((off + 1) + Z.of_nat k) by lia.
    apply IH; try lia. rewrite set_byte_length. lia.
Qed.

Lemma nth_read_bytes (len : nat) :
  forall (m : buffer) (off : Z) (k : nat),
    (k < len)%nat ->
    nth k (read_bytes m off len) x00 = get_byte m (off + Z.of_nat k).
Proof.
  induction len as [|len IH]; intros m off k Hk; [lia|].
  simpl. destruct k as [|k].
  - f_equal. lia.
  - rewrite IH by lia. f_equal. lia.
Qed.

Lemma read_bytes_length (len : nat) :
  forall (m : buffer) (off : Z), length (read_bytes m off len) = len.
Proof.
  induction len as [|len IH]; intros m off; simpl; [reflexivity|].
  rewrite IH. reflexivity.
Qed.

(* ===================================================================== *)
(** ** One's-complement sums *)
(* ===================================================================== *)


Lemma reduces_unique (s r1 r2 : Z) : reduces s r1 -> reduces s r2 -> r1 = r2.
Proof.
  intros [B1 [[k1 [K1 E1]] Z1]] [B2 [[k2 [K2 E2]] Z2]]. lia.
Qed.

Lemma land_low16 (t : Z) : Z.land t 0xFFFF = t mod 65536.
Proof. change 0xFFFF with (Z.ones 16). rewrite Z.land_ones by lia. reflexivity. Qed.

Lemma shiftr_high16 (t : Z) : Z.shiftr t 16 = t / 65536.
Proof. rewrite Z.shiftr_div_pow2 by lia. reflexivity. Qed.

Lemma checksum_fold_step (k : nat) (s : Z) :
  checksum_fold (S k) s
  = if s / 65536 =? 0 then s else checksum_fold k (s mod 65536 + s / 65536).
Proof. simpl. rewrite shiftr_high16, land_low16. reflexivity. Qed.

Lemma checksum_fold_reduces (s : Z) :
  0 <= s < 2 ^ 32 -> reduces s (checksum_fold 3 s).
Proof.
  intros Hs. unfold reduces.
  rewrite checksum_fold_step.
  destruct (s / 65536 =? 0) eqn:E0.
  { apply Z.eqb_eq in E0.
    assert (s < 65536) by (Z.div_mod_to_equations; lia).
    split; [lia|]. split; [exists 0; lia | auto]. }
  apply Z.eqb_neq in E0.
  set (s1 := s mod 65536 + s / 65536).
  assert (H1 : 0 < s1 <= 131070 /\ s = s1 + 65535 * (s / 65536) /\ 0 < s / 65536).
  { unfold s1. Z.div_mod_to_equations. lia. }
  rewrite checksum_fold_step.
  destruct (s1 / 65536 =? 0) eqn:E1.
  { apply Z.eqb_eq in E1.
    assert (s1 < 65536) by (Z.div_mod_to_equations; lia).
    split; [lia|]. split; [exists (s / 65536); lia | lia]. }
  apply Z.eqb_neq in E1.
  set (s2 := s1 mod 65536 + s1 / 65536).
  assert (H2 : 0 < s2 <= 65535 /\ s1 = s2 + 65535).
  { unfold s2. Z.div_mod_to_equations. lia. }
  rewrite checksum_fold_step.
  replace (s2 / 65536 =? 0) with true
    by (symmetry; apply Z.eqb_eq; Z.div_mod_to_equations; lia).
  split; [lia|]. split; [exists (s / 65536 + 1); lia | lia].
Qed.

Lemma fold_carry_step (k : nat) (value carry : Z) :
  0 <= value < 65536 -> 0 <= carry < 65536 ->
  Icmp.fold_carry (S k) value carry
  = if carry =? 0 then (value, carry)
    else Icmp.fold_carry k ((value + carry) mod 65536) ((value + carry) / 65536).
Proof.
  intros Hv Hc. simpl. destruct (carry =? 0); [reflexivity|].
  unfold wrap32. rewrite land_low16, shiftr_high16.
  rewrite (Z.mod_small (value + carry)) by lia.
  rewrite (Z.mod_small (value + carry - _)).
  - f_equal. Z.div_mod_to_equations. lia.
  - Z.div_mod_to_equations. lia.
Qed.

(** The carry loop of the ICMP checksum settles within [fold_rounds]
    rounds, and leaves the reduction of the sum. *)
Lemma fold_carry_settles (value carry : Z) :
  0 <= value < 65536 -> 0 <= carry < 65536 ->
  let r := Icmp.fold_carry Icmp.fold_rounds value carry in
  snd r = 0 /\ reduces (value + 65536 * carry) (fst r).
Proof.
  intros Hv Hc. unfold Icmp.fold_rounds, reduces.
  rewrite fold_carry_step by lia.
  destruct (carry =? 0) eqn:E0.
  { apply Z.eqb_eq in E0. subst carry. cbn [fst snd].
    split; [reflexivity|]. split; [lia|]. split; [exists 0; lia | lia]. }
  apply Z.eqb_neq in E0.
  set (v1 := (value + carry) mod 65536). set (c1 := (value + carry) / 65536).
  assert (H1 : 0 <= v1 < 65536 /\ 0 <= c1 <= 1 /\ value + carry = v1 + 65536 * c1).
  { unfold v1, c1. Z.div_mod_to_equations. lia. }
  clearbody v1 c1.
  rewrite fold_carry_step by lia.
  destruct (c1 =? 0) eqn:E1.
  { apply Z.eqb_eq in E1. cbn [fst snd].
    split; [lia|]. split; [lia|]. split; [exists carry; lia | lia]. }
  apply Z.eqb_neq in E1.
  set (v2 := (v1 + c1) mod 65536). set (c2 := (v1 + c1) / 65536).
  assert (H2 : 0 < v2 < 65536 /\ c2 = 0 /\ v1 + c1 = v2).
  { unfold v2, c2. Z.div_mod_to_equations. lia. }
  clearbody v2 c2.
  rewrite fold_carry_step by lia.
  replace (c2 =? 0) with true by (symmetry; apply Z.eqb_eq; lia).
  cbn [fst snd]. split; [lia|]. split; [lia|].
  split; [exists (carry + 1); lia | lia].
Qed.

Lemma switch_endian_16_bytes (lo hi : Z) :
  0 <= lo <= 255 -> 0 <= hi <= 255 ->
  switch_endian_16 (lo + 256 * hi) = hi + 256 * lo.
Proof.
  intros Hl Hh. unfold switch_endian_16, wrap16.
  rewrite Z.mod_small by lia.
  change 255 with (Z.ones 8). rewrite Z.land_ones by lia.
  rewrite Z.shiftl_mul_pow2, Z.shiftr_div_pow2 by lia.
  replace ((lo + 256 * hi) mod 2 ^ 8) with lo by (Z.div_mod_to_equations; lia).
  replace ((lo + 256 * hi) / 2 ^ 8) with hi by (Z.div_mod_to_equations; lia).
  assert (Hland : Z.land (lo * 2 ^ 8) hi = 0).
  { apply Z.bits_inj'. intros n Hn. rewrite Z.land_spec, Z.bits_0.
    destruct (Z.ltb_spec n 8).
    - rewrite (Z.mul_pow2_bits_low lo 8 n) by lia. reflexivity.
    - rewrite (Z.bits_above_log2 hi n); [apply andb_false_r | lia |].
      destruct (Z.eq_dec hi 0) as [->|]; [simpl; lia|].
      apply Z.log2_lt_pow2; [lia|].
      apply Z.lt_le_trans with (2 ^ 8); [lia | apply Z.pow_le_mono_r; lia]. }
  rewrite <- Z.lxor_lor by exact Hland.
  rewrite <- Z.add_nocarry_lxor by exact Hland. lia.
Qed.

Lemma ones_complement_swap (a0 a1 a4 a5 a6 a7 vl vb : Z) :
  0 <= a0 <= 255 -> 0 <= a1 <= 255 -> 0 <= a4 <= 255 ->
  0 <= a5 <= 255 -> 0 <= a6 <= 255 -> 0 <= a7 <= 255 ->
  reduces ((a0 + 256 * a1) + (a4 + 256 * a5) + (a6 + 256 * a7)) vl ->
  reduces ((256 * a0 + a1) + (256 * a4 + a5) + (256 * a6 + a7)) vb ->
  vb = vl / 256 + 256 * (vl mod 256).
Proof.
  intros H0 H1 H4 H5 H6 H7 [Bl [[kl [Kl El]] Zl]] [Bb [[kb [Kb Eb]] Zb]].
  Z.div_mod_to_equations. lia.
Qed.

Lemma lnot_low16 (v : Z) :
  0 <= v <= 65535 -> Z.land (Z.lnot v) 0xFFFF = 65535 - v.
Proof.
  intros Hv. rewrite land_low16. unfold Z.lnot.
  replace (Z.pred (- v)) with (65535 - v + (-1) * 65536) by lia.
  rewrite Z.mod_add by lia. apply Z.mod_small. lia.
Qed.

Lemma wrap16_lnot (v : Z) : 0 <= v <= 65535 -> wrap16 (Z.lnot v) = 65535 - v.
Proof.
  intros Hv. rewrite <- lnot_low16 by exact Hv. rewrite land_low16.
  reflexivity.
Qed.

(* ===================================================================== *)
(** ** ICMP: the checksum of an 8-byte message *)
(* ===================================================================== *)

Lemma compute_checksum_length (m : buffer) (h n : Z) :
  length (Icmp.compute_checksum m h n) = length m.
Proof.
  unfold Icmp.compute_checksum. rewrite !store16_length. reflexivity.
Qed.

Lemma compute_checksum_other (m : buffer) (h n i : Z) :
  i <> h + 2 -> i <> h + 3 ->
  load8 (Icmp.compute_checksum m h n) i = load8 m i.
Proof.
  intros H2 H3. unfold Icmp.compute_checksum, Icmp.off_checksum.
  rewrite !load8_store16_other by lia. reflexivity.
Qed.

Lemma get_byte_eq_load8 (m m' : buffer) (i j : Z) :
  load8 m i = load8 m' j -> get_byte m i = get_byte m' j.
Proof.
  unfold load8. intros H.
  rewrite <- (byte_of_to_Z (get_byte m i)), H. apply byte_of_to_Z.
Qed.

Lemma checksum_add_list_8 (b0 b1 b2 b3 b4 b5 b6 b7 : byte) :
  checksum_add_list [b0; b1; b2; b3; b4; b5; b6; b7]
  = (256 * byte_to_Z b0 + byte_to_Z b1) + (256 * byte_to_Z b2 + byte_to_Z b3)
    + (256 * byte_to_Z b4 + byte_to_Z b5) + (256 * byte_to_Z b6 + byte_to_Z b7).
Proof. cbn [checksum_add_list]. lia. Qed.

Lemma compute_checksum_valid (m : buffer) (h : Z) :
  0 <= h -> h + 8 <= Z.of_nat (length m) ->
  let m' := Icmp.compute_checksum m h 0 in
  internet_checksum (read_bytes (store16 m' (h + 2) 0) h 8)
  = switch_endian_16 (load16 m' (h + 2)).
Proof.
  intros Hh Hlen m'.
  set (m0 := store16 m (h + 2) 0).
  assert (L0 : length m0 = length m) by apply store16_length.
  (* the bytes of the header once the checksum field is cleared *)
  assert (Z2 : load8 m0 (h + 2) = 0 /\ load8 m0 (h + 3) = 0).
  { unfold m0, store16. split.
    - rewrite load8_store8_other by lia. rewrite load8_store8_same by lia.
      reflexivity.
    - replace (h + 3) with (h + 2 + 1) by lia.
      rewrite load8_store8_same by (rewrite store8_length; lia).
      reflexivity. }
  destruct Z2 as [Z2 Z3].
  pose proof (load8_range m0 h) as R0.
  pose proof (load8_range m0 (h + 1)) as R1.
  pose proof (load8_range m0 (h + 4)) as R4.
  pose proof (load8_range m0 (h + 5)) as R5.
  pose proof (load8_range m0 (h + 6)) as R6.
  pose proof (load8_range m0 (h + 7)) as R7.
  (* the sum the code accumulates *)
  set (sl := (load8 m0 h + 256 * load8 m0 (h + 1))
             + (load8 m0 (h + 4) + 256 * load8 m0 (h + 5))
             + (load8 m0 (h + 6) + 256 * load8 m0 (h + 7))).
  assert (Hsum : Icmp.accumulate16 m0 h 4 0 = sl).
  { unfold Icmp.accumulate16, load16, wrap32.
    replace (h + 2 + 1) with (h + 3) by lia.
    replace (h + 2 + 2) with (h + 4) by lia.
    replace (h + 4 + 1) with (h + 5) by lia.
    replace (h + 4 + 2) with (h + 6) by lia.
    replace (h + 6 + 1) with (h + 7) by lia.
    rewrite Z2, Z3. unfold sl. change (2 ^ 32) with 4294967296.
    Z.div_mod_to_equations. lia. }
  assert (Hsl : 0 <= sl < 2 ^ 32) by (unfold sl; lia).
  set (vl := fst (Icmp.fold_carry Icmp.fold_rounds (Z.land sl 0xFFFF)
                    (Z.shiftr (wrap32 (sl - Z.land sl 0xFFFF)) 16))).
  assert (Hvl : reduces sl vl).
  { unfold vl. rewrite land_low16, shiftr_high16. unfold wrap32.
    rewrite (Z.mod_small (sl - sl mod 65536))
      by (Z.div_mod_to_equations; lia).
    replace ((sl - sl mod 65536) / 65536) with (sl / 65536)
      by (Z.div_mod_to_equations; lia).
    pose proof (fold_carry_settles (sl mod 65536) (sl / 65536)) as F.
    cbv zeta in F.
    replace (sl mod 65536 + 65536 * (sl / 65536)) with sl in F
      by (Z.div_mod_to_equations; lia).
    apply F; Z.div_mod_to_equations; lia. }
  assert (Hm' : m' = store16 m0 (h + 2) (wrap16 (Z.lnot vl))).
  { unfold m', Icmp.compute_checksum, Icmp.off_checksum, Icmp.header_size.
    fold m0. change (Z.to_nat (8 / 2 + 0 * 2)) with 4%nat.
    rewrite Hsum. reflexivity. }
  assert (Bvl : 0 <= vl <= 65535) by apply Hvl.
  (* the stored field *)
  rewrite Hm'. rewrite load16_store16_same
    by (rewrite ?L0, ?wrap16_lnot by lia; lia).
  rewrite wrap16_lnot by lia.
  (* the recomputation over the zeroed message *)
  set (mz := store16 (store16 m0 (h + 2) (65535 - vl)) (h + 2) 0).
  assert (Lz : forall k, 0 <= k < 8 ->
             load8 mz (h + k) = if (k =? 2) || (k =? 3) then 0 else load8 m0 (h + k)).
  { intros k Hk. unfold mz.
    destruct (Z.eq_dec k 2) as [->|N2]; [|destruct (Z.eq_dec k 3) as [->|N3]].
    - cbn [Z.eqb Pos.eqb orb]. unfold store16 at 1.
      rewrite load8_store8_other by lia.
      rewrite load8_store8_same by (rewrite store16_length, L0; lia).
      reflexivity.
    - cbn [Z.eqb Pos.eqb orb]. unfold store16 at 1. replace (h + 3) with (h + 2 + 1) by lia.
      rewrite load8_store8_same
        by (rewrite store8_length, store16_length, L0; lia).
      reflexivity.
    - replace ((k =? 2) || (k =? 3)) with false
        by (symmetry; apply orb_false_iff; split; apply Z.eqb_neq; lia).
      rewrite !load8_store16_other by lia. reflexivity. }
  unfold internet_checksum. simpl read_bytes.
  rewrite checksum_add_list_8.
  replace (h + 1 + 1) with (h + 2) by lia.
  replace (h + 2 + 1) with (h + 3) by lia.
  replace (h + 3 + 1) with (h + 4) by lia.
  replace (h + 4 + 1) with (h + 5) by lia.
  replace (h + 5 + 1) with (h + 6) by lia.
  replace (h + 6 + 1) with (h + 7) by lia.
  fold (load8 mz h) (load8 mz (h + 1)) (load8 mz (h + 2)) (load8 mz (h + 3))
       (load8 mz (h + 4)) (load8 mz (h + 5)) (load8 mz (h + 6))
       (load8 mz (h + 7)).
  pose proof (Lz 0) as E0. rewrite Z.add_0_r in E0.
  rewrite E0, (Lz 1), (Lz 2), (Lz 3), (Lz 4), (Lz 5), (Lz 6), (Lz 7) by lia.
  cbn [Z.eqb Pos.eqb orb].
  set (sb := 256 * load8 m0 h + load8 m0 (h + 1) + (256 * 0 + 0)
             + (256 * load8 m0 (h + 4) + load8 m0 (h + 5))
             + (256 * load8 m0 (h + 6) + load8 m0 (h + 7))).
  assert (Hsb : 0 <= sb < 2 ^ 32) by (unfold sb; lia).
  unfold checksum_finalize, wrap32. rewrite (Z.mod_small sb) by lia.
  pose proof (checksum_fold_reduces sb Hsb) as Hvb.
  set (vb := checksum_fold 3 sb) in *.
  assert (Bvb : 0 <= vb <= 65535) by apply Hvb.
  rewrite lnot_low16 by lia.
  assert (Hswap : vb = vl / 256 + 256 * (vl mod 256)).
  { apply (ones_complement_swap (load8 m0 h) (load8 m0 (h + 1))
             (load8 m0 (h + 4)) (load8 m0 (h + 5))
             (load8 m0 (h + 6)) (load8 m0 (h + 7))); try assumption.
    unfold sb in Hvb.
    replace (256 * load8 m0 h + load8 m0 (h + 1) + (256 * 0 + 0)
             + (256 * load8 m0 (h + 4) + load8 m0 (h + 5))
             + (256 * load8 m0 (h + 6) + load8 m0 (h + 7)))
      with (256 * load8 m0 h + load8 m0 (h + 1)
            + (256 * load8 m0 (h + 4) + load8 m0 (h + 5))
            + (256 * load8 m0 (h + 6) + load8 m0 (h + 7))) in Hvb by lia.
    exact Hvb. }
  replace (65535 - vl)
    with ((255 - vl mod 256) + 256 * (255 - vl / 256))
    by (Z.div_mod_to_equations; lia).
  rewrite switch_endian_16_bytes by (Z.div_mod_to_equations; lia).
  rewrite Hswap. lia.
Qed.

(* ===================================================================== *)
(** ** ICMP: the echo reply *)
(* ===================================================================== *)

Section EchoReply.
Variable L : Type.
Variable ip : ip_layer L.
Variable interface : interface_descriptor.

Lemma decode_echo_request (pkt r : packet) (l l1 : L) :
  load8 (payload pkt) (index pkt + Icmp.off_type) = Icmp.ECHO_REQUEST ->
  ip32_to_ip (load32 (payload pkt) (tag1 pkt + ip_target_ip))
  = ip_address interface ->
  ip_kernel_prepare_packet ip interface
    (mk_ip_descriptor (Icmp.header_size + 0)
       (ip32_to_ip (load32 (payload pkt) (tag1 pkt + ip_source_ip))) 1) l
  = (Value r, l1) ->
  Icmp.decode ip interface pkt l
  = let reply := echo_reply_packet r pkt in
    let '(res, _, l2) := ip_finalize_packet ip interface reply l1 in
    Done (set_tag2 pkt (index pkt), l2,
          [IpFinalize reply res;
           Propagate (set_tag2 pkt (index pkt)) Socket.ICMP]).
Proof.
  intros Ht Hip Hprep.
  unfold Icmp.decode. cbn [payload index set_tag2 tag1].
  rewrite Ht, Z.eqb_refl.
  unfold Icmp.echo_request. cbn [payload index set_tag2 tag1].
  rewrite Hip, Z.eqb_refl.
  unfold Icmp.kernel_prepare_packet. cbn [Icmp.pd_payload_size Icmp.pd_target_ip
    Icmp.pd_type Icmp.pd_code].
  rewrite Hprep. cbn [expected_deref obind].
  unfold Icmp.finalize_packet. fold (echo_reply_packet r pkt).
  cbv zeta.
  destruct (ip_finalize_packet ip interface (echo_reply_packet r pkt) l1)
    as [[res p3] l2].
  reflexivity.
Qed.

End EchoReply.

Section EchoReplyFields.
Variables r pkt : packet.
Hypothesis Hr0 : 0 <= index r.
Hypothesis Hr8 : index r + 8 <= Z.of_nat (length (payload r)).
Hypothesis Hr64 : Z.of_nat (length (payload r)) < 2 ^ 64.
Hypothesis Hp : 0 <= index pkt + 4 < 2 ^ 64.

Let M : buffer :=
  store8 (store8 (payload r) (index r) 0) (index r + 1) 0.
Let cmd : list byte := read_bytes (payload pkt) (index pkt + 4) 4.
Let W : buffer := write_bytes M (index r + 4) cmd.

Lemma echo_reply_packet_eq :
  echo_reply_packet r pkt
  = mk_packet (Icmp.compute_checksum W (index r) 0) (index r)
              (tag0 r) (tag1 r) (index r) (fd r) (user r).
Proof.
  unfold echo_reply_packet, Icmp.prepare_packet, Icmp.header_size,
    Icmp.rest_size, Icmp.off_type, Icmp.off_code, Icmp.ECHO_REPLY,
    Icmp.echo_request_header_size.
  cbn [set_payload set_index set_tag2 payload index tag0 tag1 tag2 fd user].
  replace (index r + 0) with (index r) by lia.
  replace (8 - 4) with 4 by lia.
  replace (wrap64 (index pkt + 8 - 4)) with (index pkt + 4)
    by (unfold wrap64; rewrite Z.mod_small; lia).
  replace (wrap64 (index r + 4)) with (index r + 4)
    by (unfold wrap64; rewrite Z.mod_small; lia).
  replace (wrap64 (index r + 4 - 4)) with (index r)
    by (unfold wrap64; rewrite Z.mod_small; lia).
  reflexivity.
Qed.

Lemma M_length : length M = length (payload r).
Proof. unfold M. rewrite !store8_length. reflexivity. Qed.

Lemma W_length : length W = length (payload r).
Proof. unfold W. rewrite write_bytes_length. apply M_length. Qed.

Lemma W_header (k : Z) : k = 0 \/ k = 1 -> load8 W (index r + k) = 0.
Proof.
  intros Hk. unfold W, load8.
  rewrite get_write_bytes_outside by lia.
  fold (load8 M (index r + k)). unfold M.
  destruct Hk as [-> | ->].
  - rewrite load8_store8_other by lia. rewrite Z.add_0_r.
    rewrite load8_store8_same by lia. reflexivity.
  - rewrite load8_store8_same by (rewrite store8_length; lia). reflexivity.
Qed.

Lemma W_command (k : nat) :
  (k < 4)%nat ->
  load8 W (index r + 4 + Z.of_nat k)
  = load8 (payload pkt) (index pkt + 4 + Z.of_nat k).
Proof.
  intros Hk. unfold W, load8.
  rewrite get_write_bytes_inside;
    [ | lia | unfold cmd; rewrite read_bytes_length, M_length; lia
      | unfold cmd; rewrite read_bytes_length; lia ].
  unfold cmd. rewrite nth_read_bytes by lia. reflexivity.
Qed.

Lemma W_beyond (i : Z) :
  index r + 8 <= i -> get_byte W i = get_byte (payload r) i.
Proof.
  intros Hi. unfold W. rewrite get_write_bytes_outside
    by (unfold cmd; rewrite read_bytes_length; lia).
  unfold M, store8. rewrite !get_set_other by lia. reflexivity.
Qed.

Lemma echo_reply_fields :
  let reply := echo_reply_packet r pkt in
  let request := set_tag2 pkt (index pkt) in
  tag2 reply = index r /\
  length (payload reply) = length (payload r) /\
  Icmp.msg_type reply = Icmp.ECHO_REPLY /\
  Icmp.msg_code reply = 0 /\
  Icmp.msg_identifier reply = Icmp.msg_identifier request /\
  Icmp.msg_sequence reply = Icmp.msg_sequence request /\
  Icmp.checksum_valid reply 8 /\
  (forall i, index r + 8 <= i ->
             get_byte (payload reply) i = get_byte (payload r) i).
Proof.
  cbv zeta. rewrite echo_reply_packet_eq.
  unfold Icmp.msg_type, Icmp.msg_code, Icmp.msg_identifier, Icmp.msg_sequence,
    Icmp.checksum_valid, Icmp.msg_checksum, Icmp.off_type, Icmp.off_code,
    Icmp.off_identifier, Icmp.off_sequence, Icmp.off_checksum, Icmp.ECHO_REPLY.
  cbn [set_tag2 payload index tag2].
  split; [reflexivity|].
  split; [rewrite compute_checksum_length; apply W_length|].
  split; [rewrite compute_checksum_other by lia; apply W_header; lia|].
  split; [rewrite compute_checksum_other by lia; apply W_header; lia|].
  split.
  { f_equal. unfold load16.
    rewrite !compute_checksum_other by lia.
    pose proof (W_command 0) as C0. pose proof (W_command 1) as C1.
    cbn [Z.of_nat Pos.of_succ_nat] in C0, C1.
    rewrite !Z.add_0_r in C0.
    rewrite C0, C1 by lia. reflexivity. }
  split.
  { f_equal. unfold load16.
    rewrite !compute_checksum_other by lia.
    pose proof (W_command 2) as C2. pose proof (W_command 3) as C3.
    cbn [Z.of_nat Pos.of_succ_nat Pos.succ] in C2, C3.
    replace (index r + 6) with (index r + 4 + 2) by lia.
    replace (index r + 4 + 2 + 1) with (index r + 4 + 3) by lia.
    replace (index pkt + 6) with (index pkt + 4 + 2) by lia.
    replace (index pkt + 4 + 2 + 1) with (index pkt + 4 + 3) by lia.
    rewrite C2, C3 by lia. reflexivity. }
  split.
  { apply compute_checksum_valid; [lia | rewrite W_length; lia]. }
  intros i Hi. apply get_byte_eq_load8.
  rewrite compute_checksum_other by lia.
  unfold load8. rewrite W_beyond by lia. reflexivity.
Qed.

End EchoReplyFields.

(** C4 (as amended).  For an echo request addressed to the interface, when
    the internet layer prepares a packet with room for the 8-byte ICMP
    header, the decoder hands exactly one frame to the internet layer: an
    echo reply of type 0 and code 0 that carries the identifier and the
    sequence number of the request and a checksum that is valid over its
    8 bytes.  The data of the request is not copied: the reply is sized for
    the header alone and the buffer beyond it is as the internet layer
    prepared it. *)
Theorem icmp_echo_reply :
  forall (L : Type) (ip : ip_layer L) (interface : interface_descriptor)
         (pkt r : packet) (l l1 : L),
    load8 (payload pkt) (index pkt + Icmp.off_type) = Icmp.ECHO_REQUEST ->
    ip32_to_ip (load32 (payload pkt) (tag1 pkt + ip_target_ip))
    = ip_address interface ->
    0 <= index pkt + 4 < 2 ^ 64 ->
    ip_kernel_prepare_packet ip interface
      (mk_ip_descriptor (Icmp.header_size + 0)
         (ip32_to_ip (load32 (payload pkt) (tag1 pkt + ip_source_ip))) 1) l
    = (Value r, l1) ->
    0 <= index r ->
    index r + 8 <= Z.of_nat (length (payload r)) ->
    Z.of_nat (length (payload r)) < 2 ^ 64 ->
    exists (reply : packet) (res : expected unit) (l2 : L)
           (evs : list net_event),
      let request := set_tag2 pkt (index pkt) in
      Icmp.decode ip interface pkt l = Done (request, l2, evs) /\
      evs = [IpFinalize reply res; Propagate request Socket.ICMP] /\
      transmitted evs = [reply] /\
      tag2 reply = index r /\
      length (payload reply) = length (payload r) /\
      Icmp.msg_type reply = Icmp.ECHO_REPLY /\
      Icmp.msg_code reply = 0 /\
      Icmp.msg_identifier reply = Icmp.msg_identifier request /\
      Icmp.msg_sequence reply = Icmp.msg_sequence request /\
      Icmp.checksum_valid reply 8 /\
      (forall i, index r + 8 <= i ->
                 get_byte (payload reply) i = get_byte (payload r) i).
Proof.
  intros L ip interface pkt r l l1 Ht Hip Hp Hprep Hr0 Hr8 Hr64.
  pose proof (decode_echo_request L ip interface pkt r l l1 Ht Hip Hprep) as D.
  cbv zeta in D.
  destruct (ip_finalize_packet ip interface (echo_reply_packet r pkt) l1)
    as [[res p3] l2].
  exists (echo_reply_packet r pkt), res, l2,
    [IpFinalize (echo_reply_packet r pkt) res;
     Propagate (set_tag2 pkt (index pkt)) Socket.ICMP].
  cbv zeta.
  split; [exact D|]. split; [reflexivity|]. split; [reflexivity|].
  apply (echo_reply_fields r pkt Hr0 Hr8 Hr64 Hp).
Qed.

Lemma icmp_echo_reply_witness :
  exists (reply : packet) (res : expected unit) (l2 : IpModel.lower)
         (evs : list net_event),
    let request := set_tag2 echo_request_frame 34 in
    Icmp.decode IpModel.layer IpModel.interface echo_request_frame
                IpModel.quiet
    = Done (request, l2, evs) /\
    evs = [IpFinalize reply res; Propagate request Socket.ICMP] /\
    transmitted evs = [reply] /\
    tag2 reply = 34 /\
    length (payload reply) = 42%nat /\
    Icmp.msg_type reply = Icmp.ECHO_REPLY /\
    Icmp.msg_code reply = 0 /\
    Icmp.msg_identifier reply = 0x1234 /\
    Icmp.msg_sequence reply = 1 /\
    Icmp.checksum_valid reply 8 /\
    (forall i, 34 + 8 <= i ->
               get_byte (payload reply) i
               = get_byte (payload prepared_echo_reply) i).
Proof.
  apply (icmp_echo_reply IpModel.lower IpModel.layer IpModel.interface
           echo_request_frame prepared_echo_reply IpModel.quiet
           (IpModel.mk_lower [] [] 0)).
  - reflexivity.
  - reflexivity.
  - vm_compute. split; [discriminate | reflexivity].
  - reflexivity.
  - vm_compute. discriminate.
  - vm_compute. discriminate.
  - vm_compute. reflexivity.
Defined.

(** C4, the claim as stated fails: in scenario S1 the request carries the
    data "abcdefgh", and the single reply handed to the internet layer
    carries no data at all. *)
Lemma icmp_echo_reply_omits_data :
  exists (reply : packet) (res : expected unit) (l2 : IpModel.lower),
    let request := set_tag2 echo_request_frame 34 in
    Icmp.decode IpModel.layer IpModel.interface echo_request_frame
                IpModel.quiet
    = Done (request, l2,
            [IpFinalize reply res; Propagate request Socket.ICMP]) /\
    Icmp.msg_data request = [x61; x62; x63; x64; x65; x66; x67; x68] /\
    Icmp.msg_data reply = [] /\
    Icmp.msg_data reply <> Icmp.msg_data request.
Proof.
  eexists. eexists. eexists. cbv zeta.
  split; [vm_compute; reflexivity|].
  split; [reflexivity|].
  split; [reflexivity|].
  vm_compute. discriminate.
Qed.

(** C7, the defect: when the internet layer cannot prepare the reply, the
    decoder logs the failure and then still dereferences the failed
    result to finalise it. *)
Theorem icmp_decode_finalizes_failed_packet :
  forall (L : Type) (ip : ip_layer L) (interface : interface_descriptor)
         (pkt : packet) (l l1 : L) (e : error_code),
    load8 (payload pkt) (index pkt + Icmp.off_type) = Icmp.ECHO_REQUEST ->
    ip32_to_ip (load32 (payload pkt) (tag1 pkt + ip_target_ip))
    = ip_address interface ->
    ip_kernel_prepare_packet ip interface
      (mk_ip_descriptor (Icmp.header_size + 0)
         (ip32_to_ip (load32 (payload pkt) (tag1 pkt + ip_source_ip))) 1) l
    = (Unexpected e, l1) ->
    Icmp.decode ip interface pkt l = Fatal InvalidExpected.
Proof.
  intros L ip interface pkt l l1 e Ht Hip Hprep.
  unfold Icmp.decode. cbn [payload index set_tag2 tag1].
  rewrite Ht, Z.eqb_refl.
  unfold Icmp.echo_request. cbn [payload index set_tag2 tag1].
  rewrite Hip, Z.eqb_refl.
  unfold Icmp.kernel_prepare_packet. cbn [Icmp.pd_payload_size Icmp.pd_target_ip
    Icmp.pd_type Icmp.pd_code].
  rewrite Hprep. reflexivity.
Qed.

Lemma icmp_decode_finalizes_failed_packet_witness :
  Icmp.decode IpModel.layer IpModel.interface echo_request_frame
              (IpModel.mk_lower [false] [] 0)
  = Fatal InvalidExpected.
Proof.
  apply (icmp_decode_finalizes_failed_packet IpModel.lower IpModel.layer
           IpModel.interface echo_request_frame
           (IpModel.mk_lower [false] [] 0) (IpModel.mk_lower [] [] 0)
           IpModel.out_of_memory); reflexivity.
Defined.

(* ===================================================================== *)
(** ** Tables and outcomes *)
(* ===================================================================== *)

Lemma obind_done {A B : Type} (m : outcome A) (k : A -> outcome B) (b : B) :
  obind m k = Done b -> exists a, m = Done a /\ k a = Done b.
Proof.
  destruct m as [a|f]; simpl; [|discriminate]. intros H. exists a. auto.
Qed.

Lemma done_pair {A B : Type} (a a' : A) (b b' : B) :
  Done (a, b) = Done (a', b') -> a = a' /\ b = b'.
Proof. intros H. injection H as H1 H2. auto. Qed.

Lemma lookup_update {A : Type} (h c : nat) (a : A) (t : table A) :
  lookup h (update c a t)
  = match lookup h t with
    | Some x => if Nat.eqb h c then Some a else Some x
    | None => None
    end.
Proof.
  induction t as [|[k x] t IH]; simpl; [reflexivity|].
  destruct (Nat.eqb k c) eqn:Ekc; simpl.
  - apply Nat.eqb_eq in Ekc. subst k.
    destruct (Nat.eqb c h) eqn:Ech.
    + apply Nat.eqb_eq in Ech. subst h. rewrite Nat.eqb_refl. reflexivity.
    + destruct (lookup h t); [|reflexivity].
      rewrite Nat.eqb_sym, Ech. reflexivity.
  - destruct (Nat.eqb k h) eqn:Ekh.
    + apply Nat.eqb_eq in Ekh. subst k. rewrite Ekc. reflexivity.
    + exact IH.
Qed.

Lemma lookup_update_same {A : Type} (c : nat) (a x : A) (t : table A) :
  lookup c t = Some x -> lookup c (update c a t) = Some a.
Proof.
  intros H. rewrite lookup_update, H, Nat.eqb_refl. reflexivity.
Qed.

Lemma update_keys {A : Type} (c : nat) (a : A) (t : table A) :
  map fst (update c a t) = map fst t.
Proof.
  induction t as [|[k x] t IH]; simpl; [reflexivity|].
  destruct (Nat.eqb k c); simpl; [reflexivity | rewrite IH; reflexivity].
Qed.

Lemma lookup_app_fresh {A : Type} (h : nat) (a : A) (t : table A) :
  lookup h t = None -> lookup h (t ++ [(h, a)]) = Some a.
Proof.
  induction t as [|[k x] t IH]; simpl.
  - rewrite Nat.eqb_refl. reflexivity.
  - destruct (Nat.eqb k h); [discriminate | exact IH].
Qed.

Lemma lookup_app_old {A : Type} (h k : nat) (a : A) (t : table A) :
  h <> k -> lookup h (t ++ [(k, a)]) = lookup h t.
Proof.
  intros N. induction t as [|[j x] t IH]; simpl.
  - destruct (Nat.eqb k h) eqn:E; [apply Nat.eqb_eq in E; congruence|].
    reflexivity.
  - destruct (Nat.eqb j h); [reflexivity | exact IH].
Qed.

Lemma option_rel_refl {A : Type} (R : A -> A -> Prop) (o : option A) :
  (forall x, R x x) -> option_rel R o o.
Proof. intros H. destruct o; simpl; auto. Qed.

Lemma option_rel_trans {A : Type} (R : A -> A -> Prop) (a b c : option A) :
  (forall x y z, R x y -> R y z -> R x z) ->
  option_rel R a b -> option_rel R b c -> option_rel R a c.
Proof.
  intros H. destruct a, b, c; simpl; try tauto. apply H.
Qed.

Lemma same_links_refl (a : Tcp.tcp_connection) : same_links a a.
Proof. unfold same_links. tauto. Qed.

Lemma same_links_trans (a b c : Tcp.tcp_connection) :
  same_links a b -> same_links b c -> same_links a c.
Proof.
  unfold same_links. intros [A1 [A2 [A3 [A4 A5]]]] [B1 [B2 [B3 [B4 B5]]]].
  repeat split; congruence.
Qed.

Lemma same_socket_refl (a : Socket.socket) : same_socket a a.
Proof. reflexivity. Qed.

Lemma same_socket_trans (a b c : Socket.socket) :
  same_socket a b -> same_socket b c -> same_socket a c.
Proof. unfold same_socket. congruence. Qed.

Section Stability.
Variable L : Type.
Implicit Types w : Tcp.state L.

Lemma stable_refl w : stable w w.
Proof.
  unfold stable. repeat split; intros;
    apply option_rel_refl; auto using same_links_refl, same_socket_refl.
Qed.

Lemma stable_trans w1 w2 w3 : stable w1 w2 -> stable w2 w3 -> stable w1 w3.
Proof.
  intros [A1 [A2 [A3 [A4 A5]]]] [B1 [B2 [B3 [B4 B5]]]].
  unfold stable. repeat split; try congruence.
  - intros c. eapply option_rel_trans; [apply same_links_trans | apply A4 | apply B4].
  - intros s. eapply option_rel_trans; [apply same_socket_trans | apply A5 | apply B5].
Qed.

(** A step that touches neither table nor the counter. *)
Lemma stable_same w w' :
  local_port_counter w' = local_port_counter w ->
  connections w' = connections w ->
  sockets w' = sockets w ->
  stable w w'.
Proof.
  intros H1 H2 H3. unfold stable. rewrite H1, H2, H3.
  apply (stable_refl w).
Qed.

Lemma stable_put_connection w c v v' :
  get_connection w c = Done v -> same_links v v' ->
  stable w (put_connection w c v').
Proof.
  unfold get_connection. intros G S.
  destruct (lookup c (ConnectionHandler.entries (connections w))) as [x|] eqn:E;
    [|discriminate].
  inversion G; subst x.
  unfold stable, put_connection; simpl.
  split; [reflexivity|]. split; [reflexivity|].
  split; [apply update_keys|].
  split.
  - intros h. rewrite lookup_update.
    destruct (lookup h (ConnectionHandler.entries (connections w))) as [y|] eqn:Eh;
      simpl; [|exact I].
    destruct (Nat.eqb h c) eqn:Ehc; simpl.
    + apply Nat.eqb_eq in Ehc. subst h. rewrite E in Eh. inversion Eh; subst y.
      exact S.
    + apply same_links_refl.
  - intros s. apply option_rel_refl. apply same_socket_refl.
Qed.

Lemma stable_put_socket w sock s s' :
  get_socket w sock = Done s -> same_socket s s' ->
  stable w (put_socket w sock s').
Proof.
  unfold get_socket. intros G S.
  destruct (lookup sock (sockets w)) as [x|] eqn:E; [|discriminate].
  inversion G; subst x.
  unfold stable, put_socket; simpl.
  split; [reflexivity|]. split; [reflexivity|]. split; [reflexivity|].
  split.
  - intros h. apply option_rel_refl. apply same_links_refl.
  - intros h. rewrite lookup_update.
    destruct (lookup h (sockets w)) as [y|] eqn:Eh; simpl; [|exact I].
    destruct (Nat.eqb h sock) eqn:Ehc; simpl.
    + apply Nat.eqb_eq in Ehc. subst h. rewrite E in Eh. inversion Eh; subst y.
      exact S.
    + apply same_socket_refl.
Qed.

Lemma get_put_connection w c v v' :
  get_connection w c = Done v ->
  get_connection (put_connection w c v') c = Done v'.
Proof.
  unfold get_connection, put_connection; simpl. intros G.
  destruct (lookup c (ConnectionHandler.entries (connections w))) as [x|] eqn:E;
    [|discriminate].
  rewrite (lookup_update_same c v' x _ E). reflexivity.
Qed.

End Stability.

(* ===================================================================== *)
(** ** The stream decoder and the waiting loops keep the world stable *)
(* ===================================================================== *)

Ltac bind_inv H :=
  let a := fresh "a" in
  let Ha := fresh "Ha" in
  apply obind_done in H; destruct H as [a [Ha H]].

Section TcpFrames.
Variable L : Type.
Variable ip : ip_layer L.
Implicit Types w : Tcp.state L.

Lemma set_numbers_links (v : Tcp.tcp_connection) (s a : Z) :
  same_links v (Tcp.set_numbers v s a).
Proof. unfold same_links; simpl; tauto. Qed.

Lemma set_packets_links (v : Tcp.tcp_connection) (q : list packet) :
  same_links v (Tcp.set_packets v q).
Proof. unfold same_links; simpl; tauto. Qed.

Lemma set_listening_links (v : Tcp.tcp_connection) (b : bool) :
  same_links v (Tcp.set_listening v b).
Proof. unfold same_links; simpl; tauto. Qed.

Lemma finalize_packet_direct_stable interface p w r p' w' :
  Tcp.finalize_packet_direct ip interface p w = (r, p', w') ->
  stable w w' /\ script w' = script w /\ clock w' = clock w.
Proof.
  unfold Tcp.finalize_packet_direct.
  destruct (ip_finalize_packet ip interface (Tcp.rewind_and_checksum p) (lower w))
    as [[r1 p1] l1].
  intros H; inversion H; subst. simpl.
  split; [apply stable_same; reflexivity | split; reflexivity].
Qed.

Lemma acknowledge_stable interface pkt sp tp ns na w :
  let w' := Tcp.acknowledge ip interface pkt sp tp ns na w in
  stable w w' /\ script w' = script w /\ clock w' = clock w.
Proof.
  unfold Tcp.acknowledge, Tcp.kernel_prepare_packet_raw.
  destruct (ip_kernel_prepare_packet ip interface _ (lower w)) as [[p0|e] l1];
    cbv zeta.
  - destruct (Tcp.finalize_packet_direct ip interface _ (set_lower w l1))
      as [[r p2] w2] eqn:F.
    apply finalize_packet_direct_stable in F. destruct F as [F1 [F2 F3]].
    simpl in *. split; [|split; assumption].
    eapply stable_trans; [|exact F1]. apply stable_same; reflexivity.
  - simpl. split; [apply stable_same; reflexivity | split; reflexivity].
Qed.

Lemma decode_stable interface pkt w p' w' :
  Tcp.decode ip interface pkt w = Done (p', w') ->
  stable w w' /\ script w' = script w /\ clock w' = clock w.
Proof.
  unfold Tcp.decode. intros H. bind_inv H. destruct a as [pkt2 w1].
  assert (S1 : stable w w1 /\ script w1 = script w /\ clock w1 = clock w).
  { clear H.
    destruct (ConnectionHandler.get_connection_for_packet (connections w) _ _)
      as [c|].
    2:{ inversion Ha; subst. simpl.
        split; [apply stable_same; reflexivity | split; reflexivity]. }
    bind_inv Ha. rename a into connection. rename Ha0 into G.
    bind_inv Ha. destruct a as [connection2 wa]. rename Ha0 into P.
    assert (SA : stable w (put_connection wa c connection2)
                 /\ script wa = script w /\ clock wa = clock w
                 /\ sockets wa = sockets w).
    { destruct (Tcp.listening (Tcp.set_numbers connection _ _)).
      - bind_inv P. inversion P; subst. simpl.
        split; [|repeat split; reflexivity].
        apply (stable_put_connection L w c connection); [exact G|].
        eapply same_links_trans;
          [apply set_numbers_links | apply set_packets_links].
      - inversion P; subst connection2 wa.
        split; [|repeat split; reflexivity].
        apply (stable_put_connection L w c connection); [exact G|].
        apply set_numbers_links. }
    destruct SA as [SA [SC [CL SK]]].
    set (wb := put_connection wa c connection2) in *.
    assert (WB : script wb = script w /\ clock wb = clock w).
    { unfold wb; simpl. split; assumption. }
    destruct (Tcp.socket connection2) as [sock|].
    2:{ apply done_pair in Ha. destruct Ha as [_ Ew]. rewrite <- Ew. tauto. }
    destruct (Tcp.flag_psh _).
    2:{ apply done_pair in Ha. destruct Ha as [_ Ew]. rewrite <- Ew. tauto. }
    bind_inv Ha. rename a into s. rename Ha0 into GS.
    destruct (Socket.listen s).
    2:{ apply done_pair in Ha. destruct Ha as [_ Ew]. rewrite <- Ew. tauto. }
    bind_inv Ha. apply done_pair in Ha. destruct Ha as [_ Ew].
    rewrite <- Ew. cbn [script clock emit put_socket set_sockets].
    split; [|tauto].
    eapply stable_trans; [exact SA|].
    eapply stable_trans;
      [apply (stable_put_socket L wb sock s (Socket.set_listen_packets s a));
       [exact GS | reflexivity]|].
    apply stable_same; reflexivity. }
  destruct S1 as [S1 [S2 S3]].
  destruct (Tcp.flag_psh _).
  - match type of H with
    | Done (_, Tcp.acknowledge _ _ ?a ?b ?c ?d ?e ?f) = _ =>
        pose proof (acknowledge_stable interface a b c d e f) as A;
        cbv zeta in A;
        remember (Tcp.acknowledge ip interface a b c d e f) as wk
    end.
    destruct A as [A1 [A2 A3]].
    inversion H as [[Hp Hw]]. rewrite <- Hw.
    split; [eapply stable_trans; eassumption|]. split; congruence.
  - inversion H as [[Hp Hw]]. rewrite <- Hw. tauto.
Qed.

End TcpFrames.

(* ===================================================================== *)
(** ** Ranges of the byte-swapped fields *)
(* ===================================================================== *)

Lemma lor_range (a b n : Z) :
  0 <= n -> 0 <= a < 2 ^ n -> 0 <= b < 2 ^ n -> 0 <= Z.lor a b < 2 ^ n.
Proof.
  intros Hn Ha Hb. split; [apply Z.lor_nonneg; lia|].
  destruct (Z.eq_dec (Z.lor a b) 0) as [E|N].
  - rewrite E. apply Z.pow_pos_nonneg; lia.
  - assert (Hpos : 0 < n).
    { destruct (Z.eq_dec n 0) as [->|]; [|lia].
      change (2 ^ 0) with 1 in *.
      assert (a = 0) by lia. assert (b = 0) by lia. subst a b.
      exfalso. apply N. reflexivity. }
    apply Z.log2_lt_pow2.
    + assert (0 <= Z.lor a b) by (apply Z.lor_nonneg; lia). lia.
    + rewrite Z.log2_lor by lia.
      apply Z.max_lub_lt.
      * destruct (Z.eq_dec a 0) as [->|]; [simpl; lia|].
        apply Z.log2_lt_pow2; lia.
      * destruct (Z.eq_dec b 0) as [->|]; [simpl; lia|].
        apply Z.log2_lt_pow2; lia.
Qed.

Lemma switch_endian_16_range (x : Z) : 0 <= switch_endian_16 x < 2 ^ 16.
Proof.
  unfold switch_endian_16, wrap16.
  assert (Hx : 0 <= x mod 2 ^ 16 < 2 ^ 16) by (apply Z.mod_pos_bound; lia).
  set (y := x mod 2 ^ 16) in *. clearbody y.
  apply lor_range; [lia | |].
  - change 255 with (Z.ones 8). rewrite Z.land_ones by lia.
    rewrite Z.shiftl_mul_pow2 by lia.
    assert (0 <= y mod 2 ^ 8 < 2 ^ 8) by (apply Z.mod_pos_bound; lia). lia.
  - rewrite Z.shiftr_div_pow2 by lia.
    change (2 ^ 16) with (2 ^ 8 * 2 ^ 8) in Hx. change (2 ^ 16) with 65536.
    split; [apply Z.div_pos; lia|].
    assert (y / 2 ^ 8 < 2 ^ 8) by (apply Z.div_lt_upper_bound; lia). lia.
Qed.

Lemma switch_endian_32_range (x : Z) : 0 <= switch_endian_32 x < 2 ^ 32.
Proof.
  unfold switch_endian_32.
  pose proof (switch_endian_16_range (Z.land (wrap32 x) 65535)) as H1.
  pose proof (switch_endian_16_range (Z.shiftr (wrap32 x) 16)) as H2.
  apply lor_range; [lia | | lia].
  rewrite Z.shiftl_mul_pow2 by lia. lia.
Qed.

Lemma wrap32_switch_endian_32 (x : Z) :
  wrap32 (switch_endian_32 x) = switch_endian_32 x.
Proof.
  unfold wrap32 at 1. apply Z.mod_small. apply switch_endian_32_range.
Qed.

Lemma get_byte_cons (x : byte) (m : buffer) (off : Z) :
  0 <= off -> get_byte (x :: m) (off + 1) = get_byte m off.
Proof.
  intros H. unfold get_byte.
  destruct (off + 1 <? 0) eqn:E1; [apply Z.ltb_lt in E1; lia|].
  destruct (off <? 0) eqn:E2; [apply Z.ltb_lt in E2; lia|].
  replace (Z.to_nat (off + 1)) with (S (Z.to_nat off)) by lia. reflexivity.
Qed.

Lemma read_bytes_cons (x : byte) (m : buffer) (k : nat) :
  forall off, 0 <= off ->
    read_bytes (x :: m) (off + 1) k = read_bytes m off k.
Proof.
  induction k as [|k IH]; intros off H; simpl; [reflexivity|].
  rewrite get_byte_cons by lia. rewrite IH by lia. reflexivity.
Qed.

Lemma read_bytes_all (m : buffer) : read_bytes m 0 (length m) = m.
Proof.
  induction m as [|x m IH]; [reflexivity|].
  cbn [length read_bytes]. f_equal.
  rewrite (read_bytes_cons x m (length m) 0) by lia. exact IH.
Qed.

(** A clone has the bytes, the cursor and the tags of the original. *)
Lemma clone_eq (p : packet) : clone p = p.
Proof.
  unfold clone, set_payload. rewrite read_bytes_all. destruct p; reflexivity.
Qed.

(* ===================================================================== *)
(** ** The waiting phase and the retry loop of the stream transport *)
(* ===================================================================== *)

Section TcpRetry.
Variable L : Type.
Variable ip : ip_layer L.
Implicit Types w : Tcp.state L.

Lemma popped_ack_emit accept got w evs :
  popped_ack accept got w -> popped_ack accept got (emit w evs).
Proof.
  destruct got as [g|]; simpl; [|auto].
  intros [rp [A [B C]]]. exists rp. repeat split; auto.
  apply in_or_app. left. exact C.
Qed.

Lemma await_spec accept interface c events :
  forall w got w',
    Tcp.await ip accept interface c events w = Done (got, w') ->
    stable w w' /\ clock w' = clock w /\ popped_ack accept got w'.
Proof.
  induction events as [|e rest IH]; intros w got w' H; simpl in H.
  - inversion H; subst. split; [apply stable_same; reflexivity|].
    split; [reflexivity | exact I].
  - destruct e as [p|].
    2:{ inversion H; subst. split; [apply stable_same; reflexivity|].
        split; [reflexivity | exact I]. }
    bind_inv H. destruct a as [pd w1].
    apply decode_stable in Ha. destruct Ha as [D1 [D2 D3]].
    assert (S0 : stable w w1).
    { eapply stable_trans; [|exact D1]. apply stable_same; reflexivity. }
    simpl in D3.
    destruct (notified_connection c _).
    2:{ destruct (IH _ _ _ H) as [I1 [I2 I3]].
        split; [eapply stable_trans; eassumption|]. split; [congruence | exact I3]. }
    bind_inv H. rename a into connection. rename Ha into G.
    bind_inv H. destruct a as [rp q]. rename Ha into P.
    set (w2 := emit (put_connection w1 c (Tcp.set_packets connection q))
                    [Delete (payload rp)]) in *.
    assert (S2 : stable w w2).
    { eapply stable_trans; [exact S0|].
      eapply stable_trans;
        [apply (stable_put_connection L w1 c connection);
         [exact G | apply set_packets_links]|].
      apply stable_same; reflexivity. }
    destruct (accept _) eqn:Acc.
    + inversion H; subst got w'. split; [exact S2|]. split; [exact D3|].
      simpl. exists rp. split; [exact Acc|]. split; [reflexivity|].
      unfold w2; simpl. apply in_or_app. right. left. reflexivity.
    + destruct (IH _ _ _ H) as [I1 [I2 I3]].
      split; [eapply stable_trans; eassumption|].
      split; [rewrite I2; exact D3 | exact I3].
Qed.

(** Nothing arrives: the waiting phase ends empty-handed and only uses up
    the script. *)
Lemma await_silent accept interface c events w :
  silent events ->
  Tcp.await ip accept interface c events w = Done (None, set_script w (tl events)).
Proof.
  intros S. destruct events as [|e rest]; [reflexivity|].
  inversion S as [|? ? He Hr]; subst. reflexivity.
Qed.

Lemma milliseconds_stable w t w' :
  milliseconds w = (t, w') ->
  stable w w' /\ script w' = script w /\ trace w' = trace w
  /\ lower w' = lower w.
Proof.
  unfold milliseconds. intros H; inversion H; subst. simpl.
  split; [apply stable_same; reflexivity | repeat split; reflexivity].
Qed.

Lemma attempt_spec accept interface c p w r sent p1 w' :
  Tcp.attempt ip accept interface c p w = Done (r, sent, p1, w') ->
  stable w w' /\
  (user p = false -> sent = p /\ p1 = p) /\
  match r with
  | inl _ => True
  | inr got => popped_ack accept got w'
  end.
Proof.
  unfold Tcp.attempt.
  destruct (ip_finalize_packet ip interface _ (lower w)) as [[result sent1] l1].
  set (w1 := emit (set_lower w l1) _).
  assert (S1 : stable w w1) by (apply stable_same; reflexivity).
  assert (U : user p = false ->
              (if user p then p else clone p) = p
              /\ (if user p then sent1 else p) = p).
  { intros E. rewrite E, clone_eq. split; reflexivity. }
  destruct result as [u|e].
  - destruct (milliseconds w1) as [before w2] eqn:M.
    apply milliseconds_stable in M. destruct M as [M1 [M2 [M3 M4]]].
    cbv zeta. destruct (Tcp.expired before before).
    + intros H; injection H as Er Es Ep Ew; subst r sent p1 w'.
      split; [apply (stable_trans L w w1 w2 S1 M1)|]. split; [exact U | exact I].
    + intros H. bind_inv H. destruct a as [got w3].
      apply await_spec in Ha. destruct Ha as [A1 [A2 A3]].
      injection H as Er Es Ep Ew; subst r sent p1 w'.
      split; [eapply stable_trans; [exact S1|]; eapply stable_trans; eassumption|].
      split; [exact U | exact A3].
  - intros H; injection H as Er Es Ep Ew; subst r sent p1 w'.
    split; [eapply stable_trans; [exact S1|]; apply stable_same; reflexivity|].
    split; [exact U | exact I].
Qed.

Lemma attempts_spec accept interface c tries :
  forall p w r frames p' w',
    Tcp.attempts ip tries accept interface c p w = Done (r, frames, p', w') ->
    stable w w' /\
    (length frames <= tries)%nat /\
    (user p = false -> Forall (fun f => f = p) frames /\ p' = p) /\
    match r with
    | inl _ => True
    | inr got => popped_ack accept got w'
    end.
Proof.
  induction tries as [|k IH]; intros p w r frames p' w' H; simpl in H.
  - injection H as Er Ef Ep Ew; subst r frames p' w'. split; [apply stable_refl|]. split; [simpl; lia|].
    split; [intros _; split; [constructor | reflexivity] | exact I].
  - bind_inv H. destruct a as [[[r1 sent] p1] w1].
    apply attempt_spec in Ha. destruct Ha as [A1 [A2 A3]].
    destruct r1 as [e|[g|]].
    + injection H as Er Ef Ep Ew; subst r frames p' w'. split; [exact A1|]. split; [simpl; lia|].
      split; [|exact I].
      intros U. destruct (A2 U) as [-> ->]. split; [repeat constructor | reflexivity].
    + injection H as Er Ef Ep Ew; subst r frames p' w'. split; [exact A1|]. split; [simpl; lia|].
      split; [|exact A3].
      intros U. destruct (A2 U) as [-> ->]. split; [repeat constructor | reflexivity].
    + assert (M1 : stable w1 (set_clock w1 (tl (clock w1))))
        by (apply stable_same; reflexivity).
      change (snd (milliseconds w1)) with (set_clock w1 (tl (clock w1))) in H.
      bind_inv H. destruct a as [[[r2 fr] p2] w3].
      apply IH in Ha. destruct Ha as [B1 [B2 [B3 B4]]].
      injection H as Er Ef Ep Ew; subst r frames p' w'.
      split; [apply (stable_trans L w w1 w3 A1 (stable_trans L w1 _ w3 M1 B1))|].
      split; [simpl; lia|].
      split; [|exact B4].
      intros U. destruct (A2 U) as [-> E1]. subst p1.
      destruct (B3 U) as [F1 F2]. split; [constructor; auto | exact F2].
Qed.

End TcpRetry.

Section TcpFinalize.
Variable L : Type.
Variable ip : ip_layer L.
Implicit Types w : Tcp.state L.

Lemma user_rewind_and_checksum (p : packet) :
  user (Tcp.rewind_and_checksum p) = user p.
Proof. reflexivity. Qed.

Lemma attempts_nonempty accept interface c tries p w r frames p' w' :
  Tcp.attempts ip tries accept interface c p w = Done (r, frames, p', w') ->
  (0 < tries)%nat -> (0 < length frames)%nat.
Proof.
  destruct tries as [|k]; [lia|]. intros H _. simpl in H.
  bind_inv H. destruct a as [[[r1 sent] p1] w1].
  destruct r1 as [e|[g|]].
  - inversion H; subst; simpl; lia.
  - inversion H; subst; simpl; lia.
  - bind_inv H. destruct a as [[[r2 fr] p2] w3].
    inversion H; subst; simpl; lia.
Qed.

Lemma silent_tl (events : list env_event) : silent events -> silent (tl events).
Proof.
  intros S. destruct events; [exact S|]. inversion S; assumption.
Qed.

Lemma attempt_silent accept interface c p w r sent p1 w' :
  silent (script w) ->
  Tcp.attempt ip accept interface c p w = Done (r, sent, p1, w') ->
  connections w' = connections w /\ silent (script w') /\
  (forall g, r <> inr (Some g)).
Proof.
  intros S. unfold Tcp.attempt.
  destruct (ip_finalize_packet ip interface _ (lower w)) as [[result sent1] l1].
  destruct result as [u|e].
  - cbn [milliseconds]. cbv zeta.
    destruct (Tcp.expired _ _).
    + intros H; injection H as Er Es Ep Ew; subst r sent p1 w'. simpl.
      split; [reflexivity|]. split; [exact S | discriminate].
    + rewrite await_silent by exact S. cbn [obind].
      intros H; injection H as Er Es Ep Ew; subst r sent p1 w'. simpl.
      split; [reflexivity|]. split; [apply silent_tl; exact S | discriminate].
  - intros H; injection H as Er Es Ep Ew; subst r sent p1 w'. simpl.
    split; [reflexivity|]. split; [exact S | discriminate].
Qed.

Lemma attempts_silent accept interface c tries :
  forall p w r frames p' w',
    silent (script w) ->
    Tcp.attempts ip tries accept interface c p w = Done (r, frames, p', w') ->
    connections w' = connections w /\ (forall g, r <> inr (Some g)).
Proof.
  induction tries as [|k IH]; intros p w r frames p' w' S H; simpl in H.
  - inversion H; subst. split; [reflexivity | discriminate].
  - bind_inv H. destruct a as [[[r1 sent] p1] w1].
    destruct (attempt_silent _ _ _ _ _ _ _ _ _ S Ha) as [A1 [A2 A3]].
    destruct r1 as [e|[g|]].
    + inversion H; subst. split; [exact A1 | discriminate].
    + exfalso. apply (A3 g). reflexivity.
    + bind_inv H. destruct a as [[[r2 fr] p2] w3].
      change (snd (milliseconds w1)) with (set_clock w1 (tl (clock w1))) in Ha0.
      apply IH in Ha0; [|exact A2]. destruct Ha0 as [B1 B2].
      inversion H; subst. split; [|exact B2].
      rewrite B1. exact A1.
Qed.

Lemma attempts_refusal_is_error accept interface c tries :
  forall p w fr p2 w2,
    Tcp.attempts ip tries accept interface c p w
    = Done (inl (Value tt), fr, p2, w2) -> False.
Proof.
  induction tries as [|k IH]; intros p w fr p2 w2 H; simpl in H;
    [discriminate|].
  bind_inv H. destruct a as [[[r1 sent] p1] w1].
  destruct r1 as [e|[g|]].
  - unfold Tcp.attempt in Ha.
    destruct (ip_finalize_packet ip interface _ (lower w)) as [[result s1] l1].
    destruct result.
    + cbn [milliseconds] in Ha. cbv zeta in Ha.
      destruct (Tcp.expired _ _); [discriminate|].
      apply obind_done in Ha. destruct Ha as [[got w3] [_ Ha]].
      discriminate.
    + inversion Ha; subst. discriminate.
  - discriminate.
  - bind_inv H. destruct a as [[[r2 f2] p3] w3].
    inversion H; subst. eapply IH. exact Ha0.
Qed.

Lemma get_connection_same_connections w w' c :
  connections w' = connections w -> get_connection w' c = get_connection w c.
Proof. unfold get_connection. intros ->. reflexivity. Qed.

(** What a run of [finalize_packet] leaves behind. *)
Lemma finalize_packet_frames_spec interface sock p w r frames w' c conn :
  Tcp.connection_of sock w = Done c ->
  get_connection w c = Done conn ->
  Tcp.finalize_packet_frames ip interface sock p w = Done (r, frames, w') ->
  stable w w' /\
  (1 <= length frames <= Tcp.max_tries)%nat /\
  (user p = false ->
   Forall (fun f => f = Tcp.rewind_and_checksum p) frames) /\
  (r = Value tt ->
   exists conn' rp,
     get_connection w' c = Done conn' /\
     Tcp.correct_ack (Tcp.header_flags (payload p) (tag2 p))
                     (Tcp.header_flags (payload rp) (index rp)) = true /\
     In (Delete (payload rp)) (trace w') /\
     Tcp.seq_number conn' = Tcp.header_ack (payload rp) (index rp) /\
     Tcp.ack_number conn'
     = wrap32 (Tcp.header_seq (payload rp) (index rp) + 1)) /\
  (silent (script w) ->
   r <> Value tt /\
   exists conn',
     get_connection w' c = Done conn' /\
     Tcp.seq_number conn' = Tcp.seq_number conn /\
     Tcp.ack_number conn' = Tcp.ack_number conn).
Proof.
  intros C G. unfold Tcp.finalize_packet_frames. rewrite C. cbn [obind].
  rewrite G. cbn [obind].
  set (w1 := put_connection w c (Tcp.set_listening conn true)).
  assert (S1 : stable w w1).
  { apply (stable_put_connection L w c conn); [exact G|].
    apply set_listening_links. }
  assert (G1 : get_connection w1 c = Done (Tcp.set_listening conn true)).
  { apply (get_put_connection L w c conn). exact G. }
  intros H. bind_inv H. destruct a as [[[r1 fr] p2] w2].
  pose proof (attempts_nonempty _ _ _ _ _ _ _ _ _ _ Ha) as NE.
  pose proof (attempts_spec L ip _ _ _ _ _ _ _ _ _ _ Ha) as [A1 [A2 [A3 A4]]].
  assert (FR : user p = false ->
               Forall (fun f => f = Tcp.rewind_and_checksum p) fr).
  { intros U. apply A3. exact U. }
  assert (LEN : (1 <= length fr <= Tcp.max_tries)%nat).
  { split; [apply NE; unfold Tcp.max_tries; lia | exact A2]. }
  destruct r1 as [e|got].
  - (* the internet layer refused the frame *)
    injection H as Er Ef Ew; subst r frames w'.
    split; [apply (stable_trans L w w1 w2 S1 A1)|].
    split; [exact LEN|]. split; [exact FR|].
    split.
    + intros E. exfalso. subst e.
      exact (attempts_refusal_is_error _ _ _ _ _ _ _ _ _ Ha).
    + intros S.
      destruct (attempts_silent _ _ _ _ _ _ _ _ _ _ (S : silent (script w1)) Ha) as [B1 B2].
      split.
      * intros E. subst e.
        exact (attempts_refusal_is_error _ _ _ _ _ _ _ _ _ Ha).
      * exists (Tcp.set_listening conn true).
        rewrite (get_connection_same_connections w1 w2 c B1).
        split; [exact G1 | split; reflexivity].
  - (* the loop ran to its end *)
    set (w3 := if user p2 then w2 else emit w2 [Delete (payload p2)]) in *.
    assert (S3 : stable w2 w3 /\ connections w3 = connections w2
                 /\ (forall x, In x (trace w2) -> In x (trace w3))).
    { unfold w3. destruct (user p2).
      - split; [apply stable_refl | split; [reflexivity | auto]].
      - split; [apply stable_same; reflexivity|]. split; [reflexivity|].
        intros x Hx. simpl. apply in_or_app. left. exact Hx. }
    destruct S3 as [S3 [C3 T3]].
    bind_inv H. rename a into connection1. rename Ha0 into G3.
    assert (S4 : forall v, same_links connection1 v ->
                           stable w (put_connection w3 c v)).
    { intros v Hv.
      apply (stable_trans L w w1 _ S1). apply (stable_trans L w1 w2 _ A1).
      apply (stable_trans L w2 w3 _ S3).
      apply (stable_put_connection L w3 c connection1); assumption. }
    destruct got as [[[seq ack] fl]|].
    + injection H as Er Ef Ew; subst r frames w'.
      split.
      { apply S4. eapply same_links_trans;
          [apply set_listening_links | apply set_numbers_links]. }
      split; [exact LEN|]. split; [exact FR|].
      split.
      * intros _. simpl in A4. destruct A4 as [rp [Acc [Eg Hin]]].
        injection Eg as Es Ea Ef.
        exists (Tcp.set_numbers (Tcp.set_listening connection1 false) ack (seq + 1)), rp.
        split; [apply (get_put_connection L w3 c connection1); exact G3|].
        split; [exact Acc|].
        split; [simpl; apply T3; exact Hin|].
        simpl. subst seq ack. split; [apply wrap32_switch_endian_32 | reflexivity].
      * intros S. exfalso.
        destruct (attempts_silent _ _ _ _ _ _ _ _ _ _ (S : silent (script w1)) Ha) as [B1 B2].
        apply (B2 (seq, ack, fl)). reflexivity.
    + injection H as Er Ef Ew; subst r frames w'.
      split; [apply S4; apply set_listening_links|].
      split; [exact LEN|]. split; [exact FR|].
      split; [discriminate|].
      intros S.
      destruct (attempts_silent _ _ _ _ _ _ _ _ _ _ (S : silent (script w1)) Ha) as [B1 B2].
      split; [discriminate|].
      exists (Tcp.set_listening connection1 false).
      split; [apply (get_put_connection L w3 c connection1); exact G3|].
      assert (E1 : connection1 = Tcp.set_listening conn true).
      { rewrite (get_connection_same_connections w1 w3 c) in G3
          by (rewrite C3; exact B1).
        rewrite G1 in G3. inversion G3. reflexivity. }
      subst connection1. split; reflexivity.
Qed.

End TcpFinalize.

(* ===================================================================== *)
(** ** Datagram transport: receive *)
(* ===================================================================== *)

(** What [receive] does with the packet at the head of the listen queue:
    it compares [n] with the length field of the transport header, which
    counts the header, and copies that many bytes from the cursor. *)
Lemma udp_receive_packet_head (L : Type) (buf : buffer) (sock : nat) (n : Z)
  (w : Udp.state L) (s : Socket.socket) (pkt : packet) (q : list packet) :
  get_socket w sock = Done s ->
  Socket.listen_packets s = pkt :: q ->
  let len := switch_endian_16
               (load16 (payload pkt) (tag2 pkt + Udp.off_length)) in
  let w1 := emit (put_socket w sock (Socket.set_listen_packets s q))
                 [Delete (payload pkt)] in
  Udp.receive_packet buf sock n w
  = if n <? len then Done (Unexpected ERROR_BUFFER_SMALL, buf, w1)
    else Done (Value len,
               write_bytes buf 0
                 (read_bytes (payload pkt) (index pkt) (Z.to_nat len)),
               w1).
Proof.
  intros G Q. unfold Udp.receive_packet. rewrite G. cbn [obind].
  rewrite Q. cbn [CircularBuffer.pop obind]. reflexivity.
Qed.

(** C5, the defect: the datagram "ping" (4 bytes of payload, length field
    12) waits in the queue.  A receive into a buffer of 4 bytes fails with
    BUFFER_SMALL although the payload fits; a receive into 12 bytes returns
    12 and copies the payload followed by 8 bytes that lie behind it in the
    frame. *)
Theorem udp_receive_counts_header :
  map (fun s => map (fun p => read_bytes (payload p) (index p) 4)
                    (Socket.listen_packets (snd s)))
      (sockets ping_world) = [[ping]] /\
  received (Udp.receive IpModel.interface (repeat x00 4) 0 4 ping_world)
  = Some (Unexpected ERROR_BUFFER_SMALL, repeat x00 4) /\
  received (Udp.receive IpModel.interface (repeat x00 12) 0 12 ping_world)
  = Some (Value 12, ping ++ repeat x00 8).
Proof.
  split; [vm_compute; reflexivity|].
  split; vm_compute; reflexivity.
Qed.

(* ===================================================================== *)
(** ** Stream decoder: a segment for no connection *)
(* ===================================================================== *)

Section NoConnection.
Variable L : Type.
Variable ip : ip_layer L.
Variable interface : interface_descriptor.

Lemma acknowledge_trace (pkt : packet) (sp tp ns na : Z) (w : Tcp.state L) :
  let w' := Tcp.acknowledge ip interface pkt sp tp ns na w in
  connections w' = connections w /\ sockets w' = sockets w /\
  local_port_counter w' = local_port_counter w /\
  script w' = script w /\ clock w' = clock w /\
  exists evs,
    trace w' = trace w ++ evs /\
    match fst (ip_kernel_prepare_packet ip interface
                 (mk_ip_descriptor (0 + Tcp.default_tcp_header_length)
                    (switch_endian_32
                       (load32 (payload pkt) (tag1 pkt + ip_source_ip))) 0x06)
                 (lower w)) with
    | Unexpected _ =>
        evs = [Log "tcp: Impossible to prepare TCP packet for ACK"%string]
    | Value p0 =>
        exists r,
          evs = [IpFinalize
                   (Tcp.rewind_and_checksum
                      (Tcp.set_header_flags
                         (Tcp.set_header_numbers
                            (Tcp.prepare_packet p0 tp sp) ns na)
                         (Tcp.set_flag_ack Tcp.get_default_flags))) r]
    end.
Proof.
  unfold Tcp.acknowledge, Tcp.kernel_prepare_packet_raw.
  destruct (ip_kernel_prepare_packet ip interface _ (lower w)) as [[p0|e] l1];
    cbv zeta; cbn [fst].
  - unfold Tcp.finalize_packet_direct.
    destruct (ip_finalize_packet ip interface _ (lower (set_lower w l1)))
      as [[r p2] l2].
    simpl. repeat split; try reflexivity.
    eexists. split; [reflexivity|]. exists r. reflexivity.
  - simpl. repeat split; try reflexivity.
    eexists. split; reflexivity.
Qed.

End NoConnection.

(** C6 (as amended).  For a segment whose ports match no connection the
    decoder logs, and leaves the connection table, the sockets and their
    queues as they are.  When PSH is clear that is all it does.  When PSH
    is set it goes on to acknowledge the segment: it asks the internet
    layer for a packet and, unless that fails, hands it exactly one frame,
    the ACK with seq = the segment's ack number and ack = the segment's
    sequence number plus its payload length. *)
Theorem tcp_decode_without_connection :
  forall (L : Type) (ip : ip_layer L) (interface : interface_descriptor)
         (pkt : packet) (w : Tcp.state L),
    let pkt1 := set_tag2 pkt (index pkt) in
    let source_port :=
      switch_endian_16 (load16 (payload pkt) (index pkt + Tcp.off_source_port)) in
    let target_port :=
      switch_endian_16 (load16 (payload pkt) (index pkt + Tcp.off_target_port)) in
    let flags := Tcp.header_flags (payload pkt) (index pkt) in
    let next_seq := Tcp.header_ack (payload pkt) (index pkt) in
    let next_ack :=
      wrap64 (Tcp.header_seq (payload pkt) (index pkt)
              + Tcp.tcp_payload_len pkt1) in
    ConnectionHandler.get_connection_for_packet (connections w)
      source_port target_port = None ->
    exists w' : Tcp.state L,
      Tcp.decode ip interface pkt w = Done (pkt1, w') /\
      connections w' = connections w /\
      sockets w' = sockets w /\
      local_port_counter w' = local_port_counter w /\
      (Tcp.flag_psh flags = false ->
       w' = emit w [Log no_connection_message]) /\
      (Tcp.flag_psh flags = true ->
       exists evs,
         trace w' = trace w ++ Log no_connection_message :: evs /\
         match fst (ip_kernel_prepare_packet ip interface
                      (mk_ip_descriptor (0 + Tcp.default_tcp_header_length)
                         (switch_endian_32
                            (load32 (payload pkt) (tag1 pkt + ip_source_ip)))
                         0x06)
                      (lower w)) with
         | Unexpected _ =>
             transmitted evs = []
         | Value p0 =>
             transmitted evs
             = [Tcp.rewind_and_checksum
                  (Tcp.set_header_flags
                     (Tcp.set_header_numbers
                        (Tcp.prepare_packet p0 target_port source_port)
                        next_seq next_ack)
                     (Tcp.set_flag_ack Tcp.get_default_flags))]
         end).
Proof.
  intros L ip interface pkt w pkt1 source_port target_port flags next_seq
    next_ack Hnone.
  unfold Tcp.decode. cbn [payload index set_tag2].
  fold source_port target_port flags next_seq. fold pkt1. fold next_ack.
  rewrite Hnone. cbn [obind].
  destruct (Tcp.flag_psh flags) eqn:P.
  - exists (Tcp.acknowledge ip interface pkt1 source_port target_port
              next_seq next_ack (emit w [Log no_connection_message])).
    split; [reflexivity|].
    pose proof (acknowledge_trace L ip interface pkt1 source_port target_port
                  next_seq next_ack (emit w [Log no_connection_message]))
      as A.
    cbv zeta in A. destruct A as [A1 [A2 [A3 [A4 [A5 [evs [T M]]]]]]].
    split; [exact A1|]. split; [exact A2|]. split; [exact A3|].
    split; [discriminate|].
    intros _. exists evs. split.
    + rewrite T. simpl. rewrite <- app_assoc. reflexivity.
    + cbn [payload tag1 set_tag2 pkt1 lower emit] in M.
      destruct (fst (ip_kernel_prepare_packet ip interface _ (lower w)))
        as [p0|e].
      * destruct M as [r ->]. reflexivity.
      * rewrite M. reflexivity.
  - exists (emit w [Log no_connection_message]).
    split; [reflexivity|].
    split; [reflexivity|]. split; [reflexivity|]. split; [reflexivity|].
    split; [reflexivity | discriminate].
Qed.

Lemma tcp_decode_without_connection_witness :
  exists w' : Tcp.state IpModel.lower,
    Tcp.decode IpModel.layer IpModel.interface stray_push (tcp_start [])
    = Done (set_tag2 stray_push 34, w') /\
    connections w' = connections (tcp_start []) /\
    sockets w' = sockets (tcp_start []) /\
    map (fun p => (Tcp.header_seq (payload p) (tag2 p),
                   Tcp.header_ack (payload p) (tag2 p),
                   Tcp.header_flags (payload p) (tag2 p)))
        (transmitted (trace w'))
    = [(1, 502, flags_ack)].
Proof.
  destruct (tcp_decode_without_connection IpModel.lower IpModel.layer
              IpModel.interface stray_push (tcp_start []) eq_refl)
    as [w' [D [C [S _]]]].
  exists w'. split; [exact D|]. split; [exact C|]. split; [exact S|].
  vm_compute in D. injection D; intros; subst w'. vm_compute. reflexivity.
Defined.

(** C6, the claim as stated fails: the segment [stray_push] matches no
    connection, and the decoder still hands an acknowledgement frame to the
    internet layer. *)
Lemma tcp_decode_acknowledges_without_connection :
  ConnectionHandler.get_connection_for_packet (connections (tcp_start []))
    80 2000 = None /\
  exists (w' : Tcp.state IpModel.lower) (ackp : packet),
    Tcp.decode IpModel.layer IpModel.interface stray_push (tcp_start [])
    = Done (set_tag2 stray_push 34, w') /\
    transmitted (trace w') = [ackp] /\
    Tcp.header_flags (payload ackp) (tag2 ackp) = flags_ack /\
    transmitted (trace w') <> [].
Proof.
  split; [reflexivity|].
  eexists. eexists. split; [vm_compute; reflexivity|].
  split; [vm_compute; reflexivity|].
  split; [vm_compute; reflexivity | discriminate].
Qed.

(* ===================================================================== *)
(** ** Stream transport: connect *)
(* ===================================================================== *)

Lemma lookup_app_some {A : Type} (h : nat) (a : A) (t : table A) :
  exists x, lookup h (t ++ [(h, a)]) = Some x /\ (lookup h t = None -> x = a).
Proof.
  induction t as [|[k y] t IH]; simpl.
  - rewrite Nat.eqb_refl. exists a. auto.
  - destruct (Nat.eqb k h).
    + exists y. split; [reflexivity | discriminate].
    + exact IH.
Qed.

Lemma same_socket_data (a b : Socket.socket) :
  same_socket a b -> Socket.connection_data b = Socket.connection_data a.
Proof.
  unfold same_socket. intros H.
  change (Socket.connection_data (Socket.set_listen_packets b [])
          = Socket.connection_data (Socket.set_listen_packets a [])).
  rewrite H. reflexivity.
Qed.

Section TcpConnect.
Variable L : Type.
Variable ip : ip_layer L.
Implicit Types w : Tcp.state L.

(** Where a stable step leaves a connection and a socket. *)
Lemma stable_connection w w' c v :
  stable w w' -> get_connection w c = Done v ->
  exists v', get_connection w' c = Done v' /\ same_links v v'.
Proof.
  intros [_ [_ [_ [S _]]]]. unfold get_connection. specialize (S c).
  destruct (lookup c (ConnectionHandler.entries (connections w))) as [x|];
    [|discriminate].
  intros G; inversion G; subst x.
  destruct (lookup c (ConnectionHandler.entries (connections w'))) as [y|];
    simpl in S; [|contradiction].
  exists y. auto.
Qed.

Lemma stable_socket w w' sock s :
  stable w w' -> get_socket w sock = Done s ->
  exists s', get_socket w' sock = Done s'
             /\ Socket.connection_data s' = Socket.connection_data s.
Proof.
  intros [_ [_ [_ [_ S]]]]. unfold get_socket. specialize (S sock).
  destruct (lookup sock (sockets w)) as [x|]; [|discriminate].
  intros G; inversion G; subst x.
  destruct (lookup sock (sockets w')) as [y|]; simpl in S; [|contradiction].
  exists y. split; [reflexivity | apply same_socket_data; exact S].
Qed.

Lemma stable_counter w w' :
  stable w w' -> local_port_counter w' = local_port_counter w.
Proof. intros [S _]. exact S. Qed.

Lemma finalize_packet_stable interface sock p w r w' :
  Tcp.finalize_packet ip interface sock p w = Done (r, w') -> stable w w'.
Proof.
  unfold Tcp.finalize_packet. intros H. bind_inv H.
  destruct a as [[r1 frames] w1]. injection H as Er Ew; subst r1 w1.
  pose proof Ha as H.
  unfold Tcp.finalize_packet_frames in Ha.
  destruct (Tcp.connection_of sock w) as [c|f] eqn:C; [|discriminate].
  cbn [obind] in Ha.
  destruct (get_connection w c) as [conn|f] eqn:G; [|discriminate].
  destruct (finalize_packet_frames_spec L ip interface sock p w r frames w' c
              conn C G H) as [S _].
  exact S.
Qed.

Lemma kernel_prepare_packet_stable interface conn n w pkt w' :
  Tcp.kernel_prepare_packet ip interface conn n w = (pkt, w') ->
  stable w w'.
Proof.
  unfold Tcp.kernel_prepare_packet.
  destruct (ip_kernel_prepare_packet ip interface _ (lower w)) as [[p|e] l1];
    intros H; inversion H; subst; apply stable_same; reflexivity.
Qed.

(** The state a [connect] sets up before it sends anything, [linked], and
    what every outcome of [connect] keeps of it. *)
Lemma connect_spec sock interface port server w r w' s :
  get_socket w sock = Done s ->
  lookup (ConnectionHandler.next_handle (connections w))
         (ConnectionHandler.entries (connections w)) = None ->
  Tcp.connect ip sock interface port server w = Done (r, w') ->
  let c := ConnectionHandler.next_handle (connections w) in
  let assigned_port := wrap64 (local_port_counter w + 1) in
  local_port_counter w' = assigned_port /\
  ConnectionHandler.next_handle (connections w') = S c /\
  map fst (ConnectionHandler.entries (connections w'))
  = map fst (ConnectionHandler.entries (connections w)) ++ [c] /\
  exists conn s',
    get_connection w' c = Done conn /\
    Tcp.local_port conn = assigned_port /\
    Tcp.server_port conn = port /\
    Tcp.server_address conn = server /\
    Tcp.socket conn = Some sock /\
    get_socket w' sock = Done s' /\
    Socket.connection_data s' = Some c /\
    match r with
    | Value v => v = assigned_port /\ Tcp.connected conn = true
    | Unexpected _ => Tcp.connected conn = false
    end.
Proof.
  intros GS Fresh. unfold Tcp.connect, ConnectionHandler.create_connection.
  cbv zeta.
  set (c := ConnectionHandler.next_handle (connections w)).
  set (w1 := set_connections w _).
  destruct (lookup_app_some c
              (ConnectionHandler.fresh (T := Tcp.tcp_connection))
              (ConnectionHandler.entries (connections w))) as [x [Lx Fx]].
  specialize (Fx Fresh). subst x.
  assert (G1 : get_connection w1 c = Done ConnectionHandler.fresh).
  { unfold get_connection.
    change (ConnectionHandler.entries (connections w1))
      with (ConnectionHandler.entries (connections w)
            ++ [(c, ConnectionHandler.fresh (T := Tcp.tcp_connection))]).
    rewrite Lx. reflexivity. }
  rewrite G1. cbn [obind].
  set (port1 := wrap64 (local_port_counter w1 + 1)).
  set (w2 := set_local_port_counter w1 port1).
  assert (GS2 : get_socket w2 sock = Done s) by exact GS.
  rewrite GS2. cbn [obind].
  set (w3 := put_socket w2 sock (Socket.set_connection_data s (Some c))).
  set (connection1 := Tcp.mk_connection port1 port server _ _ _ _ _ (Some sock)).
  set (w4 := put_connection w3 c connection1).
  assert (G4 : get_connection w4 c = Done connection1).
  { apply (get_put_connection L w3 c ConnectionHandler.fresh). exact G1. }
  assert (S4 : get_socket w4 sock
               = Done (Socket.set_connection_data s (Some c))).
  { unfold get_socket, w4, w3, put_socket; simpl.
    unfold get_socket in GS.
    destruct (lookup sock (sockets w)) as [y|] eqn:E; [|discriminate].
    rewrite (lookup_update_same sock _ y _ E). reflexivity. }
  assert (P4 : local_port_counter w4 = port1) by reflexivity.
  assert (F4 : Tcp.connected connection1 = false) by reflexivity.
  (* what a world that is stable from [w4] keeps *)
  assert (N4 : ConnectionHandler.next_handle (connections w4) = S c)
    by reflexivity.
  assert (E4 : map fst (ConnectionHandler.entries (connections w4))
               = map fst (ConnectionHandler.entries (connections w)) ++ [c]).
  { unfold w4, put_connection; simpl. rewrite update_keys.
    rewrite map_app. reflexivity. }
  assert (K : forall wx, stable w4 wx ->
                (local_port_counter wx = port1 /\
                 ConnectionHandler.next_handle (connections wx) = S c /\
                 map fst (ConnectionHandler.entries (connections wx))
                 = map fst (ConnectionHandler.entries (connections w)) ++ [c]) /\
                exists conn s',
                  get_connection wx c = Done conn /\
                  same_links connection1 conn /\
                  get_socket wx sock = Done s' /\
                  Socket.connection_data s' = Some c).
  { intros wx S. split.
    { destruct S as [S1 [S2 [S3 _]]].
      split; [rewrite S1; exact P4|].
      split; [rewrite S2; exact N4 | rewrite S3; exact E4]. }
    destruct (stable_connection _ _ _ _ S G4) as [conn [Gc Lc]].
    destruct (stable_socket _ _ _ _ S S4) as [s' [Gs Ds]].
    exists conn, s'.
    split; [exact Gc|]. split; [exact Lc|]. split; [exact Gs | exact Ds]. }
  assert (FIN : forall wx rr,
                  stable w4 wx ->
                  match rr with
                  | Value v => False
                  | Unexpected _ => True
                  end ->
                  local_port_counter wx = port1 /\
                  ConnectionHandler.next_handle (connections wx) = S c /\
                  map fst (ConnectionHandler.entries (connections wx))
                  = map fst (ConnectionHandler.entries (connections w)) ++ [c] /\
                  exists conn s',
                    get_connection wx c = Done conn /\
                    Tcp.local_port conn = port1 /\
                    Tcp.server_port conn = port /\
                    Tcp.server_address conn = server /\
                    Tcp.socket conn = Some sock /\
                    get_socket wx sock = Done s' /\
                    Socket.connection_data s' = Some c /\
                    match rr : expected Z with
                    | Value v => v = port1 /\ Tcp.connected conn = true
                    | Unexpected _ => Tcp.connected conn = false
                    end).
  { intros wx rr S Hr.
    destruct (K wx S) as [[Kp [Kn Ke]] [conn [s' [Gc [Lc [Gs Ds]]]]]].
    split; [exact Kp|]. split; [exact Kn|]. split; [exact Ke|].
    exists conn, s'.
    destruct Lc as [L1 [L2 [L3 [L4 L5]]]].
    split; [exact Gc|]. split; [exact L1|]. split; [exact L2|].
    split; [exact L3|]. split; [exact L5|]. split; [exact Gs|].
    split; [exact Ds|].
    destruct rr; [contradiction | rewrite L4; exact F4]. }
  destruct (Tcp.kernel_prepare_packet ip interface connection1 0 w4)
    as [pkt w5] eqn:KP.
  apply kernel_prepare_packet_stable in KP.
  destruct pkt as [p|e].
  2:{ intros H; injection H as Er Ew; subst r w'. exact (FIN _ (Unexpected e) KP I). }
  intros H. bind_inv H. destruct a as [status w6].
  apply finalize_packet_stable in Ha.
  assert (S6 : stable w4 w6) by (apply (stable_trans L w4 w5 w6 KP Ha)).
  destruct status as [u|e].
  2:{ injection H as Er Ew; subst r w'. exact (FIN _ (Unexpected e) S6 I). }
  bind_inv H. rename a into connection2.
  destruct (Tcp.kernel_prepare_packet ip interface connection2 0 w6)
    as [pkt2 w7] eqn:KP2.
  apply kernel_prepare_packet_stable in KP2.
  assert (S7 : stable w4 w7) by (apply (stable_trans L w4 w6 w7 S6 KP2)).
  destruct pkt2 as [q|e].
  2:{ injection H as Er Ew; subst r w'. exact (FIN _ (Unexpected e) S7 I). }
  destruct (Tcp.finalize_packet_direct ip interface _ w7) as [[r8 p8] w8] eqn:FD.
  apply finalize_packet_direct_stable in FD. destruct FD as [FD _].
  assert (S8 : stable w4 w8) by (apply (stable_trans L w4 w7 w8 S7 FD)).
  bind_inv H. rename a into connection3. rename Ha1 into G8.
  injection H as Er Ew; subst r w'.
  destruct (K w8 S8) as [[Kp [Kn Ke]] [conn [s' [Gc [Lc [Gs Ds]]]]]].
  rewrite G8 in Gc. injection Gc as Ec. subst conn.
  split; [exact Kp|]. split; [exact Kn|].
  split; [unfold put_connection; simpl; rewrite update_keys; exact Ke|].
  exists (Tcp.set_connected connection3 true), s'.
  destruct Lc as [L1 [L2 [L3 [L4 L5]]]].
  split; [apply (get_put_connection L w8 c connection3); exact G8|].
  cbn [Tcp.set_connected Tcp.local_port Tcp.server_port Tcp.server_address
       Tcp.socket Tcp.connected].
  split; [exact L1|]. split; [exact L2|]. split; [exact L3|].
  split; [exact L5|]. split; [exact Gs|]. split; [exact Ds|].
  split; [exact L1 | reflexivity].
Qed.

End TcpConnect.

Lemma lookup_not_key {A : Type} (h : nat) (t : table A) :
  ~ In h (map fst t) -> lookup h t = None.
Proof.
  induction t as [|[k x] t IH]; simpl; [reflexivity|].
  intros N. destruct (Nat.eqb k h) eqn:E.
  - apply Nat.eqb_eq in E. tauto.
  - apply IH. tauto.
Qed.

Lemma handles_fresh_lookup {C L : Type} (w : world C L) :
  handles_fresh w ->
  lookup (ConnectionHandler.next_handle (connections w))
         (ConnectionHandler.entries (connections w)) = None.
Proof.
  unfold handles_fresh. intros F. apply lookup_not_key. intros Hin.
  rewrite Forall_forall in F. specialize (F _ Hin). lia.
Qed.

Lemma tcp_disconnect_not_connected (L : Type) (ip : ip_layer L) (sock : nat)
  (w : Tcp.state L) (s : Socket.socket) (c : nat) (conn : Tcp.tcp_connection) :
  get_socket w sock = Done s ->
  Socket.connection_data s = Some c ->
  get_connection w c = Done conn ->
  Tcp.connected conn = false ->
  Tcp.disconnect ip sock w = Done (Unexpected ERROR_SOCKET_NOT_CONNECTED, w).
Proof.
  intros GS D G F. unfold Tcp.disconnect. rewrite GS. cbn [obind].
  unfold Socket.get_connection_data. rewrite D. cbn [obind].
  rewrite G. cbn [obind]. rewrite F. reflexivity.
Qed.

Lemma tcp_connect_done_socket (L : Type) (ip : ip_layer L) (sock : nat)
  (interface : interface_descriptor) (port server : Z) (w : Tcp.state L)
  (x : expected Z * Tcp.state L) :
  Tcp.connect ip sock interface port server w = Done x ->
  exists s, get_socket w sock = Done s.
Proof.
  unfold Tcp.connect.
  destruct (ConnectionHandler.create_connection (connections w)) as [h c0].
  intros H. apply obind_done in H. destruct H as [a [_ H]].
  apply obind_done in H. destruct H as [s [G _]].
  exists s. unfold get_socket in *. simpl in G. exact G.
Qed.

(** C9.  When [connect] returns an error, the connection record it created
    is still in the table, with its connected flag false and its socket
    pointer set, and the socket points to it.  A [disconnect] on that
    socket refuses with NOT_CONNECTED and changes nothing, and the decoder
    keeps the record and its links whatever arrives: the record stays. *)
Theorem tcp_failed_connect_keeps_connection :
  forall (L : Type) (ip : ip_layer L) (sock : nat)
         (interface : interface_descriptor) (port server : Z)
         (w w' : Tcp.state L) (e : error_code),
    handles_fresh w ->
    Tcp.connect ip sock interface port server w = Done (Unexpected e, w') ->
    let c := ConnectionHandler.next_handle (connections w) in
    In c (map fst (ConnectionHandler.entries (connections w'))) /\
    (exists conn s',
       get_connection w' c = Done conn /\
       Tcp.connected conn = false /\
       Tcp.socket conn = Some sock /\
       get_socket w' sock = Done s' /\
       Socket.connection_data s' = Some c) /\
    Tcp.disconnect ip sock w' = Done (Unexpected ERROR_SOCKET_NOT_CONNECTED, w') /\
    (forall interface' pkt p' w'',
        Tcp.decode ip interface' pkt w' = Done (p', w'') ->
        exists conn'',
          get_connection w'' c = Done conn'' /\
          Tcp.connected conn'' = false /\
          Tcp.socket conn'' = Some sock).
Proof.
  intros L ip sock interface port server w w' e F H c.
  destruct (tcp_connect_done_socket L ip sock interface port server w _ H)
    as [s GS].
  destruct (connect_spec L ip sock interface port server w (Unexpected e) w' s
              GS (handles_fresh_lookup w F) H)
    as [_ [_ [K [conn [s' [G [_ [_ [_ [Sk [Gs [D Cn]]]]]]]]]]]].
  fold c in K, G, D.
  split; [rewrite K; apply in_or_app; right; left; reflexivity|].
  split; [exists conn, s'; auto|].
  split; [apply (tcp_disconnect_not_connected L ip sock w' s' c conn); auto|].
  intros interface' pkt p' w'' Dc.
  apply decode_stable in Dc. destruct Dc as [St _].
  destruct (stable_connection L w' w'' c conn St G) as [conn'' [G2 [_ [_ [_ [L4 L5]]]]]].
  exists conn''. split; [exact G2|]. split; congruence.
Qed.

Lemma tcp_failed_connect_keeps_connection_witness :
  let w := tcp_start [] in
  let w' := state_after unanswered_connect w in
  unanswered_connect = Done (Unexpected ERROR_SOCKET_TCP_ERROR, w') /\
  In 0%nat (map fst (ConnectionHandler.entries (connections w'))) /\
  (exists conn s',
     get_connection w' 0%nat = Done conn /\
     Tcp.connected conn = false /\
     Tcp.socket conn = Some 0%nat /\
     get_socket w' 0%nat = Done s' /\
     Socket.connection_data s' = Some 0%nat) /\
  Tcp.disconnect IpModel.layer 0 w'
  = Done (Unexpected ERROR_SOCKET_NOT_CONNECTED, w').
Proof.
  intros w w'.
  assert (H : unanswered_connect = Done (Unexpected ERROR_SOCKET_TCP_ERROR, w'))
    by (vm_compute; reflexivity).
  split; [exact H|].
  destruct (tcp_failed_connect_keeps_connection IpModel.lower IpModel.layer 0
              IpModel.interface 80 0x0A000002 w w' ERROR_SOCKET_TCP_ERROR)
    as [A [B [C _]]].
  - constructor.
  - vm_compute. reflexivity.
  - split; [exact A|]. split; [exact B | exact C].
Defined.

(* ===================================================================== *)
(** ** Ephemeral ports *)
(* ===================================================================== *)

Lemma udp_client_bind_port (L : Type) (sock : nat) (port server : Z)
  (w w' : Udp.state L) (r : expected Z) :
  Udp.client_bind sock port server w = Done (r, w') ->
  r = Value (wrap64 (local_port_counter w + 1)) /\
  local_port_counter w' = wrap64 (local_port_counter w + 1).
Proof.
  unfold Udp.client_bind, ConnectionHandler.create_connection. cbv zeta.
  intros H. bind_inv H. bind_inv H. injection H as Er Ew; subst r w'.
  split; reflexivity.
Qed.

Lemma udp_binds_ports (L : Type) (reqs : list (nat * Z * Z)) :
  forall (w w' : Udp.state L) (rs : list (expected Z)),
    0 <= local_port_counter w ->
    local_port_counter w + Z.of_nat (length reqs) < 2 ^ 64 ->
    udp_binds reqs w = Done (rs, w') ->
    rs = map Value (ports (local_port_counter w + 1) (length reqs)) /\
    local_port_counter w' = local_port_counter w + Z.of_nat (length reqs).
Proof.
  induction reqs as [|[[sock port] server] reqs IH]; intros w w' rs H0 Hb H.
  - simpl in H. injection H as Er Ew; subst rs w'. simpl. split; [reflexivity | lia].
  - cbn [udp_binds] in H. bind_inv H. destruct a as [r w1].
    apply udp_client_bind_port in Ha. destruct Ha as [Er Ec].
    bind_inv H. destruct a as [rs1 w2].
    injection H as Ers Ew; subst rs w2.
    cbn [length] in Hb.
    assert (Ew : wrap64 (local_port_counter w + 1) = local_port_counter w + 1)
      by (unfold wrap64; apply Z.mod_small; lia).
    rewrite Ew in Er, Ec.
    destruct (IH w1 w' rs1) as [I1 I2]; [lia | lia | eassumption |].
    rewrite Ec in I1, I2. subst r rs1.
    split; [reflexivity | cbn [length]; lia].
Qed.

Lemma tcp_connects_ports (L : Type) (ip : ip_layer L)
  (reqs : list (nat * interface_descriptor * Z * Z)) :
  forall (w w' : Tcp.state L) (rs : list (expected Z)),
    handles_fresh w ->
    0 <= local_port_counter w ->
    local_port_counter w + Z.of_nat (length reqs) < 2 ^ 64 ->
    tcp_connects ip reqs w = Done (rs, w') ->
    assigned (local_port_counter w + 1) rs /\
    length rs = length reqs /\
    local_port_counter w' = local_port_counter w + Z.of_nat (length reqs).
Proof.
  induction reqs as [|[[[sock interface] port] server] reqs IH];
    intros w w' rs F H0 Hb H.
  - simpl in H. injection H as Er Ew; subst rs w'. simpl.
    split; [exact I | split; [reflexivity | lia]].
  - cbn [tcp_connects] in H. bind_inv H. destruct a as [r w1].
    bind_inv H. destruct a as [rs1 w2]. injection H as Ers Ew; subst rs w2.
    destruct (tcp_connect_done_socket L ip sock interface port server w _ Ha)
      as [s GS].
    destruct (connect_spec L ip sock interface port server w r w1 s GS
                (handles_fresh_lookup w F) Ha)
      as [P [N [K [conn [s' [_ [_ [_ [_ [_ [_ [_ R]]]]]]]]]]]].
    cbn [length] in Hb.
    assert (Ew : wrap64 (local_port_counter w + 1) = local_port_counter w + 1)
      by (unfold wrap64; apply Z.mod_small; lia).
    rewrite Ew in P, R.
    assert (F1 : handles_fresh w1).
    { unfold handles_fresh. rewrite N, K. apply Forall_app. split.
      - unfold handles_fresh in F. eapply Forall_impl; [|exact F].
        intros k Hk. simpl in Hk. lia.
      - constructor; [lia | constructor]. }
    destruct (IH w1 w' rs1 F1) as [I1 [I2 I3]]; [lia | lia | eassumption |].
    rewrite P in I1, I3.
    split.
    + cbn [assigned]. split; [|exact I1].
      intros v Ev. subst r. destruct R as [R _]. exact R.
    + split; [cbn [length]; lia | cbn [length]; lia].
Qed.

Lemma handles_fresh_next {C L : Type} (w w' : world C L) :
  handles_fresh w ->
  ConnectionHandler.next_handle (connections w')
  = S (ConnectionHandler.next_handle (connections w)) ->
  map fst (ConnectionHandler.entries (connections w'))
  = map fst (ConnectionHandler.entries (connections w))
    ++ [ConnectionHandler.next_handle (connections w)] ->
  handles_fresh w'.
Proof.
  unfold handles_fresh. intros F N K. rewrite N, K. apply Forall_app. split.
  - eapply Forall_impl; [|exact F]. cbv beta. intros k Hk. lia.
  - constructor; [lia | constructor].
Qed.

(** The record a bind creates holds the port it returns, and the records
    that were there keep theirs. *)
Lemma udp_client_bind_record (L : Type) (sock : nat) (port server : Z)
  (w w' : Udp.state L) (r : expected Z) :
  handles_fresh w ->
  Udp.client_bind sock port server w = Done (r, w') ->
  let c := ConnectionHandler.next_handle (connections w) in
  ConnectionHandler.next_handle (connections w') = S c /\
  handles_fresh w' /\
  port_of w' c = Some (wrap64 (local_port_counter w + 1)) /\
  (forall k, k <> c -> port_of w' k = port_of w k).
Proof.
  intros F. pose proof (handles_fresh_lookup w F) as Fr.
  unfold Udp.client_bind, ConnectionHandler.create_connection. cbv zeta.
  set (c := ConnectionHandler.next_handle (connections w)) in *.
  set (t1 := ConnectionHandler.entries (connections w)
             ++ [(c, ConnectionHandler.fresh (T := Udp.udp_connection))]).
  assert (Lc : lookup c t1 = Some ConnectionHandler.fresh)
    by (apply lookup_app_fresh; exact Fr).
  intros H. bind_inv H. bind_inv H. injection H as _ <-.
  cbn [connections put_connection put_socket set_sockets set_connections
       set_local_port_counter ConnectionHandler.next_handle].
  split; [reflexivity|]. split; [|split].
  - apply (handles_fresh_next w); [exact F | reflexivity |].
    cbn [connections put_connection put_socket set_sockets set_connections
         set_local_port_counter ConnectionHandler.entries].
    rewrite update_keys. fold c. fold t1. unfold t1. rewrite map_app.
    reflexivity.
  - unfold port_of.
    cbn [connections put_connection put_socket set_sockets set_connections
         set_local_port_counter ConnectionHandler.entries].
    fold c. fold t1. rewrite (lookup_update_same c _ _ t1 Lc). reflexivity.
  - intros k N. unfold port_of.
    cbn [connections put_connection put_socket set_sockets set_connections
         set_local_port_counter ConnectionHandler.entries].
    fold c. fold t1. rewrite lookup_update.
    replace (Nat.eqb k c) with false by (symmetry; apply Nat.eqb_neq; exact N).
    unfold t1. rewrite lookup_app_old by exact N.
    destruct (lookup k (ConnectionHandler.entries (connections w)));
      reflexivity.
Qed.

Lemma udp_binds_records (L : Type) (reqs : list (nat * Z * Z)) :
  forall (w w' : Udp.state L) (rs : list (expected Z)),
    handles_fresh w ->
    0 <= local_port_counter w ->
    local_port_counter w + Z.of_nat (length reqs) < 2 ^ 64 ->
    udp_binds reqs w = Done (rs, w') ->
    map (port_of w')
        (seq (ConnectionHandler.next_handle (connections w)) (length reqs))
    = map Some (ports (local_port_counter w + 1) (length reqs)) /\
    (forall k, (k < ConnectionHandler.next_handle (connections w))%nat ->
               port_of w' k = port_of w k).
Proof.
  induction reqs as [|[[sock port] server] reqs IH]; intros w w' rs F H0 Hb H.
  - simpl in H. injection H as _ <-. split; [reflexivity|]. reflexivity.
  - cbn [udp_binds] in H. bind_inv H. destruct a as [r w1].
    pose proof (udp_client_bind_port _ _ _ _ _ _ _ Ha) as [_ Ec].
    destruct (udp_client_bind_record L sock port server w w1 r F Ha)
      as (N1 & F1 & P1 & K1).
    bind_inv H. destruct a as [rs1 w2]. injection H as _ Ew2; subst w2.
    cbn [length] in Hb.
    assert (Ew : wrap64 (local_port_counter w + 1) = local_port_counter w + 1)
      by (unfold wrap64; apply Z.mod_small; lia).
    rewrite Ew in Ec, P1.
    destruct (IH w1 w' rs1 F1) as [I1 I2]; [lia | lia | eassumption |].
    rewrite N1, Ec in I1. rewrite N1 in I2.
    split.
    + cbn [length seq map ports]. rewrite I1. f_equal.
      rewrite I2 by lia. exact P1.
    + intros k Hk. rewrite I2 by lia. apply K1. lia.
Qed.

Section TcpConnectPorts.
Variable L : Type.
Variable ip : ip_layer L.
Implicit Types w : Tcp.state L.

Lemma stable_port_of w w' (k : nat) :
  stable w w' -> port_of w' k = port_of w k.
Proof.
  intros (_ & _ & _ & S & _). specialize (S k). unfold port_of.
  destruct (lookup k (ConnectionHandler.entries (connections w))) as [x|];
    destruct (lookup k (ConnectionHandler.entries (connections w'))) as [y|];
    cbn [option_rel] in S; try contradiction; [|reflexivity].
  cbn [option_map]. f_equal. apply S.
Qed.

Lemma port_of_put_connection w (c k : nat) (v : Tcp.tcp_connection) :
  k <> c -> port_of (put_connection w c v) k = port_of w k.
Proof.
  intros N. unfold port_of, put_connection.
  cbn [connections set_connections ConnectionHandler.entries].
  rewrite lookup_update.
  replace (Nat.eqb k c) with false by (symmetry; apply Nat.eqb_neq; exact N).
  destruct (lookup k (ConnectionHandler.entries (connections w)));
    reflexivity.
Qed.

(** A connect leaves the ports of the records that were there. *)
Lemma connect_keeps_ports sock interface port server w r w' s :
  get_socket w sock = Done s ->
  lookup (ConnectionHandler.next_handle (connections w))
         (ConnectionHandler.entries (connections w)) = None ->
  Tcp.connect ip sock interface port server w = Done (r, w') ->
  forall k, k <> ConnectionHandler.next_handle (connections w) ->
            port_of w' k = port_of w k.
Proof.
  intros GS Fresh. unfold Tcp.connect, ConnectionHandler.create_connection.
  cbv zeta.
  set (c := ConnectionHandler.next_handle (connections w)).
  set (w1 := set_connections w _).
  assert (G1 : get_connection w1 c = Done ConnectionHandler.fresh).
  { unfold get_connection.
    change (ConnectionHandler.entries (connections w1))
      with (ConnectionHandler.entries (connections w)
            ++ [(c, ConnectionHandler.fresh (T := Tcp.tcp_connection))]).
    rewrite (lookup_app_fresh c _ _ Fresh). reflexivity. }
  rewrite G1. cbn [obind].
  set (port1 := wrap64 (local_port_counter w1 + 1)).
  set (w2 := set_local_port_counter w1 port1).
  assert (GS2 : get_socket w2 sock = Done s) by exact GS.
  rewrite GS2. cbn [obind].
  set (w3 := put_socket w2 sock (Socket.set_connection_data s (Some c))).
  set (connection1 := Tcp.mk_connection port1 port server _ _ _ _ _ (Some sock)).
  set (w4 := put_connection w3 c connection1).
  assert (P4 : forall k, k <> c -> port_of w4 k = port_of w k).
  { intros k N. unfold w4. rewrite port_of_put_connection by exact N.
    unfold port_of.
    change (ConnectionHandler.entries (connections w3))
      with (ConnectionHandler.entries (connections w)
            ++ [(c, ConnectionHandler.fresh (T := Tcp.tcp_connection))]).
    rewrite lookup_app_old by exact N. reflexivity. }
  assert (K : forall wx, stable w4 wx ->
                forall k, k <> c -> port_of wx k = port_of w k).
  { intros wx S k N. rewrite (stable_port_of w4 wx k S). apply P4. exact N. }
  destruct (Tcp.kernel_prepare_packet ip interface connection1 0 w4)
    as [pkt w5] eqn:KP.
  apply kernel_prepare_packet_stable in KP.
  destruct pkt as [p|e].
  2:{ intros H; injection H as _ <-. exact (K _ KP). }
  intros H. bind_inv H. destruct a as [status w6].
  apply finalize_packet_stable in Ha.
  assert (S6 : stable w4 w6) by (apply (stable_trans L w4 w5 w6 KP Ha)).
  destruct status as [u|e].
  2:{ injection H as _ <-. exact (K _ S6). }
  bind_inv H. rename a into connection2.
  destruct (Tcp.kernel_prepare_packet ip interface connection2 0 w6)
    as [pkt2 w7] eqn:KP2.
  apply kernel_prepare_packet_stable in KP2.
  assert (S7 : stable w4 w7) by (apply (stable_trans L w4 w6 w7 S6 KP2)).
  destruct pkt2 as [q|e].
  2:{ injection H as _ <-. exact (K _ S7). }
  destruct (Tcp.finalize_packet_direct ip interface _ w7) as [[r8 p8] w8] eqn:FD.
  apply finalize_packet_direct_stable in FD. destruct FD as [FD _].
  assert (S8 : stable w4 w8) by (apply (stable_trans L w4 w7 w8 S7 FD)).
  bind_inv H. rename a into connection3.
  injection H as _ <-.
  intros k N. rewrite port_of_put_connection by exact N. exact (K _ S8 k N).
Qed.

Lemma tcp_connects_records
  (reqs : list (nat * interface_descriptor * Z * Z)) :
  forall (w w' : Tcp.state L) (rs : list (expected Z)),
    handles_fresh w ->
    0 <= local_port_counter w ->
    local_port_counter w + Z.of_nat (length reqs) < 2 ^ 64 ->
    tcp_connects ip reqs w = Done (rs, w') ->
    map (port_of w')
        (seq (ConnectionHandler.next_handle (connections w)) (length reqs))
    = map Some (ports (local_port_counter w + 1) (length reqs)) /\
    (forall k, (k < ConnectionHandler.next_handle (connections w))%nat ->
               port_of w' k = port_of w k).
Proof.
  induction reqs as [|[[[sock interface] port] server] reqs IH];
    intros w w' rs F H0 Hb H.
  - simpl in H. injection H as _ <-. split; reflexivity.
  - cbn [tcp_connects] in H. bind_inv H. destruct a as [r w1].
    bind_inv H. destruct a as [rs1 w2]. injection H as _ Ew2; subst w2.
    destruct (tcp_connect_done_socket L ip sock interface port server w _ Ha)
      as [s GS].
    pose proof (connect_keeps_ports sock interface port server w r w1 s GS
                  (handles_fresh_lookup w F) Ha) as K1.
    destruct (connect_spec L ip sock interface port server w r w1 s GS
                (handles_fresh_lookup w F) Ha)
      as (P & N & K & conn & s' & GC & LP & _).
    cbn [length] in Hb.
    assert (Ew : wrap64 (local_port_counter w + 1) = local_port_counter w + 1)
      by (unfold wrap64; apply Z.mod_small; lia).
    rewrite Ew in P, LP.
    assert (F1 : handles_fresh w1)
      by (apply (handles_fresh_next w w1 F N K)).
    assert (P1 : port_of w1 (ConnectionHandler.next_handle (connections w))
                 = Some (local_port_counter w + 1)).
    { unfold port_of. unfold get_connection in GC.
      destruct (lookup _ (ConnectionHandler.entries (connections w1)))
        as [x|]; [|discriminate].
      injection GC as ->. cbn [option_map]. f_equal. exact LP. }
    destruct (IH w1 w' rs1 F1) as [I1 I2]; [lia | lia | eassumption |].
    rewrite N, P in I1. rewrite N in I2.
    split.
    + cbn [length seq map ports]. rewrite I1. f_equal.
      rewrite I2 by lia. exact P1.
    + intros k Hk. rewrite I2 by lia. apply K1. lia.
Qed.

End TcpConnectPorts.

(** C8.  After [init_layer] the counter of a transport is 1023.  On the
    datagram transport the binds then return, in order, the ports 1024,
    1025, ...; on the stream transport every connect takes the next port,
    1024 for the first, and returns it when it succeeds.  The port is
    assigned to the connection: the record that the [i]-th bind or connect
    created has [1024 + i] as its local port, and still has it after all
    the later binds and connects.  (The counter is a size_t: this holds
    while it does not wrap.  The tables are ones in which every handle in
    use is below the next handle, as it is from the empty table on.) *)
Theorem ephemeral_ports_increase :
  forall (L : Type) (ip : ip_layer L)
         (binds : list (nat * Z * Z))
         (connects : list (nat * interface_descriptor * Z * Z))
         (wu wu' : Udp.state L) (wt wt' : Tcp.state L)
         (ru rt : list (expected Z)),
    Z.of_nat (length binds) < 2 ^ 64 - 1023 ->
    Z.of_nat (length connects) < 2 ^ 64 - 1023 ->
    handles_fresh wu ->
    handles_fresh wt ->
    udp_binds binds (Udp.init_layer wu) = Done (ru, wu') ->
    tcp_connects ip connects (Tcp.init_layer wt) = Done (rt, wt') ->
    local_port_counter (Udp.init_layer wu) = 1023 /\
    local_port_counter (Tcp.init_layer wt) = 1023 /\
    ru = map Value (ports 1024 (length binds)) /\
    local_port_counter wu' = 1023 + Z.of_nat (length binds) /\
    assigned 1024 rt /\
    length rt = length connects /\
    local_port_counter wt' = 1023 + Z.of_nat (length connects) /\
    map (port_of wu')
        (seq (ConnectionHandler.next_handle (connections wu)) (length binds))
    = map Some (ports 1024 (length binds)) /\
    map (port_of wt')
        (seq (ConnectionHandler.next_handle (connections wt))
             (length connects))
    = map Some (ports 1024 (length connects)).
Proof.
  intros L ip binds connects wu wu' wt wt' ru rt Hb Hc Fu F Hu Ht.
  split; [reflexivity|]. split; [reflexivity|].
  assert (Cu : local_port_counter (Udp.init_layer wu) = 1023) by reflexivity.
  assert (Ct : local_port_counter (Tcp.init_layer wt) = 1023) by reflexivity.
  destruct (udp_binds_ports L binds (Udp.init_layer wu) wu' ru) as [U1 U2];
    [rewrite Cu; lia | rewrite Cu; lia | exact Hu |].
  destruct (tcp_connects_ports L ip connects (Tcp.init_layer wt) wt' rt)
    as [T1 [T2 T3]]; [exact F | rewrite Ct; lia | rewrite Ct; lia | exact Ht |].
  destruct (udp_binds_records L binds (Udp.init_layer wu) wu' ru) as [U3 _];
    [exact Fu | rewrite Cu; lia | rewrite Cu; lia | exact Hu |].
  destruct (tcp_connects_records L ip connects (Tcp.init_layer wt) wt' rt)
    as [T4 _]; [exact F | rewrite Ct; lia | rewrite Ct; lia | exact Ht |].
  rewrite Cu in U1, U2, U3. rewrite Ct in T1, T3, T4.
  change (1023 + 1) with 1024 in U1, T1, U3, T4.
  split; [exact U1|]. split; [exact U2|]. split; [exact T1|].
  split; [exact T2|]. split; [exact T3|]. split; [exact U3 | exact T4].
Qed.

Lemma ephemeral_ports_increase_witness :
  let wu := udp_start [] in
  let wt := tcp_start [Arrival syn_ack_frame] in
  let bu := udp_binds two_binds (Udp.init_layer wu) in
  let bt := tcp_connects IpModel.layer two_connects (Tcp.init_layer wt) in
  results_of bu = [Value 1024; Value 1025] /\
  results_of bt = [Value 1024; Unexpected ERROR_SOCKET_TCP_ERROR] /\
  local_port_counter (state_after bu wu) = 1025 /\
  assigned 1024 (results_of bt) /\
  local_port_counter (state_after bt wt) = 1025 /\
  map (port_of (state_after bu wu)) [0%nat; 1%nat] = [Some 1024; Some 1025] /\
  map (port_of (state_after bt wt)) [0%nat; 1%nat] = [Some 1024; Some 1025].
Proof.
  intros wu wt bu bt.
  destruct (ephemeral_ports_increase IpModel.lower IpModel.layer
              two_binds two_connects wu (state_after bu wu)
              wt (state_after bt wt) (results_of bu) (results_of bt))
    as [_ [_ [U1 [U2 [T1 [_ [T3 [U3 T4]]]]]]]].
  - vm_compute. reflexivity.
  - vm_compute. reflexivity.
  - constructor.
  - constructor.
  - vm_compute. reflexivity.
  - vm_compute. reflexivity.
  - split; [exact U1|].
    split; [vm_compute; reflexivity|].
    split; [exact U2|]. split; [exact T1|]. split; [exact T3|].
    split; [exact U3 | exact T4].
Defined.

(* ===================================================================== *)
(** * Further properties of the code *)
(* ===================================================================== *)

(* ===================================================================== *)
(** ** Semaphore: release, try_lock and the count of permits *)
(* ===================================================================== *)

Section SemaphoreMore.
Import Semaphore.

Lemma wrap64_small (z : Z) : 0 <= z < 2 ^ 64 -> wrap64 z = z.
Proof. intros H. unfold wrap64. apply Z.mod_small. exact H. Qed.

Lemma wrap64_range (z : Z) : 0 <= wrap64 z < 2 ^ 64.
Proof. unfold wrap64. apply Z.mod_pos_bound. lia. Qed.

Lemma wrap64_add_l (a b : Z) : wrap64 (wrap64 a + b) = wrap64 (a + b).
Proof. unfold wrap64. apply Zplus_mod_idemp_l. Qed.

Lemma release_loop_first (wake : pid_t -> sched_event) (q : list pid_t) :
  forall n, 0 <= n < 2 ^ 64 ->
    let k := Nat.min (Z.to_nat n) (length q) in
    release_loop wake n q
    = (n - Z.of_nat k, skipn k q, map wake (firstn k q)).
Proof.
  induction q as [|pid rest IH]; intros n Hn; cbv zeta.
  - rewrite Nat.min_0_r. simpl. f_equal. f_equal. lia.
  - cbn [release_loop]. destruct (n =? 0) eqn:E.
    + apply Z.eqb_eq in E. subst n. simpl. reflexivity.
    + apply Z.eqb_neq in E.
      rewrite (wrap64_small (n - 1)) by lia.
      rewrite IH by lia. cbv zeta.
      replace (Z.to_nat n) with (S (Z.to_nat (n - 1))) by lia.
      cbn [length Nat.min skipn firstn map].
      f_equal. f_equal. lia.
Qed.

Lemma release_with_first (wake : pid_t -> sched_event) (n : Z) (s : semaphore) :
  0 <= n < 2 ^ 64 -> 0 <= value s < 2 ^ 64 ->
  let k := Nat.min (Z.to_nat n) (length (queue s)) in
  release_with wake n s
  = (mk_semaphore (wrap64 (value s + (n - Z.of_nat k))) (skipn k (queue s)),
     map wake (firstn k (queue s))).
Proof.
  intros Hn Hv. cbv zeta. unfold release_with.
  destruct (queue s) as [|pid rest] eqn:Q.
  - cbn [CircularBuffer.empty]. rewrite Nat.min_0_r. simpl.
    rewrite Z.sub_0_r. reflexivity.
  - cbn [CircularBuffer.empty].
    rewrite release_loop_first by exact Hn. cbv zeta.
    destruct (n - Z.of_nat (Nat.min (Z.to_nat n) (length (pid :: rest))) =? 0)
      eqn:E; [|reflexivity].
    apply Z.eqb_eq in E. rewrite E, Z.add_0_r, wrap64_small by exact Hv.
    reflexivity.
Qed.

Lemma unlocks_first (m : nat) :
  forall s, 0 <= value s < 2 ^ 64 ->
    let k := Nat.min m (length (queue s)) in
    run (repeat OpUnlock m) s
    = Done (mk_semaphore (wrap64 (value s + (Z.of_nat m - Z.of_nat k)))
                         (skipn k (queue s)),
            map Unblock (firstn k (queue s))).
Proof.
  induction m as [|m IH]; intros s Hv; cbv zeta.
  - simpl. rewrite Z.add_0_r, wrap64_small by exact Hv.
    destruct s; reflexivity.
  - cbn [repeat run step]. unfold unlock.
    destruct (queue s) as [|pid rest] eqn:Q;
      cbn [CircularBuffer.empty CircularBuffer.pop obind].
    + rewrite IH by (cbn [value]; apply wrap64_range). cbv zeta.
      cbn [value queue length obind]. rewrite !Nat.min_0_r.
      cbn [skipn firstn map app]. rewrite wrap64_add_l.
      do 4 f_equal. lia.
    + rewrite IH by (cbn [value]; exact Hv). cbv zeta.
      cbn [value queue length obind Nat.min skipn firstn map app].
      do 4 f_equal. lia.
Qed.

End SemaphoreMore.

(** X1.  [release(n)] (and [irq_release(n)]) wakes the oldest waiters, as
    many as there are up to [n], in the order of the queue, and adds what
    is left of [n] to the counter. *)
Theorem semaphore_release_wakes_oldest :
  forall (n : Z) (s : Semaphore.semaphore),
    0 <= n < 2 ^ 64 -> 0 <= Semaphore.value s < 2 ^ 64 ->
    let k := Nat.min (Z.to_nat n) (length (Semaphore.queue s)) in
    let left := wrap64 (Semaphore.value s + (n - Z.of_nat k)) in
    Semaphore.release n s
    = (Semaphore.mk_semaphore left (skipn k (Semaphore.queue s)),
       map Semaphore.Unblock (firstn k (Semaphore.queue s))) /\
    Semaphore.irq_release n s
    = (Semaphore.mk_semaphore left (skipn k (Semaphore.queue s)),
       map Semaphore.UnblockHint (firstn k (Semaphore.queue s))).
Proof.
  intros n s Hn Hv. cbv zeta. split.
  - apply (release_with_first Semaphore.Unblock n s Hn Hv).
  - apply (release_with_first Semaphore.UnblockHint n s Hn Hv).
Qed.

Lemma semaphore_release_wakes_oldest_witness :
  Semaphore.release 3 (Semaphore.mk_semaphore 0 [11; 12])
  = (Semaphore.mk_semaphore 1 [], [Semaphore.Unblock 11; Semaphore.Unblock 12])
  /\
  Semaphore.irq_release 1 (Semaphore.mk_semaphore 0 [11; 12])
  = (Semaphore.mk_semaphore 0 [12], [Semaphore.UnblockHint 11]).
Proof.
  split.
  - apply (proj1 (semaphore_release_wakes_oldest 3
                    (Semaphore.mk_semaphore 0 [11; 12])
                    ltac:(vm_compute; split; [discriminate | reflexivity])
                    ltac:(vm_compute; split; [discriminate | reflexivity]))).
  - apply (proj2 (semaphore_release_wakes_oldest 1
                    (Semaphore.mk_semaphore 0 [11; 12])
                    ltac:(vm_compute; split; [discriminate | reflexivity])
                    ltac:(vm_compute; split; [discriminate | reflexivity]))).
Defined.

(** X2.  [release(n)] does what [n] calls of [unlock] do: the same
    semaphore and the same processes unblocked in the same order. *)
Theorem semaphore_release_is_repeated_unlock :
  forall (n : Z) (s : Semaphore.semaphore),
    0 <= n < 2 ^ 64 -> 0 <= Semaphore.value s < 2 ^ 64 ->
    Semaphore.run (repeat Semaphore.OpUnlock (Z.to_nat n)) s
    = Done (Semaphore.release n s).
Proof.
  intros n s Hn Hv.
  rewrite (unlocks_first (Z.to_nat n) s Hv). cbv zeta.
  unfold Semaphore.release.
  rewrite (release_with_first Semaphore.Unblock n s Hn Hv). cbv zeta.
  rewrite Z2Nat.id by lia. reflexivity.
Qed.

Lemma semaphore_release_is_repeated_unlock_witness :
  Semaphore.run (repeat Semaphore.OpUnlock 3)
                (Semaphore.mk_semaphore 2 [11; 12])
  = Done (Semaphore.release 3 (Semaphore.mk_semaphore 2 [11; 12])).
Proof.
  apply (semaphore_release_is_repeated_unlock 3
           (Semaphore.mk_semaphore 2 [11; 12])).
  - vm_compute. split; [discriminate | reflexivity].
  - vm_compute. split; [discriminate | reflexivity].
Defined.

(** X3.  An acquisition that does not block is undone by [unlock]: when the
    counter is positive and nobody waits, [lock] and [try_lock] take one
    permit without any call to the scheduler, and [unlock] then gives the
    semaphore back as it was; when the counter is zero [try_lock] fails and
    changes nothing. *)
Theorem semaphore_acquire_release_round_trip :
  forall (pid : Semaphore.pid_t) (s : Semaphore.semaphore),
    (0 < Semaphore.value s < 2 ^ 64 -> Semaphore.queue s = [] ->
     exists s1,
       Semaphore.lock pid s = Done (s1, []) /\
       Semaphore.try_lock s = (s1, true) /\
       Semaphore.value s1 = Semaphore.value s - 1 /\
       Semaphore.unlock s1 = Done (s, [])) /\
    (Semaphore.value s = 0 -> Semaphore.try_lock s = (s, false)).
Proof.
  intros pid s. split.
  - intros Hv Q.
    exists (Semaphore.mk_semaphore (Semaphore.value s - 1) (Semaphore.queue s)).
    unfold Semaphore.lock, Semaphore.try_lock, Semaphore.unlock.
    replace (0 <? Semaphore.value s) with true
      by (symmetry; apply Z.ltb_lt; lia).
    rewrite (wrap64_small (Semaphore.value s - 1)) by lia.
    split; [reflexivity|]. split; [reflexivity|]. split; [reflexivity|].
    cbn [Semaphore.queue Semaphore.value]. rewrite Q.
    cbn [CircularBuffer.empty].
    replace (Semaphore.value s - 1 + 1) with (Semaphore.value s) by lia.
    rewrite wrap64_small by lia. destruct s; simpl in *; subst; reflexivity.
  - intros Hv. unfold Semaphore.try_lock. rewrite Hv. reflexivity.
Qed.

Lemma semaphore_acquire_release_round_trip_witness :
  (exists s1,
     Semaphore.lock 5 (Semaphore.mk_semaphore 2 []) = Done (s1, []) /\
     Semaphore.try_lock (Semaphore.mk_semaphore 2 []) = (s1, true) /\
     Semaphore.value s1 = 2 - 1 /\
     Semaphore.unlock s1 = Done (Semaphore.mk_semaphore 2 [], [])) /\
  Semaphore.try_lock (Semaphore.mk_semaphore 0 [7])
  = (Semaphore.mk_semaphore 0 [7], false).
Proof.
  split.
  - apply (proj1 (semaphore_acquire_release_round_trip 5
                    (Semaphore.mk_semaphore 2 []))).
    + vm_compute. split; reflexivity.
    + reflexivity.
  - apply (proj2 (semaphore_acquire_release_round_trip 5
                    (Semaphore.mk_semaphore 0 [7]))).
    reflexivity.
Defined.

Section SemaphoreCount.
Import Semaphore.

Lemma released_nonneg (ops : list op) :
  Forall plain_op ops -> 0 <= released ops.
Proof.
  induction 1 as [|o ops Ho _ IH]; [cbn [released]; lia|].
  destruct o; cbn [released plain_op] in Ho |- *; lia.
Qed.

Lemma woken_map_Unblock (l : list pid_t) : woken (map Unblock l) = l.
Proof. induction l as [|x l IH]; simpl; [reflexivity | now rewrite IH]. Qed.

Lemma woken_map_UnblockHint (l : list pid_t) : woken (map UnblockHint l) = l.
Proof. induction l as [|x l IH]; simpl; [reflexivity | now rewrite IH]. Qed.

Lemma blocked_map_Unblock (l : list pid_t) : blocked (map Unblock l) = [].
Proof. induction l as [|x l IH]; simpl; [reflexivity | exact IH]. Qed.

Lemma blocked_map_UnblockHint (l : list pid_t) :
  blocked (map UnblockHint l) = [].
Proof. induction l as [|x l IH]; simpl; [reflexivity | exact IH]. Qed.

Lemma release_with_count (wake : pid_t -> sched_event) (n : Z) (s : semaphore) :
  (forall l, woken (map wake l) = l) ->
  (forall l, blocked (map wake l) = []) ->
  0 <= n -> 0 <= value s -> value s + n < 2 ^ 64 ->
  let r := release_with wake n s in
  0 <= value (fst r) /\
  blocked (snd r) = [] /\
  value (fst r) + Z.of_nat (length (woken (snd r))) = value s + n.
Proof.
  intros Hw Hb Hn Hv Hs. cbv zeta.
  rewrite release_with_first by lia. cbv zeta. cbn [fst snd value].
  rewrite Hw, Hb.
  set (k := Nat.min (Z.to_nat n) (length (queue s))).
  assert (Hk : Z.of_nat k <= n) by (unfold k; lia).
  rewrite wrap64_small by lia.
  rewrite length_firstn. fold k.
  assert (Nat.min k (length (queue s)) = k) as -> by (unfold k; lia).
  split; [lia|]. split; [reflexivity | lia].
Qed.

Lemma step_count (o : op) (s s1 : semaphore) (e1 : list sched_event) :
  plain_op o -> 0 <= value s -> value s + released [o] < 2 ^ 64 ->
  step o s = Done (s1, e1) ->
  0 <= value s1 <= value s + released [o] /\
  value s1 + (lock_calls [o] - Z.of_nat (length (blocked e1)))
    + Z.of_nat (length (woken e1))
  = value s + released [o].
Proof.
  intros Ho Hv Hs H. destruct o; cbn [step released lock_calls] in *.
  - unfold lock in H. destruct (0 <? value s) eqn:E.
    + apply Z.ltb_lt in E. injection H as <- <-. cbn [value blocked woken length].
      rewrite wrap64_small by lia. lia.
    + apply Z.ltb_ge in E.
      destruct (CircularBuffer.push queue_capacity (queue s) pid) as [q|f];
        [|discriminate].
      cbn [obind] in H. injection H as <- <-.
      cbn [value blocked woken length]. lia.
  - destruct Ho.
  - unfold unlock in H. destruct (queue s) as [|pid rest];
      cbn [CircularBuffer.empty CircularBuffer.pop obind] in H;
      injection H as <- <-; cbn [value blocked woken length].
    + rewrite wrap64_small by lia. lia.
    + lia.
  - unfold irq_unlock in H. destruct (queue s) as [|pid rest];
      cbn [CircularBuffer.empty CircularBuffer.pop obind] in H;
      injection H as <- <-; cbn [value blocked woken length].
    + rewrite wrap64_small by lia. lia.
    + lia.
  - cbn [plain_op] in Ho. injection H as H.
    pose proof (release_with_count Unblock n s woken_map_Unblock
                  blocked_map_Unblock Ho Hv ltac:(lia)) as R.
    cbv zeta in R. fold (release n s) in R. rewrite H in R.
    cbn [fst snd] in R. destruct R as (R1 & R2 & R3).
    rewrite R2. cbn [length]. lia.
  - cbn [plain_op] in Ho. injection H as H.
    pose proof (release_with_count UnblockHint n s woken_map_UnblockHint
                  blocked_map_UnblockHint Ho Hv ltac:(lia)) as R.
    cbv zeta in R. fold (irq_release n s) in R. rewrite H in R.
    cbn [fst snd] in R. destruct R as (R1 & R2 & R3).
    rewrite R2. cbn [length]. lia.
Qed.

Lemma run_count (ops : list op) :
  forall s s' evs,
    Forall plain_op ops -> 0 <= value s -> value s + released ops < 2 ^ 64 ->
    run ops s = Done (s', evs) ->
    0 <= value s' /\
    value s' + (lock_calls ops - Z.of_nat (length (blocked evs)))
      + Z.of_nat (length (woken evs))
    = value s + released ops.
Proof.
  induction ops as [|o ops IH]; intros s s' evs Hp Hv Hs H.
  - cbn [run] in H. injection H as <- <-. simpl. lia.
  - cbn [run] in H. inversion Hp as [|? ? Ho Hp']; subst.
    pose proof (released_nonneg ops Hp') as Hr.
    assert (Eo : released (o :: ops) = released [o] + released ops)
      by (destruct o; cbn [released]; lia).
    assert (El : lock_calls (o :: ops) = lock_calls [o] + lock_calls ops)
      by (destruct o; cbn [lock_calls]; lia).
    destruct (step o s) as [[s1 e1]|f] eqn:S1; [|discriminate].
    cbn [obind] in H.
    destruct (run ops s1) as [[s2 e2]|f] eqn:S2; [|discriminate].
    cbn [obind] in H. injection H as <- <-.
    destruct (step_count o s s1 e1 Ho Hv ltac:(lia) S1) as [V1 C1].
    destruct (IH s1 s2 e2 Hp' ltac:(lia) ltac:(lia) S2) as [V2 C2].
    split; [exact V2|].
    rewrite blocked_app, woken_app, !length_app, !Nat2Z.inj_add. lia.
Qed.

End SemaphoreCount.

(** X4.  Permits are neither lost nor made up.  Over any history of [lock],
    [unlock], [irq_unlock], [release] and [irq_release] calls that ends
    without overflow of the counter, the final counter plus the
    acquisitions granted (the [lock] calls that did not block, and the
    waiters woken) is the initial counter plus the permits handed back. *)
Theorem semaphore_permits_conserved :
  forall (ops : list Semaphore.op) (s s' : Semaphore.semaphore)
         (evs : list Semaphore.sched_event),
    Forall plain_op ops ->
    0 <= Semaphore.value s ->
    Semaphore.value s + released ops < 2 ^ 64 ->
    Semaphore.run ops s = Done (s', evs) ->
    Semaphore.value s'
      + (lock_calls ops - Z.of_nat (length (Semaphore.blocked evs)))
      + Z.of_nat (length (Semaphore.woken evs))
    = Semaphore.value s + released ops.
Proof.
  intros ops s s' evs Hp Hv Hs H.
  apply (proj2 (run_count ops s s' evs Hp Hv Hs H)).
Qed.

Lemma semaphore_permits_conserved_witness :
  Semaphore.value (Semaphore.mk_semaphore 2 [])
    + (lock_calls [Semaphore.OpLock 1; Semaphore.OpLock 2; Semaphore.OpUnlock;
                   Semaphore.OpRelease 2]
       - Z.of_nat (length (Semaphore.blocked
           [Semaphore.Block 2; Semaphore.Reschedule; Semaphore.Unblock 2])))
    + Z.of_nat (length (Semaphore.woken
           [Semaphore.Block 2; Semaphore.Reschedule; Semaphore.Unblock 2]))
  = Semaphore.value (Semaphore.mk_semaphore 1 [])
    + released [Semaphore.OpLock 1; Semaphore.OpLock 2; Semaphore.OpUnlock;
                Semaphore.OpRelease 2].
Proof.
  apply (semaphore_permits_conserved
           [Semaphore.OpLock 1; Semaphore.OpLock 2; Semaphore.OpUnlock;
            Semaphore.OpRelease 2]
           (Semaphore.mk_semaphore 1 []) (Semaphore.mk_semaphore 2 [])
           [Semaphore.Block 2; Semaphore.Reschedule; Semaphore.Unblock 2]).
  - repeat constructor; vm_compute; discriminate.
  - vm_compute. discriminate.
  - vm_compute. reflexivity.
  - vm_compute. reflexivity.
Defined.

(* ===================================================================== *)
(** ** Socket: the table of prepared packets *)
(* ===================================================================== *)

Lemma has_packet_loop_app (ps qs : list packet) (f : Z) :
  Socket.has_packet_loop (ps ++ qs) f
  = Socket.has_packet_loop ps f || Socket.has_packet_loop qs f.
Proof.
  induction ps as [|p ps IH]; simpl; [reflexivity|].
  destruct (fd p =? f); [reflexivity | exact IH].
Qed.

Lemma get_packet_loop_app_found (ps qs : list packet) (f : Z) :
  Socket.has_packet_loop ps f = true ->
  Socket.get_packet_loop (ps ++ qs) f = Socket.get_packet_loop ps f.
Proof.
  induction ps as [|p ps IH]; simpl; [discriminate|].
  destruct (fd p =? f); [reflexivity | exact IH].
Qed.

Lemma get_packet_loop_app_missing (ps qs : list packet) (f : Z) :
  Socket.has_packet_loop ps f = false ->
  Socket.get_packet_loop (ps ++ qs) f = Socket.get_packet_loop qs f.
Proof.
  induction ps as [|p ps IH]; simpl; [reflexivity|].
  destruct (fd p =? f); [discriminate | exact IH].
Qed.

Lemma fds_below_fresh (s : Socket.socket) :
  fds_below s -> Socket.has_packet s (Socket.next_fd s) = false.
Proof.
  unfold fds_below, Socket.has_packet.
  induction (Socket.packets s) as [|p ps IH]; intros H; simpl; [reflexivity|].
  inversion H as [|? ? Hp Hps]; subst.
  destruct (fd p =? Socket.next_fd s) eqn:E.
  - apply Z.eqb_eq in E. lia.
  - apply IH. exact Hps.
Qed.

Lemma has_packet_loop_filter (ps : list packet) (f f' : Z) :
  Socket.has_packet_loop (filter (fun p => negb (fd p =? f)) ps) f'
  = if f' =? f then false else Socket.has_packet_loop ps f'.
Proof.
  induction ps as [|p ps IH]; simpl; [destruct (f' =? f); reflexivity|].
  destruct (fd p =? f) eqn:E; cbn [negb].
  - rewrite IH. apply Z.eqb_eq in E. destruct (f' =? f) eqn:E'; [reflexivity|].
    apply Z.eqb_neq in E'. replace (fd p =? f') with false; [reflexivity|].
    symmetry. apply Z.eqb_neq. lia.
  - cbn [Socket.has_packet_loop]. rewrite IH.
    destruct (f' =? f) eqn:E'; [|reflexivity].
    apply Z.eqb_eq in E'. subst f'. rewrite E. reflexivity.
Qed.

Lemma get_packet_loop_filter (ps : list packet) (f f' : Z) :
  f' <> f ->
  Socket.get_packet_loop (filter (fun p => negb (fd p =? f)) ps) f'
  = Socket.get_packet_loop ps f'.
Proof.
  intros N. induction ps as [|p ps IH]; simpl; [reflexivity|].
  destruct (fd p =? f) eqn:E; cbn [negb].
  - apply Z.eqb_eq in E. replace (fd p =? f') with false; [exact IH|].
    symmetry. apply Z.eqb_neq. lia.
  - cbn [Socket.get_packet_loop]. rewrite IH. reflexivity.
Qed.

Lemma filter_fresh (ps : list packet) (f : Z) :
  Socket.has_packet_loop ps f = false ->
  filter (fun p => negb (fd p =? f)) ps = ps.
Proof.
  induction ps as [|p ps IH]; simpl; [reflexivity|].
  destruct (fd p =? f); [discriminate|]. cbn [negb]. intros H.
  rewrite IH by exact H. reflexivity.
Qed.

(** X5.  A packet registered in a socket is found again under the
    descriptor handed out, which is the socket's next descriptor, and
    carries that descriptor; the packets registered before stay reachable
    under their own descriptors. *)
Theorem socket_register_then_get :
  forall (s : Socket.socket) (p : packet),
    fds_below s ->
    let s' := fst (Socket.register_packet s p) in
    let fd0 := snd (Socket.register_packet s p) in
    fd0 = Socket.next_fd s /\
    Socket.has_packet s' fd0 = true /\
    Socket.get_packet s' fd0 = Done (set_fd p fd0) /\
    (forall f, Socket.has_packet s f = true ->
       Socket.has_packet s' f = true /\
       Socket.get_packet s' f = Socket.get_packet s f) /\
    (forall f, f <> fd0 -> Socket.has_packet s' f = Socket.has_packet s f).
Proof.
  intros s p Hb. cbv zeta. pose proof (fds_below_fresh s Hb) as Hf.
  unfold Socket.register_packet, Socket.has_packet, Socket.get_packet in *.
  cbn [fst snd Socket.packets].
  split; [reflexivity|]. split; [|split; [|split]].
  - rewrite has_packet_loop_app. simpl. rewrite Z.eqb_refl.
    apply orb_true_r.
  - rewrite get_packet_loop_app_missing by exact Hf. simpl.
    rewrite Z.eqb_refl. reflexivity.
  - intros f H. rewrite has_packet_loop_app, H.
    rewrite get_packet_loop_app_found by exact H. split; reflexivity.
  - intros f N. rewrite has_packet_loop_app. simpl.
    replace (Socket.next_fd s =? f) with false
      by (symmetry; apply Z.eqb_neq; lia).
    apply orb_false_r.
Qed.

Lemma socket_register_then_get_witness :
  let s' := fst (Socket.register_packet sample_socket sample_packet) in
  let fd0 := snd (Socket.register_packet sample_socket sample_packet) in
  fd0 = Socket.next_fd sample_socket /\
  Socket.has_packet s' fd0 = true /\
  Socket.get_packet s' fd0 = Done (set_fd sample_packet fd0) /\
  (forall f, Socket.has_packet sample_socket f = true ->
     Socket.has_packet s' f = true /\
     Socket.get_packet s' f = Socket.get_packet sample_socket f) /\
  (forall f, f <> fd0 ->
     Socket.has_packet s' f = Socket.has_packet sample_socket f).
Proof.
  apply (socket_register_then_get sample_socket sample_packet).
  unfold fds_below. vm_compute.
  repeat constructor; discriminate.
Defined.

(** X6.  [erase_packet] removes the packets of the given descriptor and no
    other: the descriptor is no longer found, and every other descriptor is
    found, or not, as before and gives the same packet. *)
Theorem socket_erase_removes_only_that_packet :
  forall (s : Socket.socket) (fd0 f : Z),
    Socket.has_packet (Socket.erase_packet s fd0) fd0 = false /\
    (f <> fd0 ->
     Socket.has_packet (Socket.erase_packet s fd0) f = Socket.has_packet s f /\
     Socket.get_packet (Socket.erase_packet s fd0) f = Socket.get_packet s f).
Proof.
  intros s fd0 f.
  unfold Socket.has_packet, Socket.get_packet, Socket.erase_packet.
  cbn [Socket.packets]. split.
  - rewrite has_packet_loop_filter, Z.eqb_refl. reflexivity.
  - intros N. rewrite has_packet_loop_filter.
    replace (f =? fd0) with false by (symmetry; apply Z.eqb_neq; exact N).
    split; [reflexivity|]. apply get_packet_loop_filter. exact N.
Qed.

Lemma socket_erase_removes_only_that_packet_witness :
  Socket.has_packet (Socket.erase_packet sample_socket 7) 7 = false /\
  (8 <> 7 ->
   Socket.has_packet (Socket.erase_packet sample_socket 7) 8
   = Socket.has_packet sample_socket 8 /\
   Socket.get_packet (Socket.erase_packet sample_socket 7) 8
   = Socket.get_packet sample_socket 8).
Proof.
  apply (socket_erase_removes_only_that_packet sample_socket 7 8).
Defined.

(** X7.  Registering a packet and erasing it again leaves the packets of
    the socket as they were, while the next descriptor has moved on: a
    descriptor is not handed out a second time. *)
Theorem socket_register_erase_round_trip :
  forall (s : Socket.socket) (p : packet),
    fds_below s ->
    let s' := fst (Socket.register_packet s p) in
    let fd0 := snd (Socket.register_packet s p) in
    Socket.packets (Socket.erase_packet s' fd0) = Socket.packets s /\
    Socket.next_fd (Socket.erase_packet s' fd0)
    = wrap64 (Socket.next_fd s + 1).
Proof.
  intros s p Hb. cbv zeta. pose proof (fds_below_fresh s Hb) as Hf.
  unfold Socket.has_packet in Hf.
  unfold Socket.register_packet, Socket.erase_packet.
  cbn [fst snd Socket.packets Socket.next_fd].
  split; [|reflexivity].
  rewrite filter_app, filter_fresh by exact Hf.
  cbn [filter fd set_fd]. rewrite Z.eqb_refl. cbn [negb].
  apply app_nil_r.
Qed.

Lemma socket_register_erase_round_trip_witness :
  let s' := fst (Socket.register_packet sample_socket sample_packet) in
  let fd0 := snd (Socket.register_packet sample_socket sample_packet) in
  Socket.packets (Socket.erase_packet s' fd0) = Socket.packets sample_socket /\
  Socket.next_fd (Socket.erase_packet s' fd0)
  = wrap64 (Socket.next_fd sample_socket + 1).
Proof.
  apply (socket_register_erase_round_trip sample_socket sample_packet).
  unfold fds_below. vm_compute.
  repeat constructor; discriminate.
Defined.

Lemma fds_filter (ps : list packet) (f bound : Z) :
  Forall (fun p => 0 <= fd p < bound) ps ->
  NoDup (map fd ps) ->
  Forall (fun p => 0 <= fd p < bound) (filter (fun p => negb (fd p =? f)) ps)
  /\ NoDup (map fd (filter (fun p => negb (fd p =? f)) ps)).
Proof.
  induction ps as [|p ps IH]; intros Hb Hn; cbn [filter map].
  - split; constructor.
  - inversion Hb as [|? ? Hp Hps]; subst.
    cbn [map] in Hn. inversion Hn as [|? ? Hnin Hn']; subst.
    destruct (IH Hps Hn') as [IB IN].
    destruct (negb (fd p =? f)); [|split; assumption].
    split; [constructor; assumption|].
    cbn [map]. constructor; [|exact IN].
    intros Hin. apply Hnin. apply in_map_iff in Hin.
    destruct Hin as (q & Eq & Hq). apply filter_In in Hq.
    apply in_map_iff. exists q. split; [exact Eq | apply Hq].
Qed.

(** X8.  The descriptors of a socket stay distinct.  If the prepared
    packets of a socket have pairwise distinct descriptors, all below the
    next descriptor, then this is so again after [register_packet] (as long
    as the descriptor counter does not wrap) and after [erase_packet]. *)
Theorem socket_descriptors_stay_distinct :
  forall (s : Socket.socket) (p : packet) (fd0 : Z),
    0 <= Socket.next_fd s -> Socket.next_fd s + 1 < 2 ^ 64 ->
    fds_below s -> NoDup (map fd (Socket.packets s)) ->
    let s1 := fst (Socket.register_packet s p) in
    let s2 := Socket.erase_packet s fd0 in
    (fds_below s1 /\ NoDup (map fd (Socket.packets s1))) /\
    (fds_below s2 /\ NoDup (map fd (Socket.packets s2))).
Proof.
  intros s p fd0 H0 H64 Hb Hn. cbv zeta. split.
  - unfold fds_below, Socket.register_packet in *.
    cbn [fst Socket.packets Socket.next_fd].
    rewrite wrap64_small by lia. split.
    + apply Forall_app. split.
      * eapply Forall_impl; [|exact Hb]. cbv beta. intros q Hq. lia.
      * constructor; [|constructor]. cbn [fd set_fd]. lia.
    + rewrite map_app. cbn [map fd set_fd]. apply NoDup_app.
      * exact Hn.
      * constructor; [intros []|constructor].
      * intros a Ha [E|[]]. subst a. apply in_map_iff in Ha.
        destruct Ha as (q & Eq & Hq).
        rewrite Forall_forall in Hb. specialize (Hb q Hq). lia.
  - unfold fds_below, Socket.erase_packet in *.
    cbn [Socket.packets Socket.next_fd].
    apply fds_filter; assumption.
Qed.

Lemma socket_descriptors_stay_distinct_witness :
  let s1 := fst (Socket.register_packet sample_socket sample_packet) in
  let s2 := Socket.erase_packet sample_socket 7 in
  (fds_below s1 /\ NoDup (map fd (Socket.packets s1))) /\
  (fds_below s2 /\ NoDup (map fd (Socket.packets s2))).
Proof.
  apply (socket_descriptors_stay_distinct sample_socket sample_packet 7).
  - vm_compute. discriminate.
  - vm_compute. reflexivity.
  - unfold fds_below. vm_compute. repeat constructor; discriminate.
  - vm_compute. repeat constructor; simpl; intuition discriminate.
Defined.

(* ===================================================================== *)
(** ** ICMP: what is sent, and what is not *)
(* ===================================================================== *)

Lemma fold_carry_zero (k : nat) (v : Z) : Icmp.fold_carry k v 0 = (v, 0).
Proof. destruct k; reflexivity. Qed.

Lemma fold_carry_more (n : nat) :
  forall (k : nat) (v c : Z),
    snd (Icmp.fold_carry n v c) = 0 ->
    Icmp.fold_carry (n + k) v c = Icmp.fold_carry n v c.
Proof.
  induction n as [|n IH]; intros k v c H.
  - cbn [Icmp.fold_carry snd] in H. subst c. cbn [Nat.add Icmp.fold_carry].
    apply fold_carry_zero.
  - cbn [Nat.add Icmp.fold_carry] in *.
    destruct (c =? 0); [reflexivity|]. apply IH. exact H.
Qed.

Lemma load8_store16_low (m : buffer) (off v : Z) :
  0 <= off -> off + 1 < Z.of_nat (length m) ->
  load8 (store16 m off v) off = v mod 256.
Proof.
  intros H0 H1. unfold store16. rewrite load8_store8_other by lia.
  rewrite load8_store8_same by lia. apply Z.mod_mod. lia.
Qed.

Lemma load8_store16_high (m : buffer) (off v : Z) :
  0 <= off -> off + 1 < Z.of_nat (length m) ->
  load8 (store16 m off v) (off + 1) = v / 256 mod 256.
Proof.
  intros H0 H1. unfold store16.
  rewrite load8_store8_same by (rewrite store8_length; lia).
  apply Z.mod_mod. lia.
Qed.

Lemma accumulate16_ext (m m' : buffer) (n : nat) :
  forall (off acc : Z),
    (forall i, off <= i < off + 2 * Z.of_nat n -> load8 m i = load8 m' i) ->
    Icmp.accumulate16 m off n acc = Icmp.accumulate16 m' off n acc.
Proof.
  induction n as [|n IH]; intros off acc H; cbn [Icmp.accumulate16];
    [reflexivity|].
  unfold load16. rewrite (H off), (H (off + 1)) by lia.
  apply IH. intros i Hi. apply H. lia.
Qed.

(** X9.  The ICMP decoder answers nothing but an echo request for the
    address of the interface: for a message of any other type, or an echo
    request for another address, it hands nothing to the internet layer,
    leaves the lower layers untouched, and only tags the packet and passes
    it on to the sockets. *)
Theorem icmp_decode_replies_only_to_own_echo_request :
  forall (L : Type) (ip : ip_layer L) (interface : interface_descriptor)
         (pkt : packet) (l : L),
    load8 (payload pkt) (index pkt + Icmp.off_type) <> Icmp.ECHO_REQUEST \/
    ip32_to_ip (load32 (payload pkt) (tag1 pkt + ip_target_ip))
    <> ip_address interface ->
    Icmp.decode ip interface pkt l
    = Done (set_tag2 pkt (index pkt), l,
            [Propagate (set_tag2 pkt (index pkt)) Socket.ICMP]).
Proof.
  intros L ip interface pkt l H. unfold Icmp.decode.
  cbn [payload index set_tag2].
  destruct (load8 (payload pkt) (index pkt + Icmp.off_type)
            =? Icmp.ECHO_REQUEST) eqn:E.
  - apply Z.eqb_eq in E. destruct H as [H|H]; [contradiction|].
    unfold Icmp.echo_request. cbn [payload index set_tag2 tag1].
    replace (ip32_to_ip (load32 (payload pkt) (tag1 pkt + ip_target_ip))
             =? ip_address interface) with false
      by (symmetry; apply Z.eqb_neq; exact H).
    reflexivity.
  - reflexivity.
Qed.

Lemma icmp_decode_replies_only_to_own_echo_request_witness :
  Icmp.decode IpModel.layer IpModel.interface
              (mk_packet (repeat x00 42) 34 0 14 0 0 false) IpModel.quiet
  = Done (set_tag2 (mk_packet (repeat x00 42) 34 0 14 0 0 false) 34,
          IpModel.quiet,
          [Propagate (set_tag2 (mk_packet (repeat x00 42) 34 0 14 0 0 false) 34)
                     Socket.ICMP]).
Proof.
  apply (icmp_decode_replies_only_to_own_echo_request IpModel.lower
           IpModel.layer IpModel.interface
           (mk_packet (repeat x00 42) 34 0 14 0 0 false) IpModel.quiet).
  left. vm_compute. discriminate.
Defined.

(** X10.  What [kernel_prepare_packet] or [user_prepare_packet] returns,
    [finalize_packet] hands to the internet layer exactly once, with the
    cursor back on the ICMP header, the type and the code of the descriptor
    in the header, and a checksum that is valid over the 8 bytes of the
    header; it returns what the internet layer answers. *)
Theorem icmp_prepare_then_finalize :
  forall (L : Type) (ip : ip_layer L) (interface : interface_descriptor)
         (buf : buffer) (desc : Icmp.packet_descriptor) (p : packet)
         (l l1 l2 : L),
    Icmp.kernel_prepare_packet ip interface desc l = (Value p, l1) \/
    Icmp.user_prepare_packet ip buf desc l = (Value p, l1) ->
    0 <= tag2 p ->
    tag2 p + Icmp.header_size <= payload_size p ->
    payload_size p < 2 ^ 64 ->
    exists (sent : packet),
      snd (Icmp.finalize_packet ip interface p l2)
      = [IpFinalize sent
           (fst (fst (fst (Icmp.finalize_packet ip interface p l2))))] /\
      ip_finalize_packet ip interface sent l2
      = fst (Icmp.finalize_packet ip interface p l2) /\
      index sent = tag2 p /\ tag2 sent = tag2 p /\
      Icmp.msg_type sent = Icmp.pd_type desc mod 256 /\
      Icmp.msg_code sent = Icmp.pd_code desc mod 256 /\
      Icmp.checksum_valid sent 8.
Proof.
  intros L ip interface buf desc p l l1 l2 Hprep H0 H8 H64.
  assert (exists r, p = Icmp.prepare_packet r (Icmp.pd_type desc)
                                            (Icmp.pd_code desc)) as [r Ep].
  { destruct Hprep as [H|H].
    - unfold Icmp.kernel_prepare_packet in H.
      destruct (ip_kernel_prepare_packet ip interface _ l) as [[r|e] l'];
        [|discriminate].
      exists r. injection H as H _. symmetry. exact H.
    - unfold Icmp.user_prepare_packet in H.
      destruct (ip_user_prepare_packet ip buf _ _ l) as [[r|e] l'];
        [|discriminate].
      exists r. injection H as H _. symmetry. exact H. }
  unfold payload_size, Icmp.header_size in *.
  assert (Et : tag2 p = index r) by (subst p; reflexivity).
  assert (Ei : index p = wrap64 (index r + 4)) by (subst p; reflexivity).
  assert (El : length (payload p) = length (payload r)).
  { subst p. unfold Icmp.prepare_packet. cbn [payload set_payload set_index
      set_tag2]. rewrite !store8_length. reflexivity. }
  set (sent := set_payload (set_index p (tag2 p))
                 (Icmp.compute_checksum (payload p) (tag2 p) 0)).
  assert (Ef : forall l', Icmp.finalize_packet ip interface p l'
               = (ip_finalize_packet ip interface sent l',
                  [IpFinalize sent
                     (fst (fst (ip_finalize_packet ip interface sent l')))])).
  { intros l'. unfold Icmp.finalize_packet, Icmp.header_size, Icmp.rest_size.
    replace (wrap64 (index p - (8 - 4))) with (tag2 p).
    2:{ rewrite Ei, Et. rewrite (wrap64_small (index r + 4)) by lia.
        rewrite <- (wrap64_small (index r)) at 1 by lia. f_equal. lia. }
    cbn [payload index set_index]. fold sent.
    destruct (ip_finalize_packet ip interface sent l') as [[res p3] l3].
    reflexivity. }
  exists sent. rewrite Ef. cbn [fst snd].
  split; [reflexivity|]. split; [reflexivity|].
  split; [reflexivity|]. split; [reflexivity|].
  unfold Icmp.msg_type, Icmp.msg_code, Icmp.checksum_valid, Icmp.msg_checksum,
    Icmp.off_type, Icmp.off_code, Icmp.off_checksum.
  unfold sent. cbn [payload tag2 set_payload set_index].
  rewrite !compute_checksum_other by lia.
  split; [|split].
  - subst p. unfold Icmp.prepare_packet, Icmp.off_type, Icmp.off_code.
    cbn [payload tag2 index set_payload set_index set_tag2].
    rewrite load8_store8_other by lia. rewrite Z.add_0_r.
    apply load8_store8_same. rewrite Et in *. lia.
  - subst p. unfold Icmp.prepare_packet, Icmp.off_type, Icmp.off_code.
    cbn [payload tag2 index set_payload set_index set_tag2].
    apply load8_store8_same. rewrite store8_length.
    cbn [tag2 set_tag2 set_payload set_index Icmp.prepare_packet] in *. lia.
  - apply (compute_checksum_valid (payload p) (tag2 p)); lia.
Qed.

Lemma icmp_prepare_then_finalize_witness :
  exists (sent : packet),
    snd (Icmp.finalize_packet IpModel.layer IpModel.interface
           (Icmp.prepare_packet prepared_echo_reply 8 0) IpModel.quiet)
    = [IpFinalize sent
         (fst (fst (fst (Icmp.finalize_packet IpModel.layer IpModel.interface
            (Icmp.prepare_packet prepared_echo_reply 8 0) IpModel.quiet))))] /\
    ip_finalize_packet IpModel.layer IpModel.interface sent IpModel.quiet
    = fst (Icmp.finalize_packet IpModel.layer IpModel.interface
             (Icmp.prepare_packet prepared_echo_reply 8 0) IpModel.quiet) /\
    index sent = tag2 (Icmp.prepare_packet prepared_echo_reply 8 0) /\
    tag2 sent = tag2 (Icmp.prepare_packet prepared_echo_reply 8 0) /\
    Icmp.msg_type sent
    = Icmp.pd_type (Icmp.mk_descriptor 0 0x0A000002 8 0) mod 256 /\
    Icmp.msg_code sent
    = Icmp.pd_code (Icmp.mk_descriptor 0 0x0A000002 8 0) mod 256 /\
    Icmp.checksum_valid sent 8.
Proof.
  apply (icmp_prepare_then_finalize IpModel.lower IpModel.layer
           IpModel.interface [] (Icmp.mk_descriptor 0 0x0A000002 8 0)
           (Icmp.prepare_packet prepared_echo_reply 8 0)
           IpModel.quiet (IpModel.mk_lower [] [] 0) IpModel.quiet).
  - left. vm_compute. reflexivity.
  - vm_compute. discriminate.
  - vm_compute. discriminate.
  - vm_compute. reflexivity.
Defined.

(** X11.  The checksum that [finalize_packet] writes takes no account of
    what follows the 8-byte header, nor of what the checksum field held:
    [compute_checksum] is called with a payload size of 0, so two buffers
    that agree on the type, the code and the four bytes after the checksum
    get the same checksum, whatever data they carry. *)
Theorem icmp_checksum_ignores_payload :
  forall (m m' : buffer) (h : Z),
    0 <= h ->
    h + Icmp.header_size <= Z.of_nat (length m) ->
    h + Icmp.header_size <= Z.of_nat (length m') ->
    (forall k, 0 <= k < Icmp.header_size ->
               k <> Icmp.off_checksum -> k <> Icmp.off_checksum + 1 ->
               load8 m (h + k) = load8 m' (h + k)) ->
    load16 (Icmp.compute_checksum m h 0) (h + Icmp.off_checksum)
    = load16 (Icmp.compute_checksum m' h 0) (h + Icmp.off_checksum).
Proof.
  unfold Icmp.header_size, Icmp.off_checksum.
  intros m m' h H0 Hm Hm' Hagree. unfold Icmp.compute_checksum.
  unfold Icmp.header_size, Icmp.off_checksum.
  change (Z.to_nat (8 / 2 + 0 * 2)) with 4%nat.
  rewrite (accumulate16_ext (store16 m (h + 2) 0) (store16 m' (h + 2) 0) 4
             h 0).
  - rewrite !load16_store16_same;
      try (rewrite ?store16_length; lia);
      try (unfold wrap16; apply Z.mod_pos_bound; lia).
  - intros i Hi.
    destruct (Z.eq_dec i (h + 2)) as [E|N2].
    { subst i. rewrite (load8_store16_low m), (load8_store16_low m') by lia.
      reflexivity. }
    destruct (Z.eq_dec i (h + 2 + 1)) as [E|N3].
    { subst i. rewrite (load8_store16_high m), (load8_store16_high m') by lia.
      reflexivity. }
    rewrite !load8_store16_other by lia.
    replace i with (h + (i - h)) by lia. apply Hagree; lia.
Qed.

Lemma icmp_checksum_ignores_payload_witness :
  load16 (Icmp.compute_checksum
            [x08; x00; x00; x00; x12; x34; x00; x01; x61; x62] 0 0)
         (0 + Icmp.off_checksum)
  = load16 (Icmp.compute_checksum
              [x08; x00; xff; xff; x12; x34; x00; x01] 0 0)
           (0 + Icmp.off_checksum).
Proof.
  apply (icmp_checksum_ignores_payload
           [x08; x00; x00; x00; x12; x34; x00; x01; x61; x62]
           [x08; x00; xff; xff; x12; x34; x00; x01] 0).
  - vm_compute. discriminate.
  - vm_compute. discriminate.
  - vm_compute. discriminate.
  - intros k Hk N2 N3. unfold Icmp.header_size, Icmp.off_checksum in *.
    assert (k = 0 \/ k = 1 \/ k = 4 \/ k = 5 \/ k = 6 \/ k = 7)
      as Hc by lia.
    destruct Hc as [E|[E|[E|[E|[E|E]]]]]; subst k; vm_compute; reflexivity.
Defined.

(** X12.  The carry loop of the ICMP checksum ends.  For every 32-bit sum
    the loop has brought the carry to zero after three rounds, further
    rounds change nothing, and the value it leaves is the 16-bit
    one's-complement reduction of the sum. *)
Theorem icmp_carry_loop_terminates :
  forall (sum : Z) (k : nat),
    0 <= sum < 2 ^ 32 ->
    let value := Z.land sum 0xFFFF in
    let carry := Z.shiftr (wrap32 (sum - value)) 16 in
    Icmp.fold_carry (Icmp.fold_rounds + k) value carry
    = Icmp.fold_carry Icmp.fold_rounds value carry /\
    snd (Icmp.fold_carry Icmp.fold_rounds value carry) = 0 /\
    reduces sum (fst (Icmp.fold_carry Icmp.fold_rounds value carry)).
Proof.
  intros sum k Hs. cbv zeta.
  rewrite land_low16, shiftr_high16.
  assert (Hc : wrap32 (sum - sum mod 65536) / 65536 = sum / 65536).
  { unfold wrap32. rewrite Z.mod_small by (Z.div_mod_to_equations; lia).
    Z.div_mod_to_equations. lia. }
  rewrite Hc.
  assert (Hv : 0 <= sum mod 65536 < 65536) by (apply Z.mod_pos_bound; lia).
  assert (Hq : 0 <= sum / 65536 < 65536) by (Z.div_mod_to_equations; lia).
  destruct (fold_carry_settles (sum mod 65536) (sum / 65536) Hv Hq) as [S R].
  split; [apply fold_carry_more; exact S|]. split; [exact S|].
  replace (sum mod 65536 + 65536 * (sum / 65536)) with sum in R
    by (Z.div_mod_to_equations; lia).
  exact R.
Qed.

Lemma icmp_carry_loop_terminates_witness :
  let value := Z.land 0xFFFFFFFF 0xFFFF in
  let carry := Z.shiftr (wrap32 (0xFFFFFFFF - value)) 16 in
  Icmp.fold_carry (Icmp.fold_rounds + 5) value carry
  = Icmp.fold_carry Icmp.fold_rounds value carry /\
  snd (Icmp.fold_carry Icmp.fold_rounds value carry) = 0 /\
  reduces 0xFFFFFFFF (fst (Icmp.fold_carry Icmp.fold_rounds value carry)).
Proof.
  apply (icmp_carry_loop_terminates 0xFFFFFFFF 5).
  vm_compute. split; [discriminate | reflexivity].
Defined.

(* ===================================================================== *)
(** ** UDP: headers, send, receive, unbind *)
(* ===================================================================== *)

Lemma wrap16_range (x : Z) : 0 <= wrap16 x < 65536.
Proof. unfold wrap16. apply Z.mod_pos_bound. lia. Qed.

Lemma switch_endian_16_wrap (x : Z) :
  switch_endian_16 (wrap16 x) = switch_endian_16 x.
Proof.
  unfold switch_endian_16. cbv zeta.
  replace (wrap16 (wrap16 x)) with (wrap16 x); [reflexivity|].
  unfold wrap16. symmetry. apply Z.mod_mod. lia.
Qed.

Lemma switch_endian_16_involutive (x : Z) :
  switch_endian_16 (switch_endian_16 x) = wrap16 x.
Proof.
  rewrite <- (switch_endian_16_wrap x).
  pose proof (wrap16_range x) as Hy. set (y := wrap16 x) in *. clearbody y.
  assert (E : y = y mod 256 + 256 * (y / 256))
    by (Z.div_mod_to_equations; lia).
  rewrite E at 1.
  rewrite switch_endian_16_bytes by (Z.div_mod_to_equations; lia).
  rewrite switch_endian_16_bytes by (Z.div_mod_to_equations; lia).
  lia.
Qed.

Lemma get_byte_store8_other (m : buffer) (off i v : Z) :
  i <> off -> get_byte (store8 m off v) i = get_byte m i.
Proof. intros H. unfold store8. apply get_set_other. lia. Qed.

Lemma get_byte_store16_other (m : buffer) (off i v : Z) :
  i <> off -> i <> off + 1 -> get_byte (store16 m off v) i = get_byte m i.
Proof.
  intros H1 H2. unfold store16.
  rewrite !get_byte_store8_other by lia. reflexivity.
Qed.

Lemma load16_ext (m m' : buffer) (i : Z) :
  get_byte m i = get_byte m' i -> get_byte m (i + 1) = get_byte m' (i + 1) ->
  load16 m i = load16 m' i.
Proof. intros H1 H2. unfold load16, load8. rewrite H1, H2. reflexivity. Qed.

Lemma read_bytes_ext (len : nat) :
  forall (m m' : buffer) (off : Z),
    (forall i, off <= i < off + Z.of_nat len -> get_byte m i = get_byte m' i) ->
    read_bytes m off len = read_bytes m' off len.
Proof.
  induction len as [|len IH]; intros m m' off H; cbn [read_bytes];
    [reflexivity|].
  rewrite (H off) by lia. f_equal. apply IH. intros i Hi. apply H. lia.
Qed.

Lemma read_write_bytes (src : list byte) (m : buffer) (off : Z) :
  0 <= off -> off + Z.of_nat (length src) <= Z.of_nat (length m) ->
  read_bytes (write_bytes m off src) off (length src) = src.
Proof.
  intros H0 H1. apply (nth_ext _ _ x00 x00).
  - apply read_bytes_length.
  - intros k Hk. rewrite read_bytes_length in Hk.
    rewrite nth_read_bytes by exact Hk.
    apply get_write_bytes_inside; assumption.
Qed.

Lemma udp_prepare_packet_header (p : packet) (source target n : Z) :
  0 <= index p -> index p + 8 <= payload_size p -> payload_size p < 2 ^ 64 ->
  let q := Udp.prepare_packet p source target n in
  tag2 q = index p /\ index q = index p + 8 /\
  length (payload q) = length (payload p) /\
  switch_endian_16 (load16 (payload q) (index p + 0)) = wrap16 source /\
  switch_endian_16 (load16 (payload q) (index p + 2)) = wrap16 target /\
  switch_endian_16 (load16 (payload q) (index p + 4)) = wrap16 (8 + n) /\
  (forall i, i < index p \/ index p + 6 <= i ->
             get_byte (payload q) i = get_byte (payload p) i).
Proof.
  unfold payload_size. intros H0 H8 H64. cbv zeta.
  unfold Udp.prepare_packet, Udp.header_size, Udp.off_source_port,
    Udp.off_target_port, Udp.off_length.
  cbn [payload index tag2 set_payload set_index set_tag2].
  split; [reflexivity|]. split; [apply wrap64_small; lia|].
  split; [rewrite !store16_length; reflexivity|].
  pose proof (switch_endian_16_range source) as Rs.
  pose proof (switch_endian_16_range target) as Rt.
  pose proof (switch_endian_16_range (8 + n)) as Rn.
  change (2 ^ 16) with 65536 in *.
  split; [|split; [|split]].
  - rewrite !load16_store16_other by lia.
    rewrite load16_store16_same by lia.
    apply switch_endian_16_involutive.
  - rewrite load16_store16_other by lia.
    rewrite load16_store16_same by (rewrite ?store16_length; lia).
    apply switch_endian_16_involutive.
  - rewrite load16_store16_same by (rewrite ?store16_length; lia).
    apply switch_endian_16_involutive.
  - intros i Hi. rewrite !get_byte_store16_other by lia. reflexivity.
Qed.

(** X13.  The datagram header that [prepare_packet] writes reads back: the
    source port, the target port and the length field decode (from network
    byte order) to the 16 low bits of the ports given and of 8 plus the
    payload size; the transport tag is on the header, the cursor behind it,
    and no byte outside the first six of the header is written. *)
Theorem udp_prepare_packet_fields :
  forall (p : packet) (source target n : Z),
    0 <= index p ->
    index p + Udp.header_size <= payload_size p ->
    payload_size p < 2 ^ 64 ->
    let q := Udp.prepare_packet p source target n in
    tag2 q = index p /\ index q = index p + Udp.header_size /\
    switch_endian_16 (load16 (payload q) (tag2 q + Udp.off_source_port))
    = wrap16 source /\
    switch_endian_16 (load16 (payload q) (tag2 q + Udp.off_target_port))
    = wrap16 target /\
    switch_endian_16 (load16 (payload q) (tag2 q + Udp.off_length))
    = wrap16 (Udp.header_size + n) /\
    (forall i, i < index p \/ index p + Udp.off_checksum <= i ->
               get_byte (payload q) i = get_byte (payload p) i).
Proof.
  intros p source target n H0 H8 H64. cbv zeta.
  destruct (udp_prepare_packet_header p source target n H0 H8 H64)
    as (T & I & _ & S & D & N & O).
  rewrite T. repeat split; assumption.
Qed.

Lemma udp_prepare_packet_fields_witness :
  let p := mk_packet (repeat x00 46) 34 0 14 0 0 true in
  let q := Udp.prepare_packet p 1024 7 4 in
  tag2 q = index p /\ index q = index p + Udp.header_size /\
  switch_endian_16 (load16 (payload q) (tag2 q + Udp.off_source_port))
  = wrap16 1024 /\
  switch_endian_16 (load16 (payload q) (tag2 q + Udp.off_target_port))
  = wrap16 7 /\
  switch_endian_16 (load16 (payload q) (tag2 q + Udp.off_length))
  = wrap16 (Udp.header_size + 4) /\
  (forall i, i < index p \/ index p + Udp.off_checksum <= i ->
             get_byte (payload q) i = get_byte (payload p) i).
Proof.
  apply (udp_prepare_packet_fields
           (mk_packet (repeat x00 46) 34 0 14 0 0 true) 1024 7 4).
  - vm_compute. discriminate.
  - vm_compute. discriminate.
  - vm_compute. reflexivity.
Defined.

Section UdpSend.
Variable L : Type.
Variable ip : ip_layer L.

Lemma udp_checksum_keeps (p : packet) (i : Z) :
  i <> index p + 6 -> i <> index p + 7 ->
  get_byte (payload (Udp.compute_checksum p)) i = get_byte (payload p) i.
Proof.
  intros H6 H7. unfold Udp.compute_checksum, Udp.off_checksum.
  cbn [payload set_payload].
  rewrite !get_byte_store16_other by lia. reflexivity.
Qed.

Lemma udp_send_spec (tb : buffer) (sock c : nat) (buf : list byte) (n : Z)
  (w : Udp.state L) (s : Socket.socket) (conn : Udp.udp_connection)
  (p : packet) (l1 : L) :
  get_socket w sock = Done s ->
  Socket.connection_data s = Some c ->
  get_connection w c = Done conn ->
  Udp.connected conn = true ->
  ip_user_prepare_packet ip tb
    (select_interface ip (Udp.server_address conn))
    (mk_ip_descriptor (Udp.header_size + n) (Udp.server_address conn) 0x11)
    (lower w) = (Value p, l1) ->
  0 <= n -> 0 <= index p ->
  index p + 8 + n <= payload_size p -> payload_size p < 2 ^ 64 ->
  exists (sent : packet) (r : expected unit) (w' : Udp.state L),
    Udp.send ip tb sock buf n w = Done (r, w') /\
    trace w'
    = trace w ++ [Log "udp: Craft destination"%string; IpFinalize sent r] /\
    connections w' = connections w /\ sockets w' = sockets w /\
    local_port_counter w' = local_port_counter w /\
    script w' = script w /\
    index sent = index p /\ tag2 sent = index p /\
    switch_endian_16 (load16 (payload sent) (index p + 0))
    = wrap16 (Udp.local_port conn) /\
    switch_endian_16 (load16 (payload sent) (index p + 2))
    = wrap16 (Udp.server_port conn) /\
    switch_endian_16 (load16 (payload sent) (index p + 4)) = wrap16 (8 + n) /\
    read_bytes (payload sent) (index p + 8) (Z.to_nat n)
    = read_bytes buf 0 (Z.to_nat n).
Proof.
  intros G CD GC Hc Hprep Hn H0 Hroom H64.
  unfold payload_size in *.
  destruct (udp_prepare_packet_header p (Udp.local_port conn)
              (Udp.server_port conn) n H0 ltac:(unfold payload_size; lia)
              ltac:(unfold payload_size; lia))
    as (T & I & Len & S & D & N & O).
  set (q := Udp.prepare_packet p (Udp.local_port conn)
              (Udp.server_port conn) n) in *.
  set (data := read_bytes buf 0 (Z.to_nat n)).
  assert (Ld : Z.of_nat (length data) = n)
    by (unfold data; rewrite read_bytes_length; lia).
  set (p1 := set_payload q (write_bytes (payload q) (index q) data)).
  set (sent := Udp.compute_checksum
                 (set_index p1 (wrap64 (index p1 - Udp.header_size)))).
  assert (Ei : wrap64 (index p1 - Udp.header_size) = index p).
  { unfold p1. cbn [index set_payload]. rewrite I. unfold Udp.header_size.
    replace (index p + 8 - 8) with (index p) by lia.
    apply wrap64_small. lia. }
  destruct (ip_finalize_packet ip
              (select_interface ip (Udp.server_address conn)) sent l1)
    as [[r p3] l2] eqn:F.
  exists sent, r,
    (emit (set_lower (set_lower (emit w [Log "udp: Craft destination"%string])
                                l1) l2)
          [IpFinalize sent r]).
  assert (Byte : forall i, i < index p + 6 ->
            get_byte (payload sent) i = get_byte (payload q) i).
  { intros i Hi. unfold sent. rewrite udp_checksum_keeps
      by (cbn [index set_index]; rewrite Ei; lia).
    cbn [payload set_index]. unfold p1. cbn [payload set_payload].
    apply get_write_bytes_outside. left. rewrite I. lia. }
  split.
  { unfold Udp.send. rewrite G. cbn [obind].
    unfold Socket.get_connection_data. rewrite CD. cbn [obind].
    rewrite GC. cbn [obind]. rewrite Hc. cbn [negb].
    unfold Udp.user_prepare_packet. rewrite G. cbn [obind].
    unfold Socket.get_connection_data. rewrite CD. cbn [obind].
    rewrite GC. cbn [obind]. cbn [Udp.pd_payload_size lower emit].
    rewrite Hprep. cbn [obind].
    unfold Udp.finalize_packet. cbn [lower set_lower].
    fold q. fold data. fold p1. fold sent. rewrite F. reflexivity. }
  split; [cbn [trace emit set_lower]; rewrite <- app_assoc; reflexivity|].
  split; [reflexivity|]. split; [reflexivity|].
  split; [reflexivity|]. split; [reflexivity|].
  split; [unfold sent; cbn [index Udp.compute_checksum set_payload set_index];
          exact Ei|].
  split; [unfold sent, p1; cbn [tag2 Udp.compute_checksum set_payload
            set_index]; exact T|].
  split; [|split; [|split]].
  - rewrite <- S. f_equal. apply load16_ext; apply Byte; lia.
  - rewrite <- D. f_equal. apply load16_ext; apply Byte; lia.
  - rewrite <- N. f_equal. apply load16_ext; apply Byte; lia.
  - rewrite (read_bytes_ext (Z.to_nat n) (payload sent) (payload p1)).
    + unfold p1. cbn [payload set_payload]. rewrite I.
      replace (Z.to_nat n) with (length data)
        by (unfold data; apply read_bytes_length).
      apply read_write_bytes; [lia|]. rewrite Len. lia.
    + intros i Hi. unfold sent. rewrite udp_checksum_keeps
        by (cbn [index set_index]; rewrite Ei; lia).
      reflexivity.
Qed.

End UdpSend.

(** X14.  [send] on a connected datagram socket, when the internet layer
    prepares a packet with room for the header and [n] bytes, logs the
    destination, hands exactly one frame to the internet layer and returns
    its answer: the log and the frame are all it adds to the trace.  The
    frame carries the local port and the server port of the connection,
    the length 8 + n, and the first [n] bytes of the user buffer behind the
    header; connections, sockets and the port counter are left as they
    were. *)
Theorem udp_send_one_datagram :
  forall (L : Type) (ip : ip_layer L) (tb : buffer) (sock c : nat)
         (buf : list byte) (n : Z) (w : Udp.state L) (s : Socket.socket)
         (conn : Udp.udp_connection) (p : packet) (l1 : L),
    get_socket w sock = Done s ->
    Socket.connection_data s = Some c ->
    get_connection w c = Done conn ->
    Udp.connected conn = true ->
    ip_user_prepare_packet ip tb
      (select_interface ip (Udp.server_address conn))
      (mk_ip_descriptor (Udp.header_size + n) (Udp.server_address conn) 0x11)
      (lower w) = (Value p, l1) ->
    0 <= n -> 0 <= index p ->
    index p + Udp.header_size + n <= payload_size p ->
    payload_size p < 2 ^ 64 ->
    exists (sent : packet) (r : expected unit) (w' : Udp.state L),
      Udp.send ip tb sock buf n w = Done (r, w') /\
      trace w'
      = trace w ++ [Log "udp: Craft destination"%string; IpFinalize sent r] /\
      connections w' = connections w /\ sockets w' = sockets w /\
      local_port_counter w' = local_port_counter w /\
      index sent = index p /\ tag2 sent = index p /\
      switch_endian_16 (load16 (payload sent) (tag2 sent + Udp.off_source_port))
      = wrap16 (Udp.local_port conn) /\
      switch_endian_16 (load16 (payload sent) (tag2 sent + Udp.off_target_port))
      = wrap16 (Udp.server_port conn) /\
      switch_endian_16 (load16 (payload sent) (tag2 sent + Udp.off_length))
      = wrap16 (Udp.header_size + n) /\
      read_bytes (payload sent) (tag2 sent + Udp.header_size) (Z.to_nat n)
      = read_bytes buf 0 (Z.to_nat n).
Proof.
  intros L ip tb sock c buf n w s conn p l1 G CD GC Hc Hprep Hn H0 Hroom H64.
  destruct (udp_send_spec L ip tb sock c buf n w s conn p l1 G CD GC Hc Hprep
              Hn H0 Hroom H64)
    as (sent & r & w' & E & Tr & Cn & So & Pc & _ & I & T & S & D & N & R).
  exists sent, r, w'. rewrite T.
  repeat split; assumption.
Qed.

Lemma udp_send_one_datagram_witness :
  exists (sent : packet) (r : expected unit) (w' : Udp.state IpModel.lower),
    Udp.send IpModel.layer (repeat x00 46) 0 ping 4 bound_world
    = Done (r, w') /\
    trace w'
    = trace bound_world
      ++ [Log "udp: Craft destination"%string; IpFinalize sent r] /\
    connections w' = connections bound_world /\
    sockets w' = sockets bound_world /\
    local_port_counter w' = local_port_counter bound_world /\
    index sent = 34 /\ tag2 sent = 34 /\
    switch_endian_16 (load16 (payload sent) (tag2 sent + Udp.off_source_port))
    = wrap16 1024 /\
    switch_endian_16 (load16 (payload sent) (tag2 sent + Udp.off_target_port))
    = wrap16 7 /\
    switch_endian_16 (load16 (payload sent) (tag2 sent + Udp.off_length))
    = wrap16 (Udp.header_size + 4) /\
    read_bytes (payload sent) (tag2 sent + Udp.header_size) (Z.to_nat 4)
    = read_bytes ping 0 (Z.to_nat 4).
Proof.
  apply (udp_send_one_datagram IpModel.lower IpModel.layer (repeat x00 46)
           0%nat 0%nat ping 4 bound_world
           (Socket.set_connection_data datagram_socket (Some 0%nat))
           (Udp.mk_connection 1024 7 0x0A000002 true (Some 0%nat))
           (mk_packet
              (IpModel.write_ip_header (repeat x00 46) IpModel.interface
                 (mk_ip_descriptor 12 0x0A000002 0x11))
              34 0 14 0 0 true)
           IpModel.quiet).
  - vm_compute. reflexivity.
  - reflexivity.
  - vm_compute. reflexivity.
  - reflexivity.
  - vm_compute. reflexivity.
  - vm_compute. discriminate.
  - vm_compute. discriminate.
  - vm_compute. discriminate.
  - vm_compute. reflexivity.
Defined.

Lemma skipn_length_app {A : Type} (a b : list A) :
  skipn (length a) (a ++ b) = b.
Proof. induction a as [|x a IH]; simpl; [reflexivity | exact IH]. Qed.

Lemma lookup_remove_same {A : Type} (c : nat) (t : table A) :
  lookup c (remove c t) = None.
Proof.
  induction t as [|[k x] t IH]; simpl; [reflexivity|].
  destruct (Nat.eqb k c) eqn:E; [exact IH|]. simpl. rewrite E. exact IH.
Qed.

Lemma lookup_remove_other {A : Type} (h c : nat) (t : table A) :
  h <> c -> lookup h (remove c t) = lookup h t.
Proof.
  intros N. induction t as [|[k x] t IH]; simpl; [reflexivity|].
  destruct (Nat.eqb k c) eqn:E.
  - apply Nat.eqb_eq in E. subst k.
    destruct (Nat.eqb c h) eqn:E'; [apply Nat.eqb_eq in E'; congruence|].
    exact IH.
  - simpl. destruct (Nat.eqb k h); [reflexivity | exact IH].
Qed.

Lemma notified_socket_last (sock : nat) (evs : list net_event) :
  notified_socket sock (evs ++ [NotifySocket sock]) = true.
Proof.
  induction evs as [|e evs IH]; simpl.
  - rewrite Nat.eqb_refl. reflexivity.
  - destruct e; try exact IH. rewrite IH. apply orb_true_r.
Qed.

Section UdpReceive.
Variable L : Type.
Variable interface : interface_descriptor.

(** A datagram for a connection whose socket listens goes to the back of
    the listen queue of that socket, which is notified. *)
Lemma udp_decode_delivers (pkt : packet) (w : Udp.state L) (sock c : nat)
  (s : Socket.socket) (conn : Udp.udp_connection) :
  let sp := switch_endian_16
              (load16 (payload pkt) (index pkt + Udp.off_source_port)) in
  let tp := switch_endian_16
              (load16 (payload pkt) (index pkt + Udp.off_target_port)) in
  let pkt2 := set_index (set_tag2 pkt (index pkt))
                        (wrap64 (index pkt + Udp.header_size)) in
  let dns := if sp =? 53 then [DnsDecode pkt2] else [] in
  ConnectionHandler.get_connection_for_packet (connections w) sp tp = Some c ->
  get_connection w c = Done conn ->
  Udp.socket conn = Some sock ->
  get_socket w sock = Done s ->
  Socket.listen s = true ->
  (length (Socket.listen_packets s) < Socket.listen_capacity)%nat ->
  Udp.decode interface pkt w
  = Done (pkt2,
          emit (put_socket (emit w dns) sock
                  (Socket.set_listen_packets s
                     (Socket.listen_packets s ++ [pkt2])))
               [NotifySocket sock]).
Proof.
  cbv zeta. intros Hc GC So G Li Cap. unfold Udp.decode.
  cbn [payload index set_tag2 set_index].
  set (pkt2 := set_index (set_tag2 pkt (index pkt))
                         (wrap64 (index pkt + Udp.header_size))).
  assert (Push : CircularBuffer.push Socket.listen_capacity
                   (Socket.listen_packets s) (clone pkt2)
                 = Done (Socket.listen_packets s ++ [pkt2])).
  { unfold CircularBuffer.push, CircularBuffer.full.
    replace (Socket.listen_capacity <=? length (Socket.listen_packets s))%nat
      with false by (symmetry; apply Nat.leb_gt; exact Cap).
    rewrite clone_eq. reflexivity. }
  destruct (switch_endian_16
              (load16 (payload pkt) (index pkt + Udp.off_source_port)) =? 53).
  - change (connections (emit w [DnsDecode pkt2])) with (connections w).
    rewrite Hc.
    change (get_connection (emit w [DnsDecode pkt2]) c)
      with (get_connection w c).
    rewrite GC. cbn [obind]. rewrite So.
    change (get_socket (emit w [DnsDecode pkt2]) sock)
      with (get_socket w sock).
    rewrite G. cbn [obind]. rewrite Li, Push. reflexivity.
  - rewrite Hc, GC. cbn [obind]. rewrite So, G. cbn [obind].
    rewrite Li, Push. cbn [obind].
    replace (emit w []) with w; [reflexivity|].
    unfold emit. rewrite app_nil_r. destruct w; reflexivity.
Qed.

Lemma udp_receive_arrival (buf : buffer) (sock c : nat) (n : Z)
  (w : Udp.state L) (s : Socket.socket) (conn : Udp.udp_connection)
  (pkt : packet) (rest : list env_event) :
  let sp := switch_endian_16
              (load16 (payload pkt) (index pkt + Udp.off_source_port)) in
  let tp := switch_endian_16
              (load16 (payload pkt) (index pkt + Udp.off_target_port)) in
  let len := switch_endian_16
               (load16 (payload pkt) (index pkt + Udp.off_length)) in
  let data := read_bytes (payload pkt) (wrap64 (index pkt + Udp.header_size))
                         (Z.to_nat len) in
  get_socket w sock = Done s ->
  Socket.connection_data s = Some c ->
  get_connection w c = Done conn ->
  Udp.connected conn = true ->
  Udp.socket conn = Some sock ->
  Socket.listen s = true ->
  Socket.listen_packets s = [] ->
  script w = Arrival pkt :: rest ->
  ConnectionHandler.get_connection_for_packet (connections w) sp tp = Some c ->
  exists w' : Udp.state L,
    Udp.receive interface buf sock n w
    = Done (if n <? len then (Unexpected ERROR_BUFFER_SMALL, buf)
            else (Value len, write_bytes buf 0 data), w') /\
    script w' = rest /\ get_socket w' sock = Done s /\
    connections w' = connections w.
Proof.
  cbv zeta. intros G CD GC Hc So Li Q Sc Hfor.
  set (pkt2 := set_index (set_tag2 pkt (index pkt))
                         (wrap64 (index pkt + Udp.header_size))).
  set (dns := if switch_endian_16
                   (load16 (payload pkt) (index pkt + Udp.off_source_port))
                 =? 53 then [DnsDecode pkt2] else []).
  set (s1 := Socket.set_listen_packets s (Socket.listen_packets s ++ [pkt2])).
  set (w1 := emit (put_socket (emit (set_script w rest) dns) sock s1)
                  [NotifySocket sock]).
  assert (D : Udp.decode interface pkt (set_script w rest) = Done (pkt2, w1)).
  { apply (udp_decode_delivers pkt (set_script w rest) sock c s conn);
      try assumption.
    rewrite Q. unfold Socket.listen_capacity. cbn [length]. lia. }
  assert (Look : lookup sock (sockets w) = Some s).
  { unfold get_socket in G. destruct (lookup sock (sockets w));
      [injection G as ->; reflexivity | discriminate]. }
  assert (G1 : get_socket w1 sock = Done s1).
  { unfold get_socket, w1. cbn [sockets emit put_socket set_sockets set_script].
    rewrite (lookup_update_same sock s1 s (sockets w) Look). reflexivity. }
  assert (Q1 : Socket.listen_packets s1 = pkt2 :: []).
  { unfold s1. cbn [Socket.listen_packets Socket.set_listen_packets].
    rewrite Q. reflexivity. }
  pose proof (udp_receive_packet_head L buf sock n w1 s1 pkt2 [] G1 Q1) as R.
  cbv zeta in R.
  eexists. split.
  - unfold Udp.receive. rewrite G. cbn [obind].
    unfold Socket.get_connection_data. rewrite CD. cbn [obind].
    rewrite GC. cbn [obind]. rewrite Hc. cbn [negb].
    rewrite Q. cbn [CircularBuffer.empty].
    unfold Udp.wait. rewrite Sc. cbn [Udp.wait_loop].
    rewrite D. cbn [obind].
    replace (notified_socket sock (skipn (length (trace w)) (trace w1)))
      with true.
    2:{ unfold w1. cbn [trace emit put_socket set_sockets set_script].
        rewrite <- app_assoc, skipn_length_app.
        symmetry. apply notified_socket_last. }
    cbn [obind]. rewrite R.
    change (tag2 pkt2) with (index pkt).
    change (index pkt2) with (wrap64 (index pkt + Udp.header_size)).
    change (payload pkt2) with (payload pkt).
    destruct (n <? switch_endian_16
                     (load16 (payload pkt) (index pkt + Udp.off_length)));
      reflexivity.
  - cbn [script emit put_socket set_sockets]. split; [reflexivity|].
    split; [|reflexivity].
    unfold get_socket. cbn [sockets emit put_socket set_sockets].
    unfold w1 at 1. cbn [sockets emit put_socket set_sockets set_script].
    rewrite (lookup_update_same sock _ s1 (update sock s1 (sockets w))).
    + f_equal. unfold s1. destruct s. cbn in Q |- *. subst. reflexivity.
    + apply (lookup_update_same sock s1 s (sockets w) Look).
Qed.

End UdpReceive.

(** X15.  A blocking [receive] on a bound, listening socket with an empty
    queue waits for the datagram: when the next arrival carries the ports
    of the socket's connection, the decoder queues it and wakes the
    caller, and [receive] answers from that very datagram.  It compares
    the caller's size with the length field of the datagram and either
    fails with BUFFER_SMALL or returns the length field and copies that
    many bytes from behind the header; the queue is empty again. *)
Theorem udp_receive_waits_for_datagram :
  forall (L : Type) (interface : interface_descriptor) (buf : buffer)
         (sock c : nat) (n : Z) (w : Udp.state L) (s : Socket.socket)
         (conn : Udp.udp_connection) (pkt : packet) (rest : list env_event),
    let sp := switch_endian_16
                (load16 (payload pkt) (index pkt + Udp.off_source_port)) in
    let tp := switch_endian_16
                (load16 (payload pkt) (index pkt + Udp.off_target_port)) in
    let len := switch_endian_16
                 (load16 (payload pkt) (index pkt + Udp.off_length)) in
    let data := read_bytes (payload pkt)
                  (wrap64 (index pkt + Udp.header_size)) (Z.to_nat len) in
    get_socket w sock = Done s ->
    Socket.connection_data s = Some c ->
    get_connection w c = Done conn ->
    Udp.connected conn = true ->
    Udp.socket conn = Some sock ->
    Socket.listen s = true ->
    Socket.listen_packets s = [] ->
    script w = Arrival pkt :: rest ->
    ConnectionHandler.get_connection_for_packet (connections w) sp tp
    = Some c ->
    exists w' : Udp.state L,
      Udp.receive interface buf sock n w
      = Done (if n <? len then (Unexpected ERROR_BUFFER_SMALL, buf)
              else (Value len, write_bytes buf 0 data), w') /\
      script w' = rest /\ get_socket w' sock = Done s /\
      connections w' = connections w.
Proof.
  intros L interface buf sock c n w s conn pkt rest.
  apply (udp_receive_arrival L interface buf sock c n w s conn pkt rest).
Qed.

Lemma udp_receive_waits_for_datagram_witness :
  exists w' : Udp.state IpModel.lower,
    Udp.receive IpModel.interface (repeat x00 16) 0 16
                (set_script bound_world [Arrival ping_frame; Timeout])
    = Done (if 16 <? 12 then (Unexpected ERROR_BUFFER_SMALL, repeat x00 16)
            else (Value 12,
                  write_bytes (repeat x00 16) 0
                    (read_bytes (payload ping_frame) 42 (Z.to_nat 12))),
            w') /\
    script w' = [Timeout] /\
    get_socket w' 0
    = Done (Socket.set_connection_data datagram_socket (Some 0%nat)) /\
    connections w' = connections bound_world.
Proof.
  apply (udp_receive_waits_for_datagram IpModel.lower IpModel.interface
           (repeat x00 16) 0%nat 0%nat 16
           (set_script bound_world [Arrival ping_frame; Timeout])
           (Socket.set_connection_data datagram_socket (Some 0%nat))
           (Udp.mk_connection 1024 7 0x0A000002 true (Some 0%nat))
           ping_frame [Timeout]).
  - vm_compute. reflexivity.
  - reflexivity.
  - vm_compute. reflexivity.
  - reflexivity.
  - reflexivity.
  - reflexivity.
  - reflexivity.
  - reflexivity.
  - vm_compute. reflexivity.
Defined.

(** X16.  [client_unbind] on a connected socket removes the record of the
    connection from the table and nothing else: the other connections, the
    sockets (the socket keeps its reference to the record) and the port
    counter are as before, and nothing is sent.  On a connection that is
    not marked connected it fails with NOT_CONNECTED and changes
    nothing. *)
Theorem udp_unbind_removes_connection :
  forall (L : Type) (sock c : nat) (w : Udp.state L) (s : Socket.socket)
         (conn : Udp.udp_connection),
    get_socket w sock = Done s ->
    Socket.connection_data s = Some c ->
    get_connection w c = Done conn ->
    (Udp.connected conn = false ->
     Udp.client_unbind sock w = Done (Unexpected ERROR_SOCKET_NOT_CONNECTED, w))
    /\
    (Udp.connected conn = true ->
     exists w' : Udp.state L,
       Udp.client_unbind sock w = Done (Value tt, w') /\
       lookup c (ConnectionHandler.entries (connections w')) = None /\
       (forall c', c' <> c ->
          lookup c' (ConnectionHandler.entries (connections w'))
          = lookup c' (ConnectionHandler.entries (connections w))) /\
       sockets w' = sockets w /\
       local_port_counter w' = local_port_counter w /\
       trace w' = trace w).
Proof.
  intros L sock c w s conn G CD GC. split; intros Hc.
  - unfold Udp.client_unbind. rewrite G. cbn [obind].
    unfold Socket.get_connection_data. rewrite CD. cbn [obind].
    rewrite GC. cbn [obind]. rewrite Hc. reflexivity.
  - eexists. split.
    + unfold Udp.client_unbind. rewrite G. cbn [obind].
      unfold Socket.get_connection_data. rewrite CD. cbn [obind].
      rewrite GC. cbn [obind]. rewrite Hc. cbn [negb]. reflexivity.
    + cbn [connections set_connections put_connection sockets
           local_port_counter trace ConnectionHandler.remove_connection
           ConnectionHandler.entries].
      split; [apply lookup_remove_same|].
      split; [|repeat split].
      intros c' N. rewrite lookup_remove_other by exact N.
      rewrite lookup_update.
      destruct (lookup c' (ConnectionHandler.entries (connections w)));
        [|reflexivity].
      replace (Nat.eqb c' c) with false; [reflexivity|].
      symmetry. apply Nat.eqb_neq. exact N.
Qed.

Lemma udp_unbind_removes_connection_witness :
  (Udp.connected (Udp.mk_connection 1024 7 0x0A000002 true (Some 0%nat))
   = false ->
   Udp.client_unbind 0 bound_world
   = Done (Unexpected ERROR_SOCKET_NOT_CONNECTED, bound_world)) /\
  (Udp.connected (Udp.mk_connection 1024 7 0x0A000002 true (Some 0%nat))
   = true ->
   exists w' : Udp.state IpModel.lower,
     Udp.client_unbind 0 bound_world = Done (Value tt, w') /\
     lookup 0%nat (ConnectionHandler.entries (connections w')) = None /\
     (forall c', c' <> 0%nat ->
        lookup c' (ConnectionHandler.entries (connections w'))
        = lookup c' (ConnectionHandler.entries (connections bound_world))) /\
     sockets w' = sockets bound_world /\
     local_port_counter w' = local_port_counter bound_world /\
     trace w' = trace bound_world).
Proof.
  apply (udp_unbind_removes_connection IpModel.lower 0%nat 0%nat bound_world
           (Socket.set_connection_data datagram_socket (Some 0%nat))
           (Udp.mk_connection 1024 7 0x0A000002 true (Some 0%nat))).
  - vm_compute. reflexivity.
  - reflexivity.
  - vm_compute. reflexivity.
Defined.

(** X17.  The datagram calls do not wait when they need not.  On a
    connection not marked connected, [send] and both [receive]s fail with
    NOT_CONNECTED and leave everything as it was; on a connected socket
    with an empty queue, a timed [receive] with 0 milliseconds fails with
    SOCKET_TIMEOUT at once, without consuming anything of the outside, and
    with another delay it fails so when the time runs out first. *)
Theorem udp_calls_fail_without_waiting :
  forall (L : Type) (ip : ip_layer L) (interface : interface_descriptor)
         (tb buf : buffer) (data : list byte) (sock c : nat) (n ms : Z)
         (w : Udp.state L) (s : Socket.socket) (conn : Udp.udp_connection),
    get_socket w sock = Done s ->
    Socket.connection_data s = Some c ->
    get_connection w c = Done conn ->
    (Udp.connected conn = false ->
     Udp.send ip tb sock data n w
     = Done (Unexpected ERROR_SOCKET_NOT_CONNECTED, w) /\
     Udp.receive interface buf sock n w
     = Done (Unexpected ERROR_SOCKET_NOT_CONNECTED, buf, w) /\
     Udp.receive_timed interface buf sock n ms w
     = Done (Unexpected ERROR_SOCKET_NOT_CONNECTED, buf, w)) /\
    (Udp.connected conn = true -> Socket.listen_packets s = [] ->
     Udp.receive_timed interface buf sock n 0 w
     = Done (Unexpected ERROR_SOCKET_TIMEOUT, buf, w) /\
     (ms <> 0 -> forall rest, script w = Timeout :: rest ->
      Udp.receive_timed interface buf sock n ms w
      = Done (Unexpected ERROR_SOCKET_TIMEOUT, buf, set_script w rest))).
Proof.
  intros L ip interface tb buf data sock c n ms w s conn G CD GC.
  split.
  - intros Hc.
    unfold Udp.send, Udp.receive, Udp.receive_timed. rewrite G. cbn [obind].
    unfold Socket.get_connection_data. rewrite CD. cbn [obind].
    rewrite GC. cbn [obind]. rewrite Hc. cbn [negb].
    repeat split.
  - intros Hc Q. unfold Udp.receive_timed. rewrite G. cbn [obind].
    unfold Socket.get_connection_data. rewrite CD. cbn [obind].
    rewrite GC. cbn [obind]. rewrite Hc, Q.
    cbn [negb CircularBuffer.empty]. split; [reflexivity|].
    intros Hms rest Sc.
    replace (ms =? 0) with false by (symmetry; apply Z.eqb_neq; exact Hms).
    unfold Udp.wait_for. rewrite Sc. reflexivity.
Qed.

Lemma udp_calls_fail_without_waiting_witness :
  (Udp.connected (Udp.mk_connection 1024 7 0x0A000002 true (Some 0%nat))
   = false ->
   Udp.send IpModel.layer [] 0 ping 4 (set_script bound_world [Timeout])
   = Done (Unexpected ERROR_SOCKET_NOT_CONNECTED,
           set_script bound_world [Timeout]) /\
   Udp.receive IpModel.interface [] 0 4 (set_script bound_world [Timeout])
   = Done (Unexpected ERROR_SOCKET_NOT_CONNECTED, [],
           set_script bound_world [Timeout]) /\
   Udp.receive_timed IpModel.interface [] 0 4 10
                     (set_script bound_world [Timeout])
   = Done (Unexpected ERROR_SOCKET_NOT_CONNECTED, [],
           set_script bound_world [Timeout])) /\
  (Udp.connected (Udp.mk_connection 1024 7 0x0A000002 true (Some 0%nat))
   = true ->
   Socket.listen_packets
     (Socket.set_connection_data datagram_socket (Some 0%nat)) = [] ->
   Udp.receive_timed IpModel.interface [] 0 4 0
                     (set_script bound_world [Timeout])
   = Done (Unexpected ERROR_SOCKET_TIMEOUT, [],
           set_script bound_world [Timeout]) /\
   (10 <> 0 -> forall rest,
      script (set_script bound_world [Timeout]) = Timeout :: rest ->
      Udp.receive_timed IpModel.interface [] 0 4 10
                        (set_script bound_world [Timeout])
      = Done (Unexpected ERROR_SOCKET_TIMEOUT, [],
              set_script (set_script bound_world [Timeout]) rest))).
Proof.
  apply (udp_calls_fail_without_waiting IpModel.lower IpModel.layer
           IpModel.interface [] [] ping 0%nat 0%nat 4 10
           (set_script bound_world [Timeout])
           (Socket.set_connection_data datagram_socket (Some 0%nat))
           (Udp.mk_connection 1024 7 0x0A000002 true (Some 0%nat))).
  - vm_compute. reflexivity.
  - reflexivity.
  - vm_compute. reflexivity.
Defined.

(* ===================================================================== *)
(** ** TCP: the header fields *)
(* ===================================================================== *)

Lemma wrap32_range (x : Z) : 0 <= wrap32 x < 2 ^ 32.
Proof. unfold wrap32. apply Z.mod_pos_bound. lia. Qed.

Lemma lor_shiftl_add (a b n : Z) :
  0 <= n -> 0 <= b < 2 ^ n -> Z.lor (Z.shiftl a n) b = a * 2 ^ n + b.
Proof.
  intros Hn Hb. rewrite Z.shiftl_mul_pow2 by lia.
  assert (Hland : Z.land (a * 2 ^ n) b = 0).
  { destruct (Z.eq_dec b 0) as [->|Nb]; [apply Z.land_0_r|].
    apply Z.bits_inj'. intros k Hk. rewrite Z.land_spec, Z.bits_0.
    destruct (Z.ltb_spec k n).
    - rewrite (Z.mul_pow2_bits_low a n k) by lia. reflexivity.
    - rewrite (Z.bits_above_log2 b k); [apply andb_false_r | lia |].
      apply Z.log2_lt_pow2; [lia|].
      apply Z.lt_le_trans with (2 ^ n); [lia | apply Z.pow_le_mono_r; lia]. }
  rewrite <- Z.lxor_lor by exact Hland.
  rewrite <- Z.add_nocarry_lxor by exact Hland. reflexivity.
Qed.

Lemma switch_endian_32_halves (x : Z) :
  0 <= x < 2 ^ 32 ->
  switch_endian_32 x
  = switch_endian_16 (x mod 65536) * 65536 + switch_endian_16 (x / 65536).
Proof.
  intros Hx. unfold switch_endian_32. cbv zeta.
  unfold wrap32. rewrite Z.mod_small by exact Hx.
  change 65535 with (Z.ones 16). rewrite Z.land_ones by lia.
  rewrite Z.shiftr_div_pow2 by lia.
  rewrite lor_shiftl_add; [reflexivity | lia | apply switch_endian_16_range].
Qed.

Lemma switch_endian_32_involutive (x : Z) :
  switch_endian_32 (switch_endian_32 x) = wrap32 x.
Proof.
  assert (E : switch_endian_32 x = switch_endian_32 (wrap32 x)).
  { unfold switch_endian_32. cbv zeta.
    replace (wrap32 (wrap32 x)) with (wrap32 x); [reflexivity|].
    unfold wrap32. symmetry. apply Z.mod_mod. lia. }
  rewrite E. pose proof (wrap32_range x) as Hy.
  set (y := wrap32 x) in *. clearbody y.
  rewrite (switch_endian_32_halves y Hy).
  pose proof (switch_endian_16_range (y mod 65536)) as Ha.
  pose proof (switch_endian_16_range (y / 65536)) as Hb.
  set (a := switch_endian_16 (y mod 65536)) in *.
  set (b := switch_endian_16 (y / 65536)) in *.
  change (2 ^ 16) with 65536 in *.
  rewrite switch_endian_32_halves by (change (2 ^ 32) with 4294967296; lia).
  replace ((a * 65536 + b) mod 65536) with b
    by (Z.div_mod_to_equations; lia).
  replace ((a * 65536 + b) / 65536) with a
    by (Z.div_mod_to_equations; lia).
  unfold a, b. rewrite !switch_endian_16_involutive.
  unfold wrap16. change (2 ^ 16) with 65536.
  rewrite Z.mod_mod by lia.
  rewrite (Z.mod_small (y / 65536))
    by (change (2 ^ 32) with (65536 * 65536) in Hy;
        Z.div_mod_to_equations; lia).
  Z.div_mod_to_equations. lia.
Qed.

Lemma load16_range (m : buffer) (off : Z) : 0 <= load16 m off < 65536.
Proof.
  unfold load16. pose proof (load8_range m off).
  pose proof (load8_range m (off + 1)). lia.
Qed.

Lemma load32_store32_same (m : buffer) (off v : Z) :
  0 <= off -> off + 3 < Z.of_nat (length m) -> 0 <= v < 2 ^ 32 ->
  load32 (store32 m off v) off = v.
Proof.
  intros H0 H1 Hv. unfold load32, store32.
  rewrite load16_store16_other by lia.
  rewrite load16_store16_same by (try lia; apply Z.mod_pos_bound; lia).
  rewrite load16_store16_same
    by (rewrite ?store16_length; try lia; apply Z.mod_pos_bound; lia).
  change (2 ^ 32) with (65536 * 65536) in Hv.
  Z.div_mod_to_equations. lia.
Qed.

Lemma get_byte_store32_other (m : buffer) (off i v : Z) :
  i < off \/ off + 4 <= i -> get_byte (store32 m off v) i = get_byte m i.
Proof.
  intros H. unfold store32.
  rewrite !get_byte_store16_other by lia. reflexivity.
Qed.

Lemma load32_ext (m m' : buffer) (i : Z) :
  (forall k, i <= k < i + 4 -> get_byte m k = get_byte m' k) ->
  load32 m i = load32 m' i.
Proof.
  intros H. unfold load32.
  rewrite (load16_ext m m' i), (load16_ext m m' (i + 2));
    try reflexivity; apply H; lia.
Qed.

Section TcpHeader.

(** The ports [prepare_packet] writes; the bytes of the numbers and of the
    flags are left alone. *)
Lemma tcp_prepare_packet_header (p : packet) (source target : Z) :
  0 <= index p -> index p + 20 <= payload_size p -> payload_size p < 2 ^ 64 ->
  let q := Tcp.prepare_packet p source target in
  tag2 q = index p /\ index q = index p + 20 /\ tag1 q = tag1 p /\
  user q = user p /\
  length (payload q) = length (payload p) /\
  switch_endian_16 (load16 (payload q) (index p + 0)) = wrap16 source /\
  switch_endian_16 (load16 (payload q) (index p + 2)) = wrap16 target /\
  (forall i, i < index p \/ index p + 4 <= i < index p + 14 \/
             index p + 16 <= i < index p + 18 \/ index p + 20 <= i ->
             get_byte (payload q) i = get_byte (payload p) i).
Proof.
  unfold payload_size. intros H0 H20 H64. cbv zeta.
  unfold Tcp.prepare_packet, Tcp.default_tcp_header_length,
    Tcp.off_source_port, Tcp.off_target_port, Tcp.off_window_size,
    Tcp.off_urgent_pointer.
  cbn [payload index tag2 tag1 user set_payload set_index set_tag2].
  split; [reflexivity|]. split; [apply wrap64_small; lia|].
  split; [reflexivity|]. split; [reflexivity|].
  split; [rewrite !store16_length; reflexivity|].
  pose proof (switch_endian_16_range source) as Rs.
  pose proof (switch_endian_16_range target) as Rt.
  change (2 ^ 16) with 65536 in *.
  split; [|split].
  - rewrite !load16_store16_other by lia.
    rewrite load16_store16_same by lia.
    apply switch_endian_16_involutive.
  - rewrite !load16_store16_other by lia.
    rewrite load16_store16_same by (rewrite ?store16_length; lia).
    apply switch_endian_16_involutive.
  - intros i Hi. rewrite !get_byte_store16_other by lia. reflexivity.
Qed.

Lemma tcp_set_header_numbers_fields (q : packet) (s a : Z) :
  0 <= tag2 q -> tag2 q + 20 <= payload_size q ->
  let r := Tcp.set_header_numbers q s a in
  tag2 r = tag2 q /\ index r = index q /\ tag1 r = tag1 q /\
  user r = user q /\
  length (payload r) = length (payload q) /\
  Tcp.header_seq (payload r) (tag2 q) = wrap32 s /\
  Tcp.header_ack (payload r) (tag2 q) = wrap32 a /\
  (forall i, i < tag2 q + 4 \/ tag2 q + 12 <= i ->
             get_byte (payload r) i = get_byte (payload q) i).
Proof.
  unfold payload_size. intros H0 H20. cbv zeta.
  unfold Tcp.set_header_numbers, Tcp.header_seq, Tcp.header_ack,
    Tcp.off_sequence_number, Tcp.off_ack_number.
  cbn [payload index tag2 tag1 user set_payload].
  split; [reflexivity|]. split; [reflexivity|]. split; [reflexivity|].
  split; [reflexivity|].
  split; [rewrite !store32_length; reflexivity|].
  pose proof (switch_endian_32_range s) as Rs.
  pose proof (switch_endian_32_range a) as Ra.
  split; [|split].
  - rewrite (load32_ext _ (store32 (payload q) (tag2 q + 4)
                             (switch_endian_32 s))).
    + rewrite load32_store32_same by lia.
      apply switch_endian_32_involutive.
    + intros k Hk. apply get_byte_store32_other. lia.
  - rewrite load32_store32_same by (rewrite ?store32_length; lia).
    apply switch_endian_32_involutive.
  - intros i Hi. rewrite !get_byte_store32_other by lia. reflexivity.
Qed.

Lemma tcp_set_header_flags_fields (q : packet) (f : Z) :
  0 <= tag2 q -> tag2 q + 20 <= payload_size q ->
  let r := Tcp.set_header_flags q f in
  tag2 r = tag2 q /\ index r = index q /\ tag1 r = tag1 q /\
  user r = user q /\
  length (payload r) = length (payload q) /\
  Tcp.header_flags (payload r) (tag2 q) = wrap16 f /\
  (forall i, i < tag2 q + 12 \/ tag2 q + 14 <= i ->
             get_byte (payload r) i = get_byte (payload q) i).
Proof.
  unfold payload_size. intros H0 H20. cbv zeta.
  unfold Tcp.set_header_flags, Tcp.header_flags, Tcp.off_flags.
  cbn [payload index tag2 tag1 user set_payload].
  split; [reflexivity|]. split; [reflexivity|]. split; [reflexivity|].
  split; [reflexivity|].
  split; [rewrite !store16_length; reflexivity|].
  pose proof (switch_endian_16_range f) as Rf.
  change (2 ^ 16) with 65536 in *.
  split.
  - rewrite load16_store16_same by lia. apply switch_endian_16_involutive.
  - intros i Hi. rewrite !get_byte_store16_other by lia. reflexivity.
Qed.

End TcpHeader.

Lemma carries_numbers (q : packet) (conn : Tcp.tcp_connection) :
  0 <= tag2 q -> tag2 q + 20 <= payload_size q ->
  index q = tag2 q + 20 ->
  switch_endian_16 (load16 (payload q) (tag2 q + 0))
  = wrap16 (Tcp.local_port conn) ->
  switch_endian_16 (load16 (payload q) (tag2 q + 2))
  = wrap16 (Tcp.server_port conn) ->
  carries (Tcp.set_header_numbers q (Tcp.seq_number conn)
                                  (Tcp.ack_number conn)) conn.
Proof.
  intros H0 H20 I S T.
  destruct (tcp_set_header_numbers_fields q (Tcp.seq_number conn)
              (Tcp.ack_number conn) H0 H20)
    as (T2 & I2 & _ & _ & _ & Sq & Ak & O).
  unfold carries, Tcp.default_tcp_header_length, Tcp.off_source_port,
    Tcp.off_target_port.
  rewrite T2, I2.
  split; [exact I|]. split; [|split; [|split; assumption]].
  - rewrite <- S. f_equal. apply load16_ext; apply O; lia.
  - rewrite <- T. f_equal. apply load16_ext; apply O; lia.
Qed.

(** X18.  The header of a prepared stream packet carries the connection.
    What [kernel_prepare_packet] returns for a connection has the local
    and the server port of the connection and its sequence and ack numbers
    in the header (read back from network byte order), with the cursor
    behind the 20-byte header.  What [user_prepare_packet] returns has the
    same and, in addition, the flags PSH and ACK with a data offset of 5
    words; it is returned only for a connected socket. *)
Theorem tcp_prepared_header_carries_connection :
  forall (L : Type) (ip : ip_layer L) (interface : interface_descriptor)
         (buf : buffer) (sock c : nat) (n : Z) (w w' : Tcp.state L)
         (s : Socket.socket) (conn : Tcp.tcp_connection) (p : packet),
    0 <= tag2 p ->
    tag2 p + Tcp.default_tcp_header_length <= payload_size p ->
    payload_size p < 2 ^ 64 ->
    (Tcp.kernel_prepare_packet ip interface conn n w = (Value p, w') ->
     carries p conn) /\
    (get_socket w sock = Done s ->
     Socket.connection_data s = Some c ->
     get_connection w c = Done conn ->
     Tcp.user_prepare_packet ip buf sock (Tcp.mk_descriptor n) w
     = Done (Value p, w') ->
     carries p conn /\ Tcp.connected conn = true /\
     Tcp.header_flags (payload p) (tag2 p)
     = Tcp.set_flag_ack (Tcp.set_flag_psh Tcp.get_default_flags) /\
     Tcp.flag_data_offset (Tcp.header_flags (payload p) (tag2 p)) = 5).
Proof.
  intros L ip interface buf sock c n w w' s conn p.
  unfold Tcp.default_tcp_header_length. intros H0 H20 H64. split.
  - unfold Tcp.kernel_prepare_packet.
    destruct (ip_kernel_prepare_packet ip interface _ (lower w))
      as [[p0|e] l1]; [|discriminate].
    intros H. injection H as Ep _. subst p.
    set (q := Tcp.prepare_packet p0 (Tcp.local_port conn)
                (Tcp.server_port conn)) in *.
    assert (Hq : tag2 q = index p0 /\ length (payload q) = length (payload p0))
      by (unfold q, Tcp.prepare_packet; cbn [tag2 payload set_index
            set_payload set_tag2]; rewrite !store16_length; split; reflexivity).
    destruct Hq as [Tq Lq].
    unfold payload_size in *.
    cbn [tag2 payload Tcp.set_header_numbers set_payload] in H0, H20, H64.
    rewrite !store32_length in H20, H64.
    destruct (tcp_prepare_packet_header p0 (Tcp.local_port conn)
                (Tcp.server_port conn))
      as (T & I & _ & _ & Len & S & D & O);
      try (unfold payload_size; lia).
    fold q in T, I, Len, S, D, O.
    apply carries_numbers; unfold payload_size; rewrite ?T; try lia;
      assumption.
  - intros G CD GC. unfold Tcp.user_prepare_packet. rewrite G. cbn [obind].
    unfold Socket.get_connection_data. rewrite CD. cbn [obind].
    rewrite GC. cbn [obind].
    destruct (Tcp.connected conn) eqn:Hc; cbn [negb]; [|discriminate].
    destruct (ip_user_prepare_packet ip buf _ _ (lower w)) as [[p0|e] l1];
      [|discriminate].
    intros H. injection H as Ep _. subst p.
    set (flags := Tcp.set_flag_ack (Tcp.set_flag_psh Tcp.get_default_flags))
      in *.
    set (q := Tcp.prepare_packet p0 (Tcp.local_port conn)
                (Tcp.server_port conn)) in *.
    assert (Hq : tag2 q = index p0 /\ length (payload q) = length (payload p0))
      by (unfold q, Tcp.prepare_packet; cbn [tag2 payload set_index
            set_payload set_tag2]; rewrite !store16_length; split; reflexivity).
    destruct Hq as [Tq Lq].
    unfold payload_size in *.
    cbn [tag2 payload Tcp.set_header_numbers Tcp.set_header_flags set_payload]
      in H0, H20, H64.
    rewrite !store32_length, store16_length in H20, H64.
    destruct (tcp_prepare_packet_header p0 (Tcp.local_port conn)
                (Tcp.server_port conn))
      as (T & I & _ & _ & Len & S & D & O);
      try (unfold payload_size; lia).
    fold q in T, I, Len, S, D, O.
    destruct (tcp_set_header_flags_fields q flags)
      as (T2 & I2 & _ & _ & Len2 & F & O2);
      try (unfold payload_size; lia).
    set (q2 := Tcp.set_header_flags q flags) in *.
    destruct (tcp_set_header_numbers_fields q2 (Tcp.seq_number conn)
                (Tcp.ack_number conn))
      as (T3 & _ & _ & _ & _ & _ & _ & O3);
      try (unfold payload_size; lia).
    assert (Fl : Tcp.header_flags
                   (payload (Tcp.set_header_numbers q2 (Tcp.seq_number conn)
                                                    (Tcp.ack_number conn)))
                   (tag2 q2) = flags).
    { unfold Tcp.header_flags, Tcp.off_flags.
      rewrite (load16_ext _ (payload q2)) by (apply O3; lia).
      rewrite T2. exact F. }
    split; [|split; [reflexivity|]].
    + apply carries_numbers; unfold payload_size;
        rewrite ?T2, ?I2, ?T, ?Len2; try lia.
      * rewrite <- S. f_equal. apply load16_ext; apply O2; lia.
      * rewrite <- D. f_equal. apply load16_ext; apply O2; lia.
    + rewrite T3. rewrite Fl. split; reflexivity.
Qed.

Lemma tcp_prepared_header_carries_connection_witness :
  carries (value_or (fst kernel_prepared) sample_packet) established /\
  (carries (packet_of user_prepared) established /\
   Tcp.connected established = true /\
   Tcp.header_flags (payload (packet_of user_prepared))
                    (tag2 (packet_of user_prepared))
   = Tcp.set_flag_ack (Tcp.set_flag_psh Tcp.get_default_flags) /\
   Tcp.flag_data_offset
     (Tcp.header_flags (payload (packet_of user_prepared))
                       (tag2 (packet_of user_prepared))) = 5).
Proof.
  split.
  - apply (proj1 (tcp_prepared_header_carries_connection IpModel.lower
                    IpModel.layer IpModel.interface [] 0%nat 0%nat 0
                    (connected_world []) (snd kernel_prepared)
                    sample_socket established
                    (value_or (fst kernel_prepared) sample_packet)
                    ltac:(vm_compute; discriminate)
                    ltac:(vm_compute; discriminate)
                    ltac:(vm_compute; reflexivity))).
    vm_compute. reflexivity.
  - apply (proj2 (tcp_prepared_header_carries_connection IpModel.lower
                    IpModel.layer IpModel.interface (repeat x00 57) 0%nat
                    0%nat 3 (connected_world [])
                    (state_after user_prepared (connected_world []))
                    (Socket.set_connection_data stream_socket (Some 0%nat))
                    established (packet_of user_prepared)
                    ltac:(vm_compute; discriminate)
                    ltac:(vm_compute; discriminate)
                    ltac:(vm_compute; reflexivity))).
    + vm_compute. reflexivity.
    + reflexivity.
    + vm_compute. reflexivity.
    + vm_compute. reflexivity.
Defined.

(* ===================================================================== *)
(** ** TCP: the decoder *)
(* ===================================================================== *)

Section TcpDecode.
Variable L : Type.
Variable ip : ip_layer L.
Variable interface : interface_descriptor.

(** What the decoder leaves of a connection that a segment belongs to. *)
Lemma tcp_decode_known (pkt p' : packet) (w w' : Tcp.state L) (c : nat)
  (conn : Tcp.tcp_connection) :
  let pkt1 := set_tag2 pkt (index pkt) in
  let sp := switch_endian_16
              (load16 (payload pkt) (index pkt + Tcp.off_source_port)) in
  let tp := switch_endian_16
              (load16 (payload pkt) (index pkt + Tcp.off_target_port)) in
  let ns := Tcp.header_ack (payload pkt) (index pkt) in
  let na := wrap64 (Tcp.header_seq (payload pkt) (index pkt)
                    + Tcp.tcp_payload_len pkt1) in
  let conn1 := Tcp.set_numbers conn ns na in
  let conn2 := if Tcp.listening conn
               then Tcp.set_packets conn1 (Tcp.packets conn ++ [pkt1])
               else conn1 in
  ConnectionHandler.get_connection_for_packet (connections w) sp tp = Some c ->
  get_connection w c = Done conn ->
  Tcp.decode ip interface pkt w = Done (p', w') ->
  connections w' = connections (put_connection w c conn2).
Proof.
  cbv zeta. intros Hfor GC H. unfold Tcp.decode in H.
  cbn [payload index set_tag2] in H. rewrite Hfor, GC in H.
  cbn [obind] in H.
  apply obind_done in H. destruct H as [[pkt2 w1] [H1 H2]].
  assert (E1 : connections w1
               = connections
                   (put_connection w c
                      (if Tcp.listening conn
                       then Tcp.set_packets
                              (Tcp.set_numbers conn
                                 (Tcp.header_ack (payload pkt) (index pkt))
                                 (wrap64
                                    (Tcp.header_seq (payload pkt) (index pkt)
                                     + Tcp.tcp_payload_len
                                         (set_tag2 pkt (index pkt)))))
                              (Tcp.packets conn ++ [set_tag2 pkt (index pkt)])
                       else Tcp.set_numbers conn
                              (Tcp.header_ack (payload pkt) (index pkt))
                              (wrap64
                                 (Tcp.header_seq (payload pkt) (index pkt)
                                  + Tcp.tcp_payload_len
                                      (set_tag2 pkt (index pkt))))))).
  { clear H2. cbn [Tcp.listening Tcp.set_numbers] in H1.
    apply obind_done in H1. destruct H1 as [[connection2 wa] [Ha Hb]].
    assert (Ea : connections wa = connections w /\
                 connection2
                 = (if Tcp.listening conn
                    then Tcp.set_packets
                           (Tcp.set_numbers conn
                              (Tcp.header_ack (payload pkt) (index pkt))
                              (wrap64
                                 (Tcp.header_seq (payload pkt) (index pkt)
                                  + Tcp.tcp_payload_len
                                      (set_tag2 pkt (index pkt)))))
                           (Tcp.packets conn ++ [set_tag2 pkt (index pkt)])
                    else Tcp.set_numbers conn
                           (Tcp.header_ack (payload pkt) (index pkt))
                           (wrap64
                              (Tcp.header_seq (payload pkt) (index pkt)
                               + Tcp.tcp_payload_len
                                   (set_tag2 pkt (index pkt)))))).
    { destruct (Tcp.listening conn).
      - apply obind_done in Ha. destruct Ha as [q [Hq Ha]].
        unfold CircularBuffer.push in Hq.
        destruct (CircularBuffer.full _ _); [discriminate|].
        injection Hq as <-. rewrite clone_eq in Ha.
        injection Ha as <- <-. split; reflexivity.
      - injection Ha as <- <-. split; reflexivity. }
    destruct Ea as [Ea Ec]. rewrite <- Ec.
    assert (Eb : connections (put_connection wa c connection2)
                 = connections (put_connection w c connection2)).
    { unfold put_connection. cbn [connections set_connections].
      rewrite Ea. reflexivity. }
    rewrite <- Eb. clear Ha Ea Ec Eb.
    destruct (Tcp.socket connection2) as [sock|].
    - destruct (Tcp.flag_psh _).
      + apply obind_done in Hb. destruct Hb as [s [Hs Hb]].
        destruct (Socket.listen s).
        * apply obind_done in Hb. destruct Hb as [q [Hq Hb]].
          injection Hb as _ <-. reflexivity.
        * injection Hb as _ <-. reflexivity.
      + injection Hb as _ <-. reflexivity.
    - injection Hb as _ <-. reflexivity. }
  rewrite <- E1.
  destruct (Tcp.flag_psh _).
  - injection H2 as _ <-.
    apply (proj1 (acknowledge_trace L ip interface pkt2 _ _ _ _ w1)).
  - injection H2 as _ <-. reflexivity.
Qed.

End TcpDecode.

(** X19.  The stream decoder takes the numbers of a connection from every
    segment that carries its ports, whatever the flags of the segment:
    after [decode] the sequence number of the connection is the ack number
    of the segment and its ack number is the sequence number of the segment
    plus the length of its payload, in 32 bits; ports, address, socket and
    the connected mark are untouched. *)
Theorem tcp_decode_updates_numbers :
  forall (L : Type) (ip : ip_layer L) (interface : interface_descriptor)
         (pkt p' : packet) (w w' : Tcp.state L) (c : nat)
         (conn : Tcp.tcp_connection),
    ConnectionHandler.get_connection_for_packet (connections w)
      (switch_endian_16
         (load16 (payload pkt) (index pkt + Tcp.off_source_port)))
      (switch_endian_16
         (load16 (payload pkt) (index pkt + Tcp.off_target_port)))
    = Some c ->
    get_connection w c = Done conn ->
    Tcp.decode ip interface pkt w = Done (p', w') ->
    exists conn' : Tcp.tcp_connection,
      get_connection w' c = Done conn' /\
      Tcp.seq_number conn' = wrap32 (Tcp.header_ack (payload pkt) (index pkt)) /\
      Tcp.ack_number conn'
      = wrap32 (wrap64 (Tcp.header_seq (payload pkt) (index pkt)
                        + Tcp.tcp_payload_len (set_tag2 pkt (index pkt)))) /\
      same_links conn conn'.
Proof.
  intros L ip interface pkt p' w w' c conn Hfor GC H.
  pose proof (tcp_decode_known L ip interface pkt p' w w' c conn Hfor GC H)
    as E. cbv zeta in E.
  eexists. split.
  - rewrite (get_connection_same_connections L _ _ c E).
    apply (get_put_connection L w c conn). exact GC.
  - destruct (Tcp.listening conn); cbn; repeat split; reflexivity.
Qed.

Lemma tcp_decode_updates_numbers_witness :
  exists conn' : Tcp.tcp_connection,
    get_connection
      (state_after (Tcp.decode IpModel.layer IpModel.interface rst_frame
                      (connected_world []))
                   (connected_world [])) 0%nat
    = Done conn' /\
    Tcp.seq_number conn'
    = wrap32 (Tcp.header_ack (payload rst_frame) (index rst_frame)) /\
    Tcp.ack_number conn'
    = wrap32 (wrap64 (Tcp.header_seq (payload rst_frame) (index rst_frame)
                      + Tcp.tcp_payload_len
                          (set_tag2 rst_frame (index rst_frame)))) /\
    same_links established conn'.
Proof.
  apply (tcp_decode_updates_numbers IpModel.lower IpModel.layer
           IpModel.interface rst_frame
           (set_index (set_tag2 rst_frame 34) 34)
           (connected_world [])
           (state_after (Tcp.decode IpModel.layer IpModel.interface rst_frame
                           (connected_world []))
                        (connected_world []))
           0%nat established).
  - vm_compute. reflexivity.
  - vm_compute. reflexivity.
  - vm_compute. reflexivity.
Defined.

(** X20.  The stream decoder keeps the tables in shape.  Whatever segment
    it handles, it creates and removes no connection and no socket,
    changes no port, address, connected mark or link between a socket and
    a connection, leaves the port counter alone, and neither waits nor
    reads the clock. *)
Theorem tcp_decode_keeps_tables :
  forall (L : Type) (ip : ip_layer L) (interface : interface_descriptor)
         (pkt p' : packet) (w w' : Tcp.state L),
    Tcp.decode ip interface pkt w = Done (p', w') ->
    stable w w' /\ script w' = script w /\ clock w' = clock w.
Proof.
  intros L ip interface pkt p' w w' H.
  apply (decode_stable L ip interface pkt w p' w' H).
Qed.

Lemma tcp_decode_keeps_tables_witness :
  let w := connected_world [Timeout] in
  let w' := state_after (Tcp.decode IpModel.layer IpModel.interface rst_frame w)
                        w in
  stable w w' /\ script w' = script w /\ clock w' = clock w.
Proof.
  apply (tcp_decode_keeps_tables IpModel.lower IpModel.layer IpModel.interface
           rst_frame (set_tag2 rst_frame 34)
           (connected_world [Timeout])
           (state_after (Tcp.decode IpModel.layer IpModel.interface rst_frame
                           (connected_world [Timeout]))
                        (connected_world [Timeout]))).
  vm_compute. reflexivity.
Defined.

(* ===================================================================== *)
(** ** TCP: receive *)
(* ===================================================================== *)

Lemma notified_socket_first (sock : nat) (evs : list net_event) :
  notified_socket sock (NotifySocket sock :: evs) = true.
Proof. simpl. rewrite Nat.eqb_refl. reflexivity. Qed.

Lemma tcp_receive_packet_head (L : Type) (buf : buffer) (sock : nat) (n : Z)
  (w : Tcp.state L) (s : Socket.socket) (pkt : packet) (q : list packet) :
  get_socket w sock = Done s ->
  Socket.listen_packets s = pkt :: q ->
  let len := Tcp.tcp_payload_len pkt in
  let w1 := emit (put_socket w sock (Socket.set_listen_packets s q))
                 [Delete (payload pkt)] in
  Tcp.receive_packet buf sock n w
  = if n <? len then Done (Unexpected ERROR_BUFFER_SMALL, buf, w1)
    else Done (Value len,
               write_bytes buf 0
                 (read_bytes (payload pkt) (index pkt) (Z.to_nat len)),
               w1).
Proof.
  intros G Q. unfold Tcp.receive_packet. rewrite G. cbn [obind].
  rewrite Q. cbn [CircularBuffer.pop obind]. reflexivity.
Qed.

Section TcpReceive.
Variable L : Type.
Variable ip : ip_layer L.
Variable interface : interface_descriptor.

(** A segment with PSH for a connection whose socket listens, while no
    send waits on the connection: the numbers are taken over, the segment
    goes to the back of the listen queue with the cursor on its data, and
    an acknowledgement is attempted. *)
Lemma tcp_decode_push (pkt : packet) (w : Tcp.state L) (sock c : nat)
  (s : Socket.socket) (conn : Tcp.tcp_connection) :
  let h := index pkt in
  let pkt1 := set_tag2 pkt h in
  let sp := switch_endian_16 (load16 (payload pkt) (h + Tcp.off_source_port)) in
  let tp := switch_endian_16 (load16 (payload pkt) (h + Tcp.off_target_port)) in
  let flags := Tcp.header_flags (payload pkt) h in
  let ns := Tcp.header_ack (payload pkt) h in
  let na := wrap64 (Tcp.header_seq (payload pkt) h + Tcp.tcp_payload_len pkt1) in
  let pkt2 := set_index pkt1 (wrap64 (h + Tcp.flag_data_offset flags * 4)) in
  ConnectionHandler.get_connection_for_packet (connections w) sp tp = Some c ->
  get_connection w c = Done conn ->
  Tcp.listening conn = false ->
  Tcp.socket conn = Some sock ->
  Tcp.flag_psh flags = true ->
  get_socket w sock = Done s ->
  Socket.listen s = true ->
  (length (Socket.listen_packets s) < Socket.listen_capacity)%nat ->
  Tcp.decode ip interface pkt w
  = Done (pkt2,
          Tcp.acknowledge ip interface pkt2 sp tp ns na
            (emit (put_socket (put_connection w c (Tcp.set_numbers conn ns na))
                     sock
                     (Socket.set_listen_packets s
                        (Socket.listen_packets s ++ [pkt2])))
                  [NotifySocket sock])).
Proof.
  cbv zeta. intros Hfor GC Li So Psh G Ls Cap. unfold Tcp.decode.
  cbn [payload index set_tag2]. rewrite Hfor, GC. cbn [obind].
  cbn [Tcp.listening Tcp.set_numbers]. rewrite Li. cbn [obind].
  cbn [Tcp.socket Tcp.set_numbers]. rewrite So, Psh.
  change (get_socket (put_connection w c ?v) sock) with (get_socket w sock).
  rewrite G. cbn [obind]. rewrite Ls.
  unfold CircularBuffer.push, CircularBuffer.full.
  replace (Socket.listen_capacity <=? length (Socket.listen_packets s))%nat
    with false by (symmetry; apply Nat.leb_gt; exact Cap).
  rewrite clone_eq. cbn [obind]. reflexivity.
Qed.

Lemma tcp_receive_arrival (buf : buffer) (sock c : nat) (n : Z)
  (w : Tcp.state L) (s : Socket.socket) (conn : Tcp.tcp_connection)
  (pkt : packet) (rest : list env_event) :
  let h := index pkt in
  let sp := switch_endian_16 (load16 (payload pkt) (h + Tcp.off_source_port)) in
  let tp := switch_endian_16 (load16 (payload pkt) (h + Tcp.off_target_port)) in
  let flags := Tcp.header_flags (payload pkt) h in
  let pkt2 := set_index (set_tag2 pkt h)
                        (wrap64 (h + Tcp.flag_data_offset flags * 4)) in
  let len := Tcp.tcp_payload_len pkt2 in
  let data := read_bytes (payload pkt) (index pkt2) (Z.to_nat len) in
  get_socket w sock = Done s ->
  Socket.connection_data s = Some c ->
  get_connection w c = Done conn ->
  Tcp.connected conn = true ->
  Tcp.socket conn = Some sock ->
  Tcp.listening conn = false ->
  Socket.listen s = true ->
  Socket.listen_packets s = [] ->
  script w = Arrival pkt :: rest ->
  ConnectionHandler.get_connection_for_packet (connections w) sp tp = Some c ->
  Tcp.flag_psh flags = true ->
  exists w' : Tcp.state L,
    Tcp.receive ip interface buf sock n w
    = Done (if n <? len then (Unexpected ERROR_BUFFER_SMALL, buf)
            else (Value len, write_bytes buf 0 data), w') /\
    script w' = rest /\ get_socket w' sock = Done s /\
    get_connection w' c
    = Done (Tcp.set_numbers conn (Tcp.header_ack (payload pkt) h)
              (wrap64 (Tcp.header_seq (payload pkt) h + len))).
Proof.
  cbv zeta. intros G CD GC Hc So Li Ls Q Sc Hfor Psh.
  set (h := index pkt). set (flags := Tcp.header_flags (payload pkt) h).
  set (pkt2 := set_index (set_tag2 pkt h)
                         (wrap64 (h + Tcp.flag_data_offset flags * 4))).
  set (ns := Tcp.header_ack (payload pkt) h).
  set (na := wrap64 (Tcp.header_seq (payload pkt) h
                     + Tcp.tcp_payload_len (set_tag2 pkt h))).
  set (s1 := Socket.set_listen_packets s (Socket.listen_packets s ++ [pkt2])).
  set (w0 := emit (put_socket (put_connection (set_script w rest) c
                                 (Tcp.set_numbers conn ns na)) sock s1)
                  [NotifySocket sock]).
  set (w1 := Tcp.acknowledge ip interface pkt2
               (switch_endian_16 (load16 (payload pkt) (h + Tcp.off_source_port)))
               (switch_endian_16 (load16 (payload pkt) (h + Tcp.off_target_port)))
               ns na w0).
  assert (D : Tcp.decode ip interface pkt (set_script w rest) = Done (pkt2, w1)).
  { apply (tcp_decode_push pkt (set_script w rest) sock c s conn);
      try assumption.
    rewrite Q. unfold Socket.listen_capacity. cbn [length]. lia. }
  destruct (acknowledge_trace L ip interface pkt2
              (switch_endian_16 (load16 (payload pkt) (h + Tcp.off_source_port)))
              (switch_endian_16 (load16 (payload pkt) (h + Tcp.off_target_port)))
              ns na w0) as (AC & AS & _ & ASc & _ & evs & AT & _).
  fold w1 in AC, AS, ASc, AT.
  assert (Look : lookup sock (sockets w) = Some s).
  { unfold get_socket in G. destruct (lookup sock (sockets w));
      [injection G as ->; reflexivity | discriminate]. }
  assert (G1 : get_socket w1 sock = Done s1).
  { unfold get_socket. rewrite AS. unfold w0.
    cbn [sockets emit put_socket put_connection set_sockets set_connections
         set_script].
    rewrite (lookup_update_same sock s1 s (sockets w) Look). reflexivity. }
  assert (Q1 : Socket.listen_packets s1 = pkt2 :: []).
  { unfold s1. cbn [Socket.listen_packets Socket.set_listen_packets].
    rewrite Q. reflexivity. }
  assert (Len : Tcp.tcp_payload_len pkt2 = Tcp.tcp_payload_len (set_tag2 pkt h))
    by reflexivity.
  pose proof (tcp_receive_packet_head L buf sock n w1 s1 pkt2 [] G1 Q1) as R.
  cbv zeta in R.
  eexists. split.
  - unfold Tcp.receive. rewrite G. cbn [obind].
    unfold Socket.get_connection_data. rewrite CD. cbn [obind].
    rewrite GC. cbn [obind]. rewrite Hc. cbn [negb].
    rewrite Q. cbn [CircularBuffer.empty].
    unfold Tcp.wait. rewrite Sc. cbn [Tcp.wait_loop].
    rewrite D. cbn [obind].
    replace (notified_socket sock (skipn (length (trace w)) (trace w1)))
      with true.
    2:{ rewrite AT. unfold w0.
        cbn [trace emit put_socket put_connection set_sockets set_connections
             set_script].
        rewrite <- app_assoc, skipn_length_app. cbn [app].
        symmetry. apply notified_socket_first. }
    cbn [obind]. rewrite R.
    change (payload pkt2) with (payload pkt).
    destruct (n <? Tcp.tcp_payload_len pkt2); reflexivity.
  - cbn [script emit put_socket set_sockets].
    split; [rewrite ASc; reflexivity|]. split.
    + unfold get_socket. cbn [sockets emit put_socket set_sockets].
      rewrite AS. unfold w0.
      cbn [sockets emit put_socket put_connection set_sockets set_connections
           set_script].
      rewrite (lookup_update_same sock _ s1 (update sock s1 (sockets w))).
      * f_equal. unfold s1. destruct s. cbn in Q |- *. subst. reflexivity.
      * apply (lookup_update_same sock s1 s (sockets w) Look).
    + rewrite Len. fold na.
      unfold get_connection.
      cbn [connections emit put_socket set_sockets]. rewrite AC. unfold w0.
      cbn [connections emit put_socket put_connection set_sockets
           set_connections set_script ConnectionHandler.entries].
      unfold get_connection in GC.
      destruct (lookup c (ConnectionHandler.entries (connections w)))
        as [x|] eqn:E; [|discriminate].
      rewrite (lookup_update_same c _ x _ E). reflexivity.
Qed.

End TcpReceive.

(** X21.  A blocking stream [receive] on a connected, listening socket
    with an empty queue waits for data: when the next arrival is a segment
    with PSH that carries the ports of the connection (and no send waits
    on the connection), the decoder takes over its numbers, queues it with
    the cursor on its data and wakes the caller, and [receive] answers
    from that segment.  It compares the caller's size with the payload
    length (total length of the datagram less the two headers) and either
    fails with BUFFER_SMALL or returns that length and copies as many
    bytes from behind the stream header; the queue is empty again. *)
Theorem tcp_receive_waits_for_push :
  forall (L : Type) (ip : ip_layer L) (interface : interface_descriptor)
         (buf : buffer) (sock c : nat) (n : Z) (w : Tcp.state L)
         (s : Socket.socket) (conn : Tcp.tcp_connection) (pkt : packet)
         (rest : list env_event),
    let h := index pkt in
    let sp := switch_endian_16
                (load16 (payload pkt) (h + Tcp.off_source_port)) in
    let tp := switch_endian_16
                (load16 (payload pkt) (h + Tcp.off_target_port)) in
    let flags := Tcp.header_flags (payload pkt) h in
    let pkt2 := set_index (set_tag2 pkt h)
                          (wrap64 (h + Tcp.flag_data_offset flags * 4)) in
    let len := Tcp.tcp_payload_len pkt2 in
    let data := read_bytes (payload pkt) (index pkt2) (Z.to_nat len) in
    get_socket w sock = Done s ->
    Socket.connection_data s = Some c ->
    get_connection w c = Done conn ->
    Tcp.connected conn = true ->
    Tcp.socket conn = Some sock ->
    Tcp.listening conn = false ->
    Socket.listen s = true ->
    Socket.listen_packets s = [] ->
    script w = Arrival pkt :: rest ->
    ConnectionHandler.get_connection_for_packet (connections w) sp tp
    = Some c ->
    Tcp.flag_psh flags = true ->
    exists w' : Tcp.state L,
      Tcp.receive ip interface buf sock n w
      = Done (if n <? len then (Unexpected ERROR_BUFFER_SMALL, buf)
              else (Value len, write_bytes buf 0 data), w') /\
      script w' = rest /\ get_socket w' sock = Done s /\
      get_connection w' c
      = Done (Tcp.set_numbers conn (Tcp.header_ack (payload pkt) h)
                (wrap64 (Tcp.header_seq (payload pkt) h + len))).
Proof.
  intros L ip interface buf sock c n w s conn pkt rest.
  apply (tcp_receive_arrival L ip interface buf sock c n w s conn pkt rest).
Qed.

Lemma tcp_receive_waits_for_push_witness :
  exists w' : Tcp.state IpModel.lower,
    Tcp.receive IpModel.layer IpModel.interface (repeat x00 4) 0 4
                (listening_world [Arrival push_frame; Timeout])
    = Done (if 4 <? 2 then (Unexpected ERROR_BUFFER_SMALL, repeat x00 4)
            else (Value 2, write_bytes (repeat x00 4) 0 [x68; x69]), w') /\
    script w' = [Timeout] /\
    get_socket w' 0 = Done listening_socket /\
    get_connection w' 0%nat = Done (Tcp.set_numbers established 1 1003).
Proof.
  apply (tcp_receive_waits_for_push IpModel.lower IpModel.layer
           IpModel.interface (repeat x00 4) 0%nat 0%nat 4
           (listening_world [Arrival push_frame; Timeout])
           listening_socket established push_frame [Timeout]).
  - vm_compute. reflexivity.
  - reflexivity.
  - vm_compute. reflexivity.
  - reflexivity.
  - reflexivity.
  - reflexivity.
  - reflexivity.
  - reflexivity.
  - vm_compute. reflexivity.
  - vm_compute. reflexivity.
  - vm_compute. reflexivity.
Defined.

(** X22.  The stream calls do not wait when they need not.  On a
    connection not marked connected, [send], [user_prepare_packet] and both
    [receive]s fail with NOT_CONNECTED and leave everything as it was; on a
    connected socket with an empty queue, a timed [receive] with 0
    milliseconds fails with SOCKET_TIMEOUT at once, and with another delay
    it fails so when the time runs out first. *)
Theorem tcp_calls_fail_without_waiting :
  forall (L : Type) (ip : ip_layer L) (interface : interface_descriptor)
         (tb buf : buffer) (data : list byte) (sock c : nat) (n ms : Z)
         (w : Tcp.state L) (s : Socket.socket) (conn : Tcp.tcp_connection),
    get_socket w sock = Done s ->
    Socket.connection_data s = Some c ->
    get_connection w c = Done conn ->
    (Tcp.connected conn = false ->
     Tcp.send ip tb sock data n w
     = Done (Unexpected ERROR_SOCKET_NOT_CONNECTED, w) /\
     Tcp.user_prepare_packet ip tb sock (Tcp.mk_descriptor n) w
     = Done (Unexpected ERROR_SOCKET_NOT_CONNECTED, w) /\
     Tcp.receive ip interface buf sock n w
     = Done (Unexpected ERROR_SOCKET_NOT_CONNECTED, buf, w) /\
     Tcp.receive_timed ip interface buf sock n ms w
     = Done (Unexpected ERROR_SOCKET_NOT_CONNECTED, buf, w)) /\
    (Tcp.connected conn = true -> Socket.listen_packets s = [] ->
     Tcp.receive_timed ip interface buf sock n 0 w
     = Done (Unexpected ERROR_SOCKET_TIMEOUT, buf, w) /\
     (ms <> 0 -> forall rest, script w = Timeout :: rest ->
      Tcp.receive_timed ip interface buf sock n ms w
      = Done (Unexpected ERROR_SOCKET_TIMEOUT, buf, set_script w rest))).
Proof.
  intros L ip interface tb buf data sock c n ms w s conn G CD GC.
  split.
  - intros Hc.
    unfold Tcp.send, Tcp.user_prepare_packet, Tcp.receive, Tcp.receive_timed.
    rewrite G. cbn [obind].
    unfold Socket.get_connection_data. rewrite CD. cbn [obind].
    rewrite GC. cbn [obind]. rewrite Hc. cbn [negb].
    repeat split.
  - intros Hc Q. unfold Tcp.receive_timed. rewrite G. cbn [obind].
    unfold Socket.get_connection_data. rewrite CD. cbn [obind].
    rewrite GC. cbn [obind]. rewrite Hc, Q.
    cbn [negb CircularBuffer.empty]. split; [reflexivity|].
    intros Hms rest Sc.
    replace (ms =? 0) with false by (symmetry; apply Z.eqb_neq; exact Hms).
    unfold Tcp.wait_for. rewrite Sc. reflexivity.
Qed.

Lemma tcp_calls_fail_without_waiting_witness :
  let w := listening_world [Timeout] in
  (Tcp.connected established = false ->
   Tcp.send IpModel.layer [] 0 [x68; x69] 2 w
   = Done (Unexpected ERROR_SOCKET_NOT_CONNECTED, w) /\
   Tcp.user_prepare_packet IpModel.layer [] 0 (Tcp.mk_descriptor 2) w
   = Done (Unexpected ERROR_SOCKET_NOT_CONNECTED, w) /\
   Tcp.receive IpModel.layer IpModel.interface [] 0 2 w
   = Done (Unexpected ERROR_SOCKET_NOT_CONNECTED, [], w) /\
   Tcp.receive_timed IpModel.layer IpModel.interface [] 0 2 10 w
   = Done (Unexpected ERROR_SOCKET_NOT_CONNECTED, [], w)) /\
  (Tcp.connected established = true ->
   Socket.listen_packets listening_socket = [] ->
   Tcp.receive_timed IpModel.layer IpModel.interface [] 0 2 0 w
   = Done (Unexpected ERROR_SOCKET_TIMEOUT, [], w) /\
   (10 <> 0 -> forall rest, script w = Timeout :: rest ->
    Tcp.receive_timed IpModel.layer IpModel.interface [] 0 2 10 w
    = Done (Unexpected ERROR_SOCKET_TIMEOUT, [], set_script w rest))).
Proof.
  apply (tcp_calls_fail_without_waiting IpModel.lower IpModel.layer
           IpModel.interface [] [] [x68; x69] 0%nat 0%nat 2 10
           (listening_world [Timeout]) listening_socket established).
  - vm_compute. reflexivity.
  - reflexivity.
  - vm_compute. reflexivity.
Defined.

(** X23.  A [connect] that returns a port has set everything up: the port
    is the one assigned, the port counter plus one; the new record holds
    it together with the server port and address asked for, is marked
    connected and points to the socket, and the socket points to the
    record. *)
Theorem tcp_connect_success_links :
  forall (L : Type) (ip : ip_layer L) (sock : nat)
         (interface : interface_descriptor) (port server v : Z)
         (w w' : Tcp.state L),
    handles_fresh w ->
    Tcp.connect ip sock interface port server w = Done (Value v, w') ->
    let c := ConnectionHandler.next_handle (connections w) in
    v = wrap64 (local_port_counter w + 1) /\
    local_port_counter w' = v /\
    exists (conn : Tcp.tcp_connection) (s' : Socket.socket),
      get_connection w' c = Done conn /\
      Tcp.connected conn = true /\
      Tcp.local_port conn = v /\
      Tcp.server_port conn = port /\
      Tcp.server_address conn = server /\
      Tcp.socket conn = Some sock /\
      get_socket w' sock = Done s' /\
      Socket.connection_data s' = Some c.
Proof.
  intros L ip sock interface port server v w w' F H. cbv zeta.
  destruct (tcp_connect_done_socket L ip sock interface port server w _ H)
    as [s G].
  destruct (connect_spec L ip sock interface port server w (Value v) w' s G
              (handles_fresh_lookup w F) H)
    as (P & _ & _ & conn & s' & GC & LP & SP & SA & SO & GS & CD & [V C]).
  subst v. split; [reflexivity|]. split; [exact P|].
  exists conn, s'. repeat split; assumption.
Qed.

Lemma tcp_connect_success_links_witness :
  let w := tcp_start [Arrival syn_ack_frame] in
  let w' := connected_world [] in
  1024 = wrap64 (local_port_counter w + 1) /\
  local_port_counter w' = 1024 /\
  exists (conn : Tcp.tcp_connection) (s' : Socket.socket),
    get_connection w' 0%nat = Done conn /\
    Tcp.connected conn = true /\
    Tcp.local_port conn = 1024 /\
    Tcp.server_port conn = 80 /\
    Tcp.server_address conn = 0x0A000002 /\
    Tcp.socket conn = Some 0%nat /\
    get_socket w' 0 = Done s' /\
    Socket.connection_data s' = Some 0%nat.
Proof.
  apply (tcp_connect_success_links IpModel.lower IpModel.layer 0%nat
           IpModel.interface 80 0x0A000002 1024
           (tcp_start [Arrival syn_ack_frame]) (connected_world [])).
  - unfold handles_fresh. vm_compute. constructor.
  - vm_compute. reflexivity.
Defined.

(* ===================================================================== *)
(** ** TCP: the end of the retry loop *)
(* ===================================================================== *)

Section TcpGiveUp.
Variable L : Type.
Variable ip : ip_layer L.
Variable interface : interface_descriptor.
Variable good : L -> Prop.
Hypothesis Acc : accepting ip interface good.

Lemma attempt_silent_accepting accept c p (w : Tcp.state L) :
  good (lower w) -> silent (script w) ->
  exists sent p1 w',
    Tcp.attempt ip accept interface c p w = Done (inr None, sent, p1, w') /\
    connections w' = connections w /\ sockets w' = sockets w /\
    good (lower w') /\ silent (script w').
Proof.
  intros Gd S. unfold Tcp.attempt.
  destruct (Acc (if user p then p else clone p) (lower w) Gd) as [Av Ag].
  destruct (ip_finalize_packet ip interface _ (lower w))
    as [[result sent1] l1].
  cbn [fst snd] in Av, Ag. subst result.
  cbn [milliseconds]. cbv zeta.
  destruct (Tcp.expired _ _).
  - do 3 eexists. split; [reflexivity|]. cbn. repeat split; assumption.
  - rewrite await_silent by exact S. cbn [obind].
    do 3 eexists. split; [reflexivity|]. cbn.
    split; [reflexivity|]. split; [reflexivity|].
    split; [exact Ag | apply silent_tl; exact S].
Qed.

Lemma attempts_silent_accepting accept c (tries : nat) :
  forall p (w : Tcp.state L),
    good (lower w) -> silent (script w) ->
    exists frames p' w',
      Tcp.attempts ip tries accept interface c p w
      = Done (inr None, frames, p', w') /\
      length frames = tries /\
      connections w' = connections w /\ sockets w' = sockets w.
Proof.
  induction tries as [|k IH]; intros p w Gd S.
  - do 3 eexists. split; [reflexivity|]. repeat split; reflexivity.
  - cbn [Tcp.attempts].
    destruct (attempt_silent_accepting accept c p w Gd S)
      as (sent & p1 & w1 & E & C1 & S1 & G1 & Si).
    rewrite E. cbn [obind].
    change (milliseconds w1) with (wrap64 (hd 0 (clock w1)),
                                    set_clock w1 (tl (clock w1))).
    cbv iota beta.
    destruct (IH p1 (set_clock w1 (tl (clock w1))) G1 Si)
      as (frames & p2 & w2 & E2 & Len & C2 & S2).
    rewrite E2. cbn [obind].
    do 3 eexists. split; [reflexivity|]. cbn [length].
    split; [rewrite Len; reflexivity|].
    split; [rewrite C2; exact C1 | rewrite S2; exact S1].
Qed.

Lemma finalize_gives_up sock p (w : Tcp.state L) c conn :
  Tcp.connection_of sock w = Done c ->
  get_connection w c = Done conn ->
  good (lower w) -> silent (script w) ->
  exists frames w',
    Tcp.finalize_packet_frames ip interface sock p w
    = Done (Unexpected ERROR_SOCKET_TCP_ERROR, frames, w') /\
    length frames = Tcp.max_tries /\
    get_connection w' c = Done (Tcp.set_listening conn false) /\
    sockets w' = sockets w.
Proof.
  intros C G Gd S. unfold Tcp.finalize_packet_frames.
  rewrite C. cbn [obind]. rewrite G. cbn [obind].
  set (w1 := put_connection w c (Tcp.set_listening conn true)).
  set (accept := Tcp.correct_ack (Tcp.header_flags (payload p) (tag2 p))).
  destruct (attempts_silent_accepting accept c Tcp.max_tries
              (Tcp.rewind_and_checksum p) w1 Gd S)
    as (frames & p2 & w2 & E & Len & C2 & S2).
  rewrite E. cbn [obind].
  assert (G1 : get_connection w1 c = Done (Tcp.set_listening conn true))
    by (apply (get_put_connection L w c conn); exact G).
  assert (G2 : get_connection w2 c = Done (Tcp.set_listening conn true)).
  { rewrite <- G1. apply get_connection_same_connections. exact C2. }
  destruct (user p2).
  - do 2 eexists. split; [rewrite G2; cbn [obind]; reflexivity|].
    split; [exact Len|]. split.
    + apply (get_put_connection L _ c _ _ G2).
    + exact S2.
  - assert (G3 : get_connection (emit w2 [Delete (payload p2)]) c
                 = Done (Tcp.set_listening conn true)) by exact G2.
    do 2 eexists. split; [rewrite G3; cbn [obind]; reflexivity|].
    split; [exact Len|]. split.
    + apply (get_put_connection L _ c _ _ G3).
    + exact S2.
Qed.

Lemma finalize_refused sock p (w : Tcp.state L) c conn e p3 l1 :
  Tcp.connection_of sock w = Done c ->
  get_connection w c = Done conn ->
  ip_finalize_packet ip interface (Tcp.rewind_and_checksum p) (lower w)
  = (Unexpected e, p3, l1) ->
  exists w',
    Tcp.finalize_packet_frames ip interface sock p w
    = Done (Unexpected e, [Tcp.rewind_and_checksum p], w') /\
    get_connection w' c = Done (Tcp.set_listening conn true) /\
    sockets w' = sockets w /\ script w' = script w /\ clock w' = clock w.
Proof.
  intros C G F. unfold Tcp.finalize_packet_frames.
  rewrite C. cbn [obind]. rewrite G. cbn [obind].
  change Tcp.max_tries with (S 4). cbn [Tcp.attempts]. unfold Tcp.attempt.
  replace (if user (Tcp.rewind_and_checksum p)
           then Tcp.rewind_and_checksum p
           else clone (Tcp.rewind_and_checksum p))
    with (Tcp.rewind_and_checksum p)
    by (rewrite clone_eq; destruct (user _); reflexivity).
  cbn [lower put_connection set_connections]. rewrite F. cbn [obind].
  eexists. split; [reflexivity|].
  split; [|repeat split].
  rewrite <- (get_put_connection L w c conn (Tcp.set_listening conn true) G).
  apply get_connection_same_connections. reflexivity.
Qed.

End TcpGiveUp.

(** X24.  [finalize_packet] gives up after [max_tries] transmissions.
    When nothing arrives and the internet layer takes every frame, it
    hands over exactly [max_tries] frames, fails with TCP_ERROR, and leaves
    the connection as it was, its listening mark cleared; the sockets are
    untouched. *)
Theorem tcp_finalize_gives_up_after_max_tries :
  forall (L : Type) (ip : ip_layer L) (interface : interface_descriptor)
         (good : L -> Prop) (sock : nat) (p : packet) (w : Tcp.state L)
         (c : nat) (conn : Tcp.tcp_connection),
    accepting ip interface good ->
    Tcp.connection_of sock w = Done c ->
    get_connection w c = Done conn ->
    good (lower w) -> silent (script w) ->
    exists (frames : list packet) (w' : Tcp.state L),
      Tcp.finalize_packet_frames ip interface sock p w
      = Done (Unexpected ERROR_SOCKET_TCP_ERROR, frames, w') /\
      length frames = Tcp.max_tries /\
      get_connection w' c = Done (Tcp.set_listening conn false) /\
      sockets w' = sockets w.
Proof.
  intros L ip interface good sock p w c conn A C G Gd S.
  apply (finalize_gives_up L ip interface good A sock p w c conn C G Gd S).
Qed.

Lemma tcp_finalize_gives_up_after_max_tries_witness :
  exists (frames : list packet) (w' : Tcp.state IpModel.lower),
    Tcp.finalize_packet_frames IpModel.layer IpModel.interface 0
      fin_ack_packet (connected_world [Timeout; Timeout])
    = Done (Unexpected ERROR_SOCKET_TCP_ERROR, frames, w') /\
    length frames = Tcp.max_tries /\
    get_connection w' 0%nat = Done (Tcp.set_listening established false) /\
    sockets w' = sockets (connected_world [Timeout; Timeout]).
Proof.
  apply (tcp_finalize_gives_up_after_max_tries IpModel.lower IpModel.layer
           IpModel.interface
           (fun l => IpModel.finalize_script l = [])
           0%nat fin_ack_packet (connected_world [Timeout; Timeout])
           0%nat established).
  - intros q l Hl. unfold IpModel.layer, IpModel.finalize_packet.
    cbn [ip_finalize_packet]. rewrite Hl. cbn. split; reflexivity.
  - vm_compute. reflexivity.
  - vm_compute. reflexivity.
  - vm_compute. reflexivity.
  - vm_compute. repeat constructor.
Defined.

(** X25.  When the internet layer refuses the frame, [finalize_packet]
    returns its error after that single transmission, without waiting or
    reading the clock, and returns before it clears the listening mark:
    the connection is left listening. *)
Theorem tcp_finalize_refused_frame :
  forall (L : Type) (ip : ip_layer L) (interface : interface_descriptor)
         (sock : nat) (p p3 : packet) (w : Tcp.state L) (c : nat)
         (conn : Tcp.tcp_connection) (e : error_code) (l1 : L),
    Tcp.connection_of sock w = Done c ->
    get_connection w c = Done conn ->
    ip_finalize_packet ip interface (Tcp.rewind_and_checksum p) (lower w)
    = (Unexpected e, p3, l1) ->
    exists w' : Tcp.state L,
      Tcp.finalize_packet_frames ip interface sock p w
      = Done (Unexpected e, [Tcp.rewind_and_checksum p], w') /\
      get_connection w' c = Done (Tcp.set_listening conn true) /\
      sockets w' = sockets w /\ script w' = script w /\ clock w' = clock w.
Proof.
  intros L ip interface sock p p3 w c conn e l1 C G F.
  apply (finalize_refused L ip interface sock p w c conn e p3 l1 C G F).
Qed.

Lemma tcp_finalize_refused_frame_witness :
  exists w' : Tcp.state IpModel.lower,
    Tcp.finalize_packet_frames IpModel.layer IpModel.interface 0
      fin_ack_packet refusing_world
    = Done (Unexpected IpModel.no_route,
            [Tcp.rewind_and_checksum fin_ack_packet], w') /\
    get_connection w' 0%nat = Done (Tcp.set_listening established true) /\
    sockets w' = sockets refusing_world /\
    script w' = script refusing_world /\ clock w' = clock refusing_world.
Proof.
  apply (tcp_finalize_refused_frame IpModel.lower IpModel.layer
           IpModel.interface 0%nat fin_ack_packet
           (snd (fst (IpModel.finalize_packet IpModel.interface
                        (Tcp.rewind_and_checksum fin_ack_packet)
                        (lower refusing_world))))
           refusing_world 0%nat established IpModel.no_route
           (IpModel.mk_lower [] [] 8)).
  - vm_compute. reflexivity.
  - vm_compute. reflexivity.
  - vm_compute. reflexivity.
Defined.

(* ===================================================================== *)
(** ** TCP: disconnect *)
(* ===================================================================== *)

Section TcpDisconnect.
Variable L : Type.
Variable ip : ip_layer L.
Implicit Types w : Tcp.state L.

Lemma fin_attempt_stable interface c p w r w' :
  Tcp.fin_attempt ip interface c p w = Done (r, w') ->
  stable w w' /\ r <> inl (Value tt).
Proof.
  unfold Tcp.fin_attempt.
  destruct (Tcp.finalize_packet_direct ip interface (clone p) w)
    as [[result p2] w1] eqn:F.
  apply finalize_packet_direct_stable in F. destruct F as [F1 _].
  destruct result as [u|e].
  - cbn [milliseconds]. cbv zeta.
    destruct (Tcp.expired _ _).
    + intros H. injection H as <- <-. split; [|discriminate].
      apply (stable_trans L w w1 _ F1). apply stable_same; reflexivity.
    + intros H. apply obind_done in H. destruct H as [[got w3] [A H]].
      injection H as <- <-. split; [|discriminate].
      apply await_spec in A. destruct A as [A _].
      apply (stable_trans L w w1 _ F1).
      refine (stable_trans L w1 _ w3 _ A). apply stable_same; reflexivity.
  - intros H. injection H as <- <-. split; [|discriminate].
    apply (stable_trans L w w1 _ F1). apply stable_same; reflexivity.
Qed.

Lemma fin_attempts_stable interface c (tries : nat) :
  forall p w r w',
    Tcp.fin_attempts ip tries interface c p w = Done (r, w') ->
    stable w w' /\ r <> inl (Value tt).
Proof.
  induction tries as [|k IH]; intros p w r w' H; cbn [Tcp.fin_attempts] in H.
  - injection H as <- <-. split; [apply stable_refl | discriminate].
  - apply obind_done in H. destruct H as [[r1 w1] [A H]].
    apply fin_attempt_stable in A. destruct A as [A1 A2].
    destruct r1 as [e|[g|]].
    + injection H as <- <-. split; assumption.
    + injection H as <- <-. split; [exact A1 | discriminate].
    + change (milliseconds w1)
        with (wrap64 (hd 0 (clock w1)), set_clock w1 (tl (clock w1))) in H.
      cbv iota beta in H. apply IH in H. destruct H as [B1 B2].
      split; [|exact B2].
      apply (stable_trans L w w1 _ A1).
      refine (stable_trans L w1 _ w' _ B1). apply stable_same; reflexivity.
Qed.

Lemma await_queued_stable accept interface c (events : list env_event) :
  forall w got w',
    Tcp.await_queued ip accept interface c events w = Done (got, w') ->
    stable w w'.
Proof.
  induction events as [|e rest IH]; intros w got w' H.
  - cbn [Tcp.await_queued] in H.
    apply obind_done in H. destruct H as [connection [G H]].
    destruct (Tcp.drain accept (Tcp.packets connection)) as [[g q] dels].
    assert (S1 : stable w (emit (put_connection w c
                                   (Tcp.set_packets connection q)) dels)).
    { refine (stable_trans L w _ _
                (stable_put_connection L w c connection _ G
                   (set_packets_links connection q)) _).
      apply stable_same; reflexivity. }
    destruct g as [g|]; injection H as _ <-; [exact S1|].
    refine (stable_trans L w _ _ S1 _). apply stable_same; reflexivity.
  - cbn [Tcp.await_queued] in H.
    apply obind_done in H. destruct H as [connection [G H]].
    destruct (Tcp.drain accept (Tcp.packets connection)) as [[g q] dels].
    assert (S1 : stable w (emit (put_connection w c
                                   (Tcp.set_packets connection q)) dels)).
    { refine (stable_trans L w _ _
                (stable_put_connection L w c connection _ G
                   (set_packets_links connection q)) _).
      apply stable_same; reflexivity. }
    destruct g as [g|]; [injection H as _ <-; exact S1|].
    destruct e as [p|].
    + apply obind_done in H. destruct H as [[pd w2] [D H]].
      apply decode_stable in D. destruct D as [D _].
      apply IH in H.
      refine (stable_trans L w _ _ S1 _).
      refine (stable_trans L _ (set_script _ rest) _ _ _);
        [apply stable_same; reflexivity|].
      exact (stable_trans L _ w2 w' D H).
    + injection H as _ <-.
      refine (stable_trans L w _ _ S1 _). apply stable_same; reflexivity.
Qed.

(** What [disconnect] leaves of the record of the connection. *)
Lemma disconnect_spec sock w s c conn r w' :
  get_socket w sock = Done s ->
  Socket.connection_data s = Some c ->
  get_connection w c = Done conn ->
  Tcp.disconnect ip sock w = Done (r, w') ->
  match r with
  | Value _ =>
      Tcp.connected conn = true /\
      lookup c (ConnectionHandler.entries (connections w')) = None /\
      (forall k, k <> c ->
         option_rel same_links
           (lookup k (ConnectionHandler.entries (connections w)))
           (lookup k (ConnectionHandler.entries (connections w')))) /\
      (forall k, option_rel same_socket (lookup k (sockets w))
                            (lookup k (sockets w'))) /\
      local_port_counter w' = local_port_counter w
  | Unexpected _ => stable w w'
  end.
Proof.
  intros G CD GC. unfold Tcp.disconnect. rewrite G. cbn [obind].
  unfold Socket.get_connection_data. rewrite CD. cbn [obind].
  rewrite GC. cbn [obind].
  destruct (Tcp.connected conn) eqn:Hc; cbn [negb].
  2:{ intros H. injection H as <- <-. apply stable_refl. }
  set (interface := select_interface ip (Tcp.server_address conn)).
  destruct (Tcp.kernel_prepare_packet ip interface conn 0 w) as [pkt w1] eqn:K.
  apply kernel_prepare_packet_stable in K.
  destruct pkt as [p|e]; [|intros H; injection H as <- <-; exact K].
  set (p1 := Tcp.set_header_flags p _).
  destruct (stable_connection L w w1 c conn K GC) as [conn1 [G1 _]].
  set (w2 := put_connection w1 c (Tcp.set_listening conn true)).
  assert (S2 : stable w w2).
  { apply (stable_trans L w w1 _ K).
    apply (stable_put_connection L w1 c conn1 _ G1).
    destruct (stable_connection L w w1 c conn K GC) as [x [Gx Lx]].
    rewrite G1 in Gx. injection Gx as <-.
    unfold same_links in *. cbn. intuition congruence. }
  intros H. apply obind_done in H. destruct H as [[r3 w3] [A H]].
  apply fin_attempts_stable in A. destruct A as [S3 N3].
  assert (S03 : stable w w3) by exact (stable_trans L w w2 w3 S2 S3).
  destruct r3 as [e|got].
  { injection H as <- <-. destruct e as [[]|e]; [congruence | exact S03]. }
  set (w4 := emit w3 [Delete (payload p1)]) in *.
  assert (S04 : stable w w4).
  { apply (stable_trans L w w3 _ S03). apply stable_same; reflexivity. }
  destruct got as [[[seq ack] rflags]|];
    [|injection H as <- <-; exact S04].
  apply obind_done in H. destruct H as [connection1 [G4 H]].
  set (w5 := put_connection w4 c (Tcp.set_numbers connection1 ack (seq + 1)))
    in *.
  assert (S05 : stable w w5).
  { apply (stable_trans L w w4 _ S04).
    apply (stable_put_connection L w4 c connection1 _ G4).
    apply set_numbers_links. }
  apply obind_done in H. destruct H as [[ok w6] [B H]].
  assert (S06 : stable w w6).
  { destruct (Tcp.is_fin_ack rflags).
    - injection B as _ <-. exact S05.
    - change (milliseconds w5)
        with (wrap64 (hd 0 (clock w5)), set_clock w5 (tl (clock w5))) in B.
      cbv iota beta zeta in B.
      apply obind_done in B. destruct B as [[got2 wb] [Q B]].
      assert (S5b : stable w wb).
      { apply (stable_trans L w w5 _ S05).
        destruct (Tcp.expired _ _).
        - injection Q as _ <-. apply stable_same; reflexivity.
        - apply await_queued_stable in Q.
          refine (stable_trans L w5 _ wb _ Q). apply stable_same; reflexivity. }
      destruct got2 as [[[seq2 ack2] f2]|].
      + apply obind_done in B. destruct B as [connection2 [Gb B]].
        injection B as _ <-.
        apply (stable_trans L w wb _ S5b).
        apply (stable_put_connection L wb c connection2 _ Gb).
        apply set_numbers_links.
      + injection B as _ <-. exact S5b. }
  destruct ok; cbn [negb] in H; [|injection H as <- <-; exact S06].
  apply obind_done in H. destruct H as [connection3 [G6 H]].
  set (connection4 := Tcp.set_listening connection3 false) in *.
  set (w7 := put_connection w6 c connection4) in *.
  assert (S07 : stable w w7).
  { apply (stable_trans L w w6 _ S06).
    apply (stable_put_connection L w6 c connection3 _ G6).
    apply set_listening_links. }
  destruct (Tcp.kernel_prepare_packet ip interface connection4 0 w7)
    as [pkt2 w8] eqn:K2.
  apply kernel_prepare_packet_stable in K2.
  assert (S08 : stable w w8) by exact (stable_trans L w w7 w8 S07 K2).
  destruct pkt2 as [q|e]; [|injection H as <- <-; exact S08].
  destruct (Tcp.finalize_packet_direct ip interface _ w8)
    as [[r9 p9] w9] eqn:F9.
  apply finalize_packet_direct_stable in F9. destruct F9 as [F9 _].
  assert (S09 : stable w w9) by exact (stable_trans L w w8 w9 S08 F9).
  apply obind_done in H. destruct H as [connection5 [G9 H]].
  injection H as <- <-.
  split; [reflexivity|]. split; [|split; [|split]].
  - cbn [connections set_connections put_connection
         ConnectionHandler.remove_connection ConnectionHandler.entries].
    apply lookup_remove_same.
  - intros k N.
    cbn [connections set_connections put_connection
         ConnectionHandler.remove_connection ConnectionHandler.entries].
    rewrite lookup_remove_other by exact N. rewrite lookup_update.
    destruct S09 as (_ & _ & _ & SC & _). specialize (SC k).
    destruct (lookup k (ConnectionHandler.entries (connections w))) as [x|];
      destruct (lookup k (ConnectionHandler.entries (connections w9)))
        as [y|]; cbn [option_rel] in SC |- *; try contradiction; try exact I.
    replace (Nat.eqb k c) with false
      by (symmetry; apply Nat.eqb_neq; exact N).
    exact SC.
  - intros k. destruct S09 as (_ & _ & _ & _ & SS). exact (SS k).
  - destruct S09 as (SP & _). exact SP.
Qed.

End TcpDisconnect.

(** X26.  [disconnect] removes the record of the connection exactly when
    it succeeds.  After a successful [disconnect] the record is gone from
    the table, while the other connections and all sockets keep their
    identity and the port counter its value.  After a failed one (not
    connected, no packet, a refused frame, no FIN|ACK in time) the record
    is still there with its ports, address, socket and connected mark, and
    so is everything else. *)
Theorem tcp_disconnect_removes_record_on_success :
  forall (L : Type) (ip : ip_layer L) (sock c : nat) (w w' : Tcp.state L)
         (s : Socket.socket) (conn : Tcp.tcp_connection) (r : expected unit),
    get_socket w sock = Done s ->
    Socket.connection_data s = Some c ->
    get_connection w c = Done conn ->
    Tcp.disconnect ip sock w = Done (r, w') ->
    match r with
    | Value _ =>
        Tcp.connected conn = true /\
        lookup c (ConnectionHandler.entries (connections w')) = None /\
        (forall k, k <> c ->
           option_rel same_links
             (lookup k (ConnectionHandler.entries (connections w)))
             (lookup k (ConnectionHandler.entries (connections w')))) /\
        (forall k, option_rel same_socket (lookup k (sockets w))
                              (lookup k (sockets w'))) /\
        local_port_counter w' = local_port_counter w
    | Unexpected _ =>
        stable w w' /\
        exists conn', get_connection w' c = Done conn' /\ same_links conn conn'
    end.
Proof.
  intros L ip sock c w w' s conn r G CD GC H.
  pose proof (disconnect_spec L ip sock w s c conn r w' G CD GC H) as D.
  destruct r as [u|e]; [exact D|].
  split; [exact D|]. apply (stable_connection L w w' c conn D GC).
Qed.

Lemma tcp_disconnect_removes_record_on_success_witness :
  let w := connected_world [Arrival fin_ack_reply] in
  let w' := state_after (Tcp.disconnect IpModel.layer 0 w) w in
  Tcp.connected established = true /\
  lookup 0%nat (ConnectionHandler.entries (connections w')) = None /\
  (forall k, k <> 0%nat ->
     option_rel same_links
       (lookup k (ConnectionHandler.entries (connections w)))
       (lookup k (ConnectionHandler.entries (connections w')))) /\
  (forall k, option_rel same_socket (lookup k (sockets w))
                        (lookup k (sockets w'))) /\
  local_port_counter w' = local_port_counter w.
Proof.
  apply (tcp_disconnect_removes_record_on_success IpModel.lower IpModel.layer
           0%nat 0%nat (connected_world [Arrival fin_ack_reply])
           (state_after (Tcp.disconnect IpModel.layer 0
                           (connected_world [Arrival fin_ack_reply]))
                        (connected_world [Arrival fin_ack_reply]))
           (Socket.set_connection_data stream_socket (Some 0%nat))
           established (Value tt)).
  - vm_compute. reflexivity.
  - reflexivity.
  - vm_compute. reflexivity.
  - vm_compute. reflexivity.
Defined.



Section TcpDisconnectSilent.
Variable L : Type.
Variable ip : ip_layer L.
Variable interface : interface_descriptor.
Variable good : L -> Prop.
Hypothesis Acc : accepting ip interface good.



End TcpDisconnectSilent.



(* ===================================================================== *)
(** ** UDP: bind and unbind *)
(* ===================================================================== *)

Lemma remove_update {A : Type} (c : nat) (a : A) (t : table A) :
  remove c (update c a t) = remove c t.
Proof.
  induction t as [|[k x] t IH]; simpl; [reflexivity|].
  destruct (Nat.eqb k c) eqn:E; simpl; rewrite E; [reflexivity|].
  rewrite IH. reflexivity.
Qed.

Lemma remove_app_fresh {A : Type} (c : nat) (a : A) (t : table A) :
  lookup c t = None -> remove c (t ++ [(c, a)]) = t.
Proof.
  induction t as [|[k x] t IH]; simpl.
  - intros _. rewrite Nat.eqb_refl. reflexivity.
  - destruct (Nat.eqb k c); [discriminate|]. intros H.
    rewrite IH by exact H. reflexivity.
Qed.

(** X28.  On a table whose handles are below the next handle, [client_bind]
    and then [client_unbind] both succeed.  The bind returns the port
    counter plus one and leaves a record with that port, the server port
    and address given, marked connected and linked with the socket both
    ways; the unbind takes the record out again, so the entries of the
    table are as before the bind, while the port counter and the handle
    counter have moved on and the socket keeps its reference. *)
Theorem udp_bind_unbind_round_trip :
  forall (L : Type) (sock : nat) (port server : Z) (w : Udp.state L)
         (s : Socket.socket),
    get_socket w sock = Done s ->
    handles_fresh w ->
    let c := ConnectionHandler.next_handle (connections w) in
    let v := wrap64 (local_port_counter w + 1) in
    exists w1 w2 : Udp.state L,
      Udp.client_bind sock port server w = Done (Value v, w1) /\
      get_connection w1 c
      = Done (Udp.mk_connection v port server true (Some sock)) /\
      get_socket w1 sock = Done (Socket.set_connection_data s (Some c)) /\
      Udp.client_unbind sock w1 = Done (Value tt, w2) /\
      ConnectionHandler.entries (connections w2)
      = ConnectionHandler.entries (connections w) /\
      ConnectionHandler.next_handle (connections w2) = S c /\
      local_port_counter w2 = v /\
      get_socket w2 sock = Done (Socket.set_connection_data s (Some c)).
Proof.
  intros L sock port server w s G F. cbv zeta.
  pose proof (handles_fresh_lookup w F) as Fr.
  set (c := ConnectionHandler.next_handle (connections w)) in *.
  set (v := wrap64 (local_port_counter w + 1)).
  set (conn1 := Udp.mk_connection v port server true (Some sock)).
  set (s1 := Socket.set_connection_data s (Some c)).
  assert (Look : lookup sock (sockets w) = Some s).
  { unfold get_socket in G. destruct (lookup sock (sockets w));
      [injection G as ->; reflexivity | discriminate]. }
  set (t1 := ConnectionHandler.entries (connections w)
             ++ [(c, ConnectionHandler.fresh (T := Udp.udp_connection))]).
  assert (Lc : lookup c t1 = Some ConnectionHandler.fresh)
    by (apply lookup_app_fresh; exact Fr).
  set (w1 := put_connection
               (put_socket
                  (set_local_port_counter
                     (set_connections w (ConnectionHandler.mk_handler t1 (S c)))
                     v)
                  sock s1)
               c conn1).
  assert (B : Udp.client_bind sock port server w = Done (Value v, w1)).
  { unfold Udp.client_bind, ConnectionHandler.create_connection. cbv zeta.
    fold c. fold t1. unfold get_connection at 1.
    cbn [connections set_connections ConnectionHandler.entries].
    rewrite Lc. cbn [obind].
    unfold get_socket at 1.
    cbn [sockets set_local_port_counter set_connections].
    rewrite Look. cbn [obind]. reflexivity. }
  assert (G1 : get_socket w1 sock = Done s1).
  { unfold get_socket, w1.
    cbn [sockets put_connection put_socket set_sockets set_connections
         set_local_port_counter].
    rewrite (lookup_update_same sock s1 s (sockets w) Look). reflexivity. }
  assert (C1 : get_connection w1 c = Done conn1).
  { unfold get_connection, w1.
    cbn [connections put_connection put_socket set_sockets set_connections
         set_local_port_counter ConnectionHandler.entries].
    rewrite (lookup_update_same c conn1 _ t1 Lc). reflexivity. }
  exists w1. eexists.
  split; [exact B|]. split; [exact C1|]. split; [exact G1|].
  split.
  { unfold Udp.client_unbind. rewrite G1. cbn [obind].
    unfold Socket.get_connection_data, s1.
    cbn [Socket.connection_data Socket.set_connection_data obind].
    rewrite C1. cbn [obind negb Udp.connected conn1]. reflexivity. }
  cbn [connections set_connections put_connection put_socket set_sockets
       set_local_port_counter ConnectionHandler.remove_connection
       ConnectionHandler.entries ConnectionHandler.next_handle
       local_port_counter sockets w1].
  split; [|split; [reflexivity|split; [reflexivity|]]].
  - rewrite !remove_update. apply remove_app_fresh. exact Fr.
  - unfold get_socket.
    cbn [sockets set_connections put_connection put_socket set_sockets
         set_local_port_counter w1].
    rewrite (lookup_update_same sock s1 s (sockets w) Look). reflexivity.
Qed.

Lemma udp_bind_unbind_round_trip_witness :
  exists w1 w2 : Udp.state IpModel.lower,
    Udp.client_bind 0 7 0x0A000002 (udp_start [])
    = Done (Value (wrap64 (local_port_counter (udp_start []) + 1)), w1) /\
    get_connection w1 0%nat
    = Done (Udp.mk_connection
              (wrap64 (local_port_counter (udp_start []) + 1))
              7 0x0A000002 true (Some 0%nat)) /\
    get_socket w1 0
    = Done (Socket.set_connection_data datagram_socket (Some 0%nat)) /\
    Udp.client_unbind 0 w1 = Done (Value tt, w2) /\
    ConnectionHandler.entries (connections w2)
    = ConnectionHandler.entries (connections (udp_start [])) /\
    ConnectionHandler.next_handle (connections w2) = 1%nat /\
    local_port_counter w2 = wrap64 (local_port_counter (udp_start []) + 1) /\
    get_socket w2 0
    = Done (Socket.set_connection_data datagram_socket (Some 0%nat)).
Proof.
  apply (udp_bind_unbind_round_trip IpModel.lower 0%nat 7 0x0A000002
           (udp_start []) datagram_socket).
  - vm_compute. reflexivity.
  - unfold handles_fresh. vm_compute. constructor.
Defined.

(* ===================================================================== *)
(** * Stream transport: the numbers and the frames of a run *)
(* ===================================================================== *)







Section RunInvariant.
Variable L : Type.
Variable ip : ip_layer L.
Implicit Types w : Tcp.state L.












End RunInvariant.



(* ===================================================================== *)
(** ** Stream transport: sequence numbers after a send *)
(* ===================================================================== *)



(* ===================================================================== *)
(** ** Stream transport: retransmission *)
(* ===================================================================== *)




(** C2, user-backed packets: the frames of a run need not be equal.  In
    this run of [finalize_packet] on the packet that [send("xyz")] prepares
    in the caller's buffer, nothing arrives during the first wait and the
    acknowledgement during the second.  The run hands over two frames: the
    first with its cursor at the stream header, the second, which is the
    same packet as the reference internet layer returned it, with its
    cursor at the start of the frame. *)
Lemma tcp_user_retry_frames_differ :
  let run := user_retry_run [Timeout; Arrival ack_frame] in
  result_of run = Some (Value tt) /\
  exists f1 f2 : packet,
    frames_of run = [f1; f2] /\
    user f1 = true /\ index f1 = 34 /\ index f2 = 0 /\ f1 <> f2.
Proof.
  intros run. split; [vm_compute; reflexivity|].
  eexists. eexists. split; [vm_compute; reflexivity|].
  split; [reflexivity|]. split; [reflexivity|]. split; [reflexivity|].
  intros E. apply (f_equal index) in E. vm_compute in E. discriminate E.
Qed.
